(** * TabularMagic: feature selection and machine-learning reports

    A shallow embedding of

    - [tabularmagic/_src/feature_selection/regression_feature_selection.py]
      ([KBestSelectorR], [LassoSelectorR]),
    - [tabularmagic/_src/interactive/classification/mlclass.py]
      (module [Classification] below),
    - [tabularmagic/_src/interactive/regression/mlreg.py]
      (module [Regression] below),

    together with the small part of the Python runtime, of pandas and of
    scikit-learn that these files lean on.  Python methods that print to the
    console or raise are functions into the monad [Py]; a Python [dict] is an
    association list in insertion order. *)

From Stdlib Require Import String Ascii Bool Arith ZArith Lia Permutation DecimalString List.
Import ListNotations.
Open Scope string_scope.
Open Scope list_scope.

(* ===================================================================== *)
(** * Python runtime *)
(* ===================================================================== *)

(** The exceptions the modelled code can raise.  The last two are
    scikit-learn's: [InvalidParameterError] derives from [ValueError] and
    [TypeError], [NotFittedError] from [ValueError] and [AttributeError]. *)
Inductive PyExn : Type :=
| ValueError (msg : string)
| KeyError (key : string)
| IndexError (msg : string)
| TypeError (msg : string)
| AttributeError (msg : string)
| InvalidParameterError (msg : string)
| NotFittedError (msg : string).

(** One call of [print_wrapped(text, type=...)] of [util/console.py]. *)
Record Printed : Type := mkPrinted { printed_text : string; printed_type : string }.

(** A computation prints a sequence of messages and then either raises or
    returns.  What was printed before an exception stays printed. *)
Definition Py (A : Type) : Type := (list Printed * (PyExn + A))%type.

Definition ret {A : Type} (a : A) : Py A := ([], inr a).

Definition raise {A : Type} (e : PyExn) : Py A := ([], inl e).

(** A call into a library that prints nothing: it raises or returns. *)
Definition of_result {A : Type} (r : PyExn + A) : Py A := ([], r).

Definition bind {A B : Type} (m : Py A) (k : A -> Py B) : Py B :=
  match m with
  | (out, inl e) => (out, inl e)
  | (out, inr a) => let (out', r) := k a in (out ++ out', r)
  end.

Declare Scope py_scope.
Delimit Scope py_scope with py.
Notation "x <- m ;; k" := (bind m (fun x => k))
  (at level 61, m at next level, right associativity) : py_scope.
Notation "m ;; k" := (bind m (fun _ => k))
  (at level 61, right associativity) : py_scope.
Open Scope py_scope.

Definition print_wrapped (text type : string) : Py unit :=
  ([mkPrinted text type], inr tt).

(** A list comprehension whose body has effects: left to right, stopping at
    the first exception. *)
Fixpoint comprehension {A B : Type} (body : A -> Py B) (l : list A) : Py (list B) :=
  match l with
  | [] => ret []
  | a :: l' => b <- body a ;; bs <- comprehension body l' ;; ret (b :: bs)
  end.

(** [l[i]] on a Python list, for [i >= 0]. *)
Definition list_getitem {A : Type} (l : list A) (i : nat) : Py A :=
  match nth_error l i with
  | Some a => ret a
  | None => raise (IndexError "list index out of range")
  end.

(** [obj.attr] where [obj] may be [None]. *)
Definition getattr_of {A : Type} (obj : option A) (attr : string) : Py A :=
  match obj with
  | Some a => ret a
  | None => raise (AttributeError ("'NoneType' object has no attribute '" ++ attr ++ "'")%string)
  end.

(** The double-quote character (code 34), for messages that quote a word. *)
Definition dquote : string := String (ascii_of_nat 34) EmptyString.

(** ** dict

    Insertion ordered: assigning to a key that is present replaces the value
    and keeps the key's place; a new key goes last. *)
Module PyDict.

Definition t (V : Type) : Type := list (string * V).

Definition empty {V : Type} : t V := [].

Fixpoint setitem {V : Type} (k : string) (v : V) (d : t V) : t V :=
  match d with
  | [] => [(k, v)]
  | (k', v') :: d' =>
      if String.eqb k' k then (k', v) :: d' else (k', v') :: setitem k v d'
  end.

Fixpoint get {V : Type} (k : string) (d : t V) : option V :=
  match d with
  | [] => None
  | (k', v') :: d' => if String.eqb k' k then Some v' else get k d'
  end.

(** [d[k]] *)
Definition getitem {V : Type} (k : string) (d : t V) : Py V :=
  match get k d with
  | Some v => ret v
  | None => raise (KeyError k)
  end.

Definition keys {V : Type} (d : t V) : list string := map fst d.

Definition values {V : Type} (d : t V) : list V := map snd d.

(** [{key(x): value(x) for x in l}] *)
Definition comp {A V : Type} (key : A -> string) (value : A -> V) (l : list A) : t V :=
  fold_left (fun d x => setitem (key x) (value x) d) l empty.

End PyDict.

(* ===================================================================== *)
(** * pandas and numpy *)
(* ===================================================================== *)

(** A [pd.DataFrame] as the sequence of its columns, each with its label.
    The row index plays no part in what follows. *)
Definition DataFrame (Col : Type) : Type := list (string * Col).

(** [df.columns.to_list()] *)
Definition columns_to_list {Col : Type} (df : DataFrame Col) : list string :=
  map fst df.

(** The objects of a list that are not [None], in order. *)
Fixpoint drop_none {A : Type} (l : list (option A)) : list A :=
  match l with
  | [] => []
  | Some a :: l' => a :: drop_none l'
  | None :: l' => drop_none l'
  end.

(** [pd.concat(objs, axis=1)]: the columns of the frames side by side, in
    the order of [objs].  pandas drops the [None] entries silently and
    raises [ValueError] when there is nothing to concatenate. *)
Definition pd_concat_axis1 {Col : Type} (objs : list (option (DataFrame Col)))
  : Py (DataFrame Col) :=
  match objs with
  | [] => raise (ValueError "No objects to concatenate")
  | _ :: _ =>
      match drop_none objs with
      | [] => raise (ValueError "All objects passed were None")
      | frames => ret (List.concat frames)
      end
  end.

(** An array of shape [(n,)] given by its entries. *)
Definition ndarray_of {A : Type} (n : nat) (entry : nat -> A) : list A :=
  map entry (seq 0 n).

(** [np.zeros(n, dtype=bool)] *)
Definition np_zeros_bool (n : nat) : list bool := repeat false n.

(** [a[i] = v] on an array; numpy raises out of range, which the callers
    below never reach, and the model leaves the array as it is there. *)
Fixpoint np_set {A : Type} (i : nat) (v : A) (a : list A) : list A :=
  match a, i with
  | [], _ => []
  | _ :: a', O => v :: a'
  | x :: a', S i' => x :: np_set i' v a'
  end.

(** [mask[indices] = True] *)
Definition np_set_true (indices : list nat) (mask : list bool) : list bool :=
  fold_left (fun m i => np_set i true m) indices mask.

(** [a[mask]]: the entries of [a] where the boolean [mask] holds. *)
Definition positional_filter {A : Type} (a : list A) (mask : list bool) : list A :=
  map fst (filter snd (combine a mask)).

(** numpy checks the shapes before indexing. *)
Definition np_boolean_index {A : Type} (a : list A) (mask : list bool) : Py (list A) :=
  if Nat.eqb (length mask) (length a) then ret (positional_filter a mask)
  else raise (IndexError "boolean index did not match indexed array").

(** [l[-k:]] for [k > 0]: the last [k] entries, all of them when [l] is shorter. *)
Definition last_k {A : Type} (k : nat) (l : list A) : list A :=
  skipn (length l - k) l.

Section Argsort.

Variable K : Type.
Variable leb : K -> K -> bool.

(** One step of a stable insertion sort of (index, key) pairs by key: the
    pair goes before the first pair whose key is not smaller. *)
Fixpoint argsort_insert (x : nat * K) (sorted : list (nat * K)) : list (nat * K) :=
  match sorted with
  | [] => [x]
  | y :: rest =>
      if leb (snd x) (snd y) then x :: sorted
      else y :: argsort_insert x rest
  end.

(** [np.argsort(keys, kind=mergesort)]: the indices in ascending order of
    their keys, equal keys in index order. *)
Definition np_argsort (keys : list K) : list nat :=
  map fst (fold_right argsort_insert [] (combine (seq 0 (length keys)) keys)).

End Argsort.

Arguments argsort_insert {K} leb x sorted.
Arguments np_argsort {K} leb keys.

(** ** Facts about the runtime *)

Lemma bind_returns {A B : Type} (m : Py A) (k : A -> Py B) out b :
  bind m k = (out, inr b) ->
  exists out1 a out2, m = (out1, inr a) /\ k a = (out2, inr b) /\ out = out1 ++ out2.
Proof.
  unfold bind. destruct m as [out1 [e | a]]; [discriminate |].
  destruct (k a) as [out2 r] eqn:Hk. intros H. inversion H; subst.
  exists out1, a, out2. auto.
Qed.

Lemma bind_ret_l {A B : Type} (a : A) (k : A -> Py B) : bind (ret a) k = k a.
Proof. unfold bind, ret. destruct (k a); reflexivity. Qed.

Lemma length_np_set {A : Type} (i : nat) (v : A) (a : list A) :
  length (np_set i v a) = length a.
Proof.
  revert i. induction a as [| x a IH]; intros [| i]; simpl; auto.
Qed.

Lemma length_np_set_true (indices : list nat) (mask : list bool) :
  length (np_set_true indices mask) = length mask.
Proof.
  unfold np_set_true. revert mask.
  induction indices as [| i indices IH]; intros mask; simpl; [reflexivity |].
  rewrite IH. apply length_np_set.
Qed.

Lemma length_np_zeros_bool (n : nat) : length (np_zeros_bool n) = n.
Proof. apply repeat_length. Qed.

Lemma length_ndarray_of {A : Type} (n : nat) (entry : nat -> A) :
  length (ndarray_of n entry) = n.
Proof. unfold ndarray_of. rewrite length_map. apply length_seq. Qed.

Lemma np_boolean_index_same_length {A : Type} (a : list A) (mask : list bool) :
  length mask = length a ->
  np_boolean_index a mask = ret (positional_filter a mask).
Proof.
  intros H. unfold np_boolean_index. rewrite H, Nat.eqb_refl. reflexivity.
Qed.

Lemma np_boolean_index_returns {A : Type} (a : list A) (mask : list bool) out r :
  np_boolean_index a mask = (out, inr r) ->
  length mask = length a /\ r = positional_filter a mask.
Proof.
  unfold np_boolean_index.
  destruct (Nat.eqb (length mask) (length a)) eqn:E; [| discriminate].
  intros H. inversion H. split; [now apply Nat.eqb_eq | reflexivity].
Qed.

Lemma comprehension_outputs {A B : Type} (body : A -> Py B)
    (printed : A -> list Printed) (value : A -> B) (l : list A) :
  (forall a, In a l -> body a = (printed a, inr (value a))) ->
  comprehension body l = (flat_map printed l, inr (map value l)).
Proof.
  induction l as [| a l IH]; intros H; simpl; [reflexivity |].
  rewrite (H a (or_introl eq_refl)), IH by (intros; apply H; now right).
  simpl. now rewrite app_nil_r.
Qed.

Lemma comprehension_silent {A B : Type} (body : A -> Py B) (value : A -> B) (l : list A) :
  (forall a, In a l -> body a = ret (value a)) ->
  comprehension body l = ret (map value l).
Proof.
  intros H. rewrite (comprehension_outputs body (fun _ => []) value l H).
  unfold ret. f_equal. clear H. induction l; simpl; auto.
Qed.

Lemma drop_none_map_Some {A : Type} (l : list A) : drop_none (map Some l) = l.
Proof. induction l; simpl; congruence. Qed.

Lemma pd_concat_axis1_frames {Col : Type} (frames : list (DataFrame Col)) :
  frames <> [] ->
  pd_concat_axis1 (map Some frames) = ret (List.concat frames).
Proof.
  intros H. unfold pd_concat_axis1.
  destruct frames as [| f frames]; [congruence |].
  change (map Some (f :: frames)) with (Some f :: map Some frames).
  cbv beta iota. simpl drop_none. rewrite drop_none_map_Some. reflexivity.
Qed.

(** ** Facts about dict *)

Section PyDictFacts.

Context {A V : Type}.
Variable key : A -> string.
Variable value : A -> V.

Lemma get_setitem_same (k : string) (v : V) (d : PyDict.t V) :
  PyDict.get k (PyDict.setitem k v d) = Some v.
Proof.
  induction d as [| [k' v'] d IH]; simpl.
  - now rewrite String.eqb_refl.
  - destruct (String.eqb k' k) eqn:E; simpl; rewrite E; auto.
Qed.

Lemma get_setitem_other (k k' : string) (v : V) (d : PyDict.t V) :
  k' <> k -> PyDict.get k (PyDict.setitem k' v d) = PyDict.get k d.
Proof.
  intros Hne. induction d as [| [k0 v0] d IH]; simpl.
  - destruct (String.eqb k' k) eqn:E; auto.
    apply String.eqb_eq in E. contradiction.
  - destruct (String.eqb k0 k') eqn:E; simpl.
    + apply String.eqb_eq in E. subst k0.
      destruct (String.eqb k' k) eqn:E2; auto.
      apply String.eqb_eq in E2. contradiction.
    + destruct (String.eqb k0 k); auto.
Qed.

Let assign (d : PyDict.t V) (x : A) : PyDict.t V :=
  PyDict.setitem (key x) (value x) d.

Lemma get_assignments_other (k : string) (l : list A) (d : PyDict.t V) :
  (forall x, In x l -> key x <> k) ->
  PyDict.get k (fold_left assign l d) = PyDict.get k d.
Proof.
  revert d. induction l as [| x l IH]; intros d H; simpl; [reflexivity |].
  rewrite IH by (intros; apply H; now right).
  apply get_setitem_other, H. now left.
Qed.

(** A comprehension resolves a key to the value of the last element that
    carries it. *)
Lemma get_comp_latest (before after : list A) (x : A) :
  (forall y, In y after -> key y <> key x) ->
  PyDict.get (key x) (PyDict.comp key value (before ++ x :: after)) = Some (value x).
Proof.
  intros H. unfold PyDict.comp. rewrite fold_left_app. simpl.
  fold assign. rewrite get_assignments_other by assumption.
  apply get_setitem_same.
Qed.

Lemma get_comp_absent (k : string) (l : list A) :
  (forall y, In y l -> key y <> k) ->
  PyDict.get k (PyDict.comp key value l) = None.
Proof.
  intros H. unfold PyDict.comp. fold assign.
  now rewrite get_assignments_other.
Qed.

Lemma setitem_fresh (k : string) (v : V) (d : PyDict.t V) :
  ~ In k (PyDict.keys d) -> PyDict.setitem k v d = d ++ [(k, v)].
Proof.
  induction d as [| [k' v'] d IH]; simpl; intros H; [reflexivity |].
  destruct (String.eqb k' k) eqn:E.
  - apply String.eqb_eq in E. tauto.
  - rewrite IH by tauto. reflexivity.
Qed.

Lemma assignments_distinct (l : list A) (d : PyDict.t V) :
  NoDup (PyDict.keys d ++ map key l) ->
  fold_left assign l d = d ++ map (fun x => (key x, value x)) l.
Proof.
  revert d. induction l as [| x l IH]; intros d H; simpl.
  - now rewrite app_nil_r.
  - apply NoDup_remove in H as H'. destruct H' as [Hnd Hnotin].
    unfold assign at 2. rewrite setitem_fresh.
    + rewrite IH.
      * now rewrite <- app_assoc.
      * unfold PyDict.keys in *. rewrite map_app. simpl.
        rewrite <- app_assoc. exact H.
    + intros Hin. apply Hnotin. apply in_or_app. now left.
Qed.

(** With distinct keys the dict lists the elements in the order given. *)
Lemma values_comp_distinct (l : list A) :
  NoDup (map key l) -> PyDict.values (PyDict.comp key value l) = map value l.
Proof.
  intros H. unfold PyDict.comp. fold assign.
  rewrite assignments_distinct by exact H. simpl.
  unfold PyDict.values. rewrite map_map. reflexivity.
Qed.

Lemma setitem_keys_incl (k : string) (v : V) (d : PyDict.t V) (k0 : string) :
  In k0 (PyDict.keys (PyDict.setitem k v d)) -> k0 = k \/ In k0 (PyDict.keys d).
Proof.
  induction d as [| [k' v'] d IH]; simpl.
  - intros [H | []]; auto.
  - destruct (String.eqb k' k) eqn:E; simpl; intros [H | H]; auto.
    destruct (IH H); auto.
Qed.

Lemma NoDup_keys_setitem (k : string) (v : V) (d : PyDict.t V) :
  NoDup (PyDict.keys d) -> NoDup (PyDict.keys (PyDict.setitem k v d)).
Proof.
  induction d as [| [k' v'] d IH]; simpl; intros H.
  - constructor; [intros [] | constructor].
  - inversion H as [| ? ? Hnotin Hnd]; subst.
    destruct (String.eqb k' k) eqn:E; simpl.
    + constructor; assumption.
    + constructor; [| now apply IH].
      intros Hin. apply setitem_keys_incl in Hin as [-> | Hin]; [| contradiction].
      now rewrite String.eqb_refl in E.
Qed.

(** A dict never lists a key twice, whatever the comprehension ran over. *)
Lemma NoDup_keys_comp (l : list A) : NoDup (PyDict.keys (PyDict.comp key value l)).
Proof.
  unfold PyDict.comp. fold assign.
  assert (forall d, NoDup (PyDict.keys d) -> NoDup (PyDict.keys (fold_left assign l d))) as H.
  { induction l as [| x l IH]; intros d Hd; simpl; [exact Hd |].
    apply IH. now apply NoDup_keys_setitem. }
  apply H. constructor.
Qed.

Lemma setitem_not_empty (k : string) (v : V) (d : PyDict.t V) :
  PyDict.setitem k v d <> [].
Proof. destruct d as [| [k' v'] d]; simpl; [| destruct (String.eqb k' k)]; discriminate. Qed.

Lemma assignments_not_empty (l : list A) (d : PyDict.t V) :
  d <> [] -> fold_left assign l d <> [].
Proof.
  revert d. induction l as [| x l IH]; intros d H; simpl; [exact H |].
  apply IH, setitem_not_empty.
Qed.

(** A comprehension over a non-empty list gives a non-empty dict. *)
Lemma comp_not_empty (l : list A) : l <> [] -> PyDict.comp key value l <> [].
Proof.
  destruct l as [| x l]; [congruence |]. intros _.
  unfold PyDict.comp. cbn [fold_left]. fold assign.
  apply assignments_not_empty, setitem_not_empty.
Qed.

End PyDictFacts.

(** ** Lookup after a comprehension, and the order of the keys *)

(** The last element of a list that carries a key. *)
Definition latest {A : Type} (key : A -> string) (k : string) (l : list A) : option A :=
  find (fun x => String.eqb (key x) k) (rev l).

(** A key goes to the end of the keys seen so far unless it is among them. *)
Definition add_key (seen : list string) (k : string) : list string :=
  if existsb (String.eqb k) seen then seen else seen ++ [k].

(** The distinct names of a list, each at the place of its first occurrence. *)
Definition first_occurrences (names : list string) : list string :=
  fold_left add_key names [].

Section PyDictLookup.

Context {A V : Type}.
Variable key : A -> string.
Variable value : A -> V.

Lemma comp_snoc (l : list A) (x : A) :
  PyDict.comp key value (l ++ [x])
  = PyDict.setitem (key x) (value x) (PyDict.comp key value l).
Proof. unfold PyDict.comp. now rewrite fold_left_app. Qed.

(** Looking a key up gives the value of the last element that carries it,
    and nothing when no element does. *)
Lemma get_comp (k : string) (l : list A) :
  PyDict.get k (PyDict.comp key value l) = option_map value (latest key k l).
Proof.
  unfold latest. induction l as [| x l IH] using rev_ind; [reflexivity |].
  rewrite comp_snoc, rev_app_distr. simpl.
  destruct (String.eqb_spec (key x) k) as [<- | Hne].
  - apply get_setitem_same.
  - rewrite get_setitem_other by exact Hne. exact IH.
Qed.

Lemma latest_none (k : string) (l : list A) :
  latest key k l = None <-> (forall x, In x l -> key x <> k).
Proof.
  unfold latest. split.
  - intros H x Hin. apply String.eqb_neq.
    apply (find_none _ _ H). now apply in_rev in Hin.
  - intros H. destruct (find _ (rev l)) as [x |] eqn:E; [| reflexivity].
    apply find_some in E as [Hin E]. apply String.eqb_eq in E.
    apply in_rev in Hin. now apply H in Hin.
Qed.

Lemma latest_some (k : string) (l : list A) (x : A) :
  latest key k l = Some x -> In x l /\ key x = k.
Proof.
  unfold latest. intros E. apply find_some in E as [Hin E].
  split; [now apply in_rev | now apply String.eqb_eq].
Qed.

Lemma keys_setitem (k : string) (v : V) (d : PyDict.t V) :
  PyDict.keys (PyDict.setitem k v d) = add_key (PyDict.keys d) k.
Proof.
  unfold add_key. induction d as [| [k' v'] d IH]; simpl; [reflexivity |].
  rewrite (String.eqb_sym k k').
  destruct (String.eqb k' k); simpl; [reflexivity |].
  rewrite IH. unfold PyDict.keys.
  destruct (existsb (String.eqb k) (map fst d)); reflexivity.
Qed.

(** The keys of a dict stand in the order in which they first came up. *)
Lemma keys_comp (l : list A) :
  PyDict.keys (PyDict.comp key value l) = first_occurrences (map key l).
Proof.
  unfold PyDict.comp, first_occurrences.
  change (@nil string) with (PyDict.keys (@PyDict.empty V)).
  generalize (@PyDict.empty V).
  induction l as [| x l IH]; intros d; simpl; [reflexivity |].
  rewrite IH, keys_setitem. reflexivity.
Qed.

Lemma values_by_keys {B : Type} (g : V -> B) (default : B) (d : PyDict.t V) :
  NoDup (PyDict.keys d) ->
  map g (PyDict.values d)
  = map (fun k => match PyDict.get k d with Some v => g v | None => default end)
        (PyDict.keys d).
Proof.
  unfold PyDict.values, PyDict.keys.
  induction d as [| [k v] d IH]; simpl; intros H; [reflexivity |].
  inversion H as [| ? ? Hnotin Hnd]; subst.
  rewrite String.eqb_refl. f_equal.
  rewrite IH by exact Hnd. apply map_ext_in.
  intros k' Hin. destruct (String.eqb_spec k k') as [-> | Hne]; [contradiction | reflexivity].
Qed.

(** The values of a dict, through any function of them: one per distinct
    key, in the order of the first occurrences, each from the last element
    that carries the key. *)
Lemma values_comp_latest {B : Type} (g : V -> B) (default : B) (l : list A) :
  map g (PyDict.values (PyDict.comp key value l))
  = map (fun k => match latest key k l with Some x => g (value x) | None => default end)
        (first_occurrences (map key l)).
Proof.
  rewrite (values_by_keys g default) by apply NoDup_keys_comp.
  rewrite keys_comp. apply map_ext. intros k. rewrite get_comp.
  destruct (latest key k l); reflexivity.
Qed.

Lemma values_setitem_incl (k : string) (v v0 : V) (d : PyDict.t V) :
  In v (PyDict.values (PyDict.setitem k v0 d)) -> v = v0 \/ In v (PyDict.values d).
Proof.
  unfold PyDict.values. induction d as [| [k' v'] d IH]; simpl.
  - intros [H | []]; auto.
  - destruct (String.eqb k' k); simpl; intros [H | H]; auto.
    destruct (IH H); auto.
Qed.

(** Every value of the dict is the value of some element. *)
Lemma values_comp_from (l : list A) (v : V) :
  In v (PyDict.values (PyDict.comp key value l)) -> exists x, In x l /\ v = value x.
Proof.
  induction l as [| x l IH] using rev_ind; [intros [] |].
  rewrite comp_snoc. intros H. apply values_setitem_incl in H as [-> | H].
  - exists x. split; [apply in_or_app; right; now left | reflexivity].
  - destruct (IH H) as (y & Hy & ->). exists y. split; [apply in_or_app; now left | reflexivity].
Qed.

End PyDictLookup.

Lemma latest_ext {A : Type} (key key' : A -> string) (k : string) (l : list A) :
  (forall x, In x l -> key x = key' x) -> latest key k l = latest key' k l.
Proof.
  unfold latest. intros H.
  assert (forall x, In x (rev l) -> key x = key' x) as H'
      by (intros x Hin; apply H; now apply in_rev).
  clear H. induction (rev l) as [| x r IH]; simpl; [reflexivity |].
  rewrite <- (H' x) by now left.
  destruct (String.eqb (key x) k); [reflexivity |].
  apply IH. intros y Hy. apply H'. now right.
Qed.

Lemma latest_map {A B : Type} (f : A -> B) (key : B -> string) (k : string) (l : list A) :
  latest key k (map f l) = option_map f (latest (fun x => key (f x)) k l).
Proof.
  unfold latest. rewrite <- map_rev.
  induction (rev l) as [| x r IH]; simpl; [reflexivity |].
  destruct (String.eqb (key (f x)) k); [reflexivity | exact IH].
Qed.

(** ** Facts about masks and sorting *)

(** How many entries of a mask hold. *)
Definition count_true (mask : list bool) : nat := length (filter (fun b => b) mask).

Lemma length_positional_filter {A : Type} (a : list A) (mask : list bool) :
  length a = length mask ->
  length (positional_filter a mask) = count_true mask.
Proof.
  unfold positional_filter, count_true. rewrite length_map.
  revert mask. induction a as [| x a IH]; intros [| b mask] H; simpl in *; try discriminate.
  - reflexivity.
  - injection H as H. destruct b; simpl; rewrite IH; auto.
Qed.

Lemma count_true_zeros (n : nat) : count_true (np_zeros_bool n) = 0.
Proof. unfold count_true, np_zeros_bool. induction n; simpl; auto. Qed.

Lemma nth_error_zeros (n j : nat) : j < n -> nth_error (np_zeros_bool n) j = Some false.
Proof.
  unfold np_zeros_bool. revert j. induction n as [| n IH]; intros [| j] H; simpl; try lia; auto.
  apply IH. lia.
Qed.

Lemma nth_error_np_set_other {A : Type} (i j : nat) (v : A) (a : list A) :
  i <> j -> nth_error (np_set i v a) j = nth_error a j.
Proof.
  revert i j. induction a as [| x a IH]; intros [| i] [| j] H; simpl; auto; try congruence.
Qed.

Lemma count_true_np_set_false (i : nat) (mask : list bool) :
  nth_error mask i = Some false ->
  count_true (np_set i true mask) = S (count_true mask).
Proof.
  unfold count_true. revert i. induction mask as [| b mask IH]; intros [| i] H; simpl in *;
    try discriminate.
  - injection H as ->. reflexivity.
  - destruct b; simpl; rewrite IH; auto.
Qed.

Lemma count_true_np_set_le (i : nat) (mask : list bool) :
  count_true (np_set i true mask) <= S (count_true mask).
Proof.
  unfold count_true. revert i. induction mask as [| b mask IH]; intros [| i]; simpl; auto.
  - destruct b; simpl; lia.
  - destruct b; simpl; specialize (IH i); lia.
Qed.

(** Switching on distinct positions that are off adds one entry each. *)
Lemma count_true_np_set_true_distinct (indices : list nat) (mask : list bool) :
  NoDup indices ->
  (forall i, In i indices -> nth_error mask i = Some false) ->
  count_true (np_set_true indices mask) = count_true mask + length indices.
Proof.
  unfold np_set_true. revert mask.
  induction indices as [| i indices IH]; intros mask Hnd Hoff; simpl; [lia |].
  inversion Hnd as [| ? ? Hnotin Hnd']; subst.
  rewrite IH.
  - rewrite count_true_np_set_false by (apply Hoff; now left). lia.
  - exact Hnd'.
  - intros j Hj. rewrite nth_error_np_set_other by (intros ->; contradiction).
    apply Hoff. now right.
Qed.

Lemma count_true_np_set_true_le (indices : list nat) (mask : list bool) :
  count_true (np_set_true indices mask) <= count_true mask + length indices.
Proof.
  unfold np_set_true. revert mask.
  induction indices as [| i indices IH]; intros mask; simpl; [lia |].
  specialize (IH (np_set i true mask)).
  pose proof (count_true_np_set_le i mask). lia.
Qed.

Lemma count_true_le_length (mask : list bool) : count_true mask <= length mask.
Proof. unfold count_true. apply filter_length_le. Qed.

Lemma count_true_full (mask : list bool) :
  count_true mask = length mask -> mask = repeat true (length mask).
Proof.
  induction mask as [| b mask IH]; simpl; [reflexivity |].
  pose proof (count_true_le_length mask) as Hle.
  unfold count_true in *. destruct b; simpl; intros H.
  - f_equal. apply IH. lia.
  - lia.
Qed.

Lemma positional_filter_all {A : Type} (a : list A) :
  positional_filter a (repeat true (length a)) = a.
Proof.
  unfold positional_filter. induction a as [| x a IH]; simpl; [reflexivity |].
  now rewrite IH.
Qed.

Lemma map_fst_combine {A B : Type} (l : list A) (l' : list B) :
  length l = length l' -> map fst (combine l l') = l.
Proof.
  revert l'. induction l as [| x l IH]; intros [| y l'] H; simpl in *; try discriminate; auto.
  injection H as H. now rewrite IH.
Qed.

Section ArgsortFacts.

Context {K : Type}.
Variable leb : K -> K -> bool.

Lemma argsort_insert_Permutation (x : nat * K) (sorted : list (nat * K)) :
  Permutation (argsort_insert leb x sorted) (x :: sorted).
Proof.
  induction sorted as [| y rest IH]; simpl; [reflexivity |].
  destruct (leb (snd x) (snd y)); [reflexivity |].
  rewrite IH. apply perm_swap.
Qed.

(** The sort returns every index once. *)
Lemma np_argsort_Permutation (keys : list K) :
  Permutation (np_argsort leb keys) (seq 0 (length keys)).
Proof.
  unfold np_argsort.
  rewrite <- (map_fst_combine (seq 0 (length keys)) keys) at 2 by apply length_seq.
  apply Permutation_map.
  induction (combine (seq 0 (length keys)) keys) as [| x l IH]; simpl; [reflexivity |].
  rewrite argsort_insert_Permutation. now constructor.
Qed.

Lemma np_argsort_NoDup (keys : list K) : NoDup (np_argsort leb keys).
Proof.
  eapply Permutation_NoDup; [symmetry; apply np_argsort_Permutation | apply seq_NoDup].
Qed.

Lemma np_argsort_in_range (keys : list K) (i : nat) :
  In i (np_argsort leb keys) -> i < length keys.
Proof.
  intros H. eapply Permutation_in in H; [| apply np_argsort_Permutation].
  apply in_seq in H. lia.
Qed.

Lemma length_np_argsort (keys : list K) : length (np_argsort leb keys) = length keys.
Proof.
  rewrite (Permutation_length (np_argsort_Permutation keys)). apply length_seq.
Qed.

End ArgsortFacts.

Lemma NoDup_skipn {A : Type} (n : nat) (l : list A) : NoDup l -> NoDup (skipn n l).
Proof.
  intros H. rewrite <- (firstn_skipn n l) in H. now apply NoDup_app_remove_l in H.
Qed.

Lemma In_skipn {A : Type} (n : nat) (l : list A) (x : A) : In x (skipn n l) -> In x l.
Proof.
  intros H. rewrite <- (firstn_skipn n l). apply in_or_app. now right.
Qed.

Lemma length_last_k_min {A : Type} (k : nat) (l : list A) :
  length (last_k k l) = Nat.min k (length l).
Proof. unfold last_k. rewrite length_skipn. lia. Qed.

(* ===================================================================== *)
(** * Feature selection (regression_feature_selection.py) *)
(* ===================================================================== *)

(** The checks with which scikit-learn refuses a fit.  The wording of its
    messages changes from release to release and is not modelled: a
    message is given by the check that failed and the values it names. *)
Inductive Refusal : Type :=
| k_below_zero (k : Z)
| score_func_not_callable
| no_feature
| max_features_below_zero (max_features : Z)
| max_features_above (max_features : Z) (n_features : nat)
| estimator_not_fitted.

Section FeatureSelection.

(** The numerical side is scikit-learn's and stays abstract: floating-point
    scores with their comparisons, the three univariate scoring functions,
    the coefficients of a fitted Lasso model, and the validation of the
    entries of the data.  An array of shape [(n_features,)] is given by its
    entry function and laid out over the columns of the frame it was
    computed from.  The behaviour modelled is that of scikit-learn 1.4 and
    later.  What scikit-learn reports through the [warnings] module is not
    console output and is not recorded. *)
Context {Score : Type}.
Variable score_leb : Score -> Score -> bool.
Variable score_ltb : Score -> Score -> bool.
Variable score_neg : Score -> Score.
Variable score_abs : Score -> Score.
Variable clean_nan : Score -> Score.

Context {Series : Type}.
Context {Target : Type}.

Variable message_of : Refusal -> string.

(** What a scoring function makes of a frame and a target: one score per
    column, or the exception with which it gives up on the data. *)
Definition ScoreFunc : Type := DataFrame Series -> Target -> PyExn + (nat -> Score).

Variable f_regression : ScoreFunc.
Variable r_regression : ScoreFunc.

(** [mutual_info_regression] is called without a [random_state]: it adds
    noise drawn from NumPy's global generator, so its scores depend on the
    state of that generator too.  [global_random_state] is that state when
    [select] is called; the state the call leaves behind is read by nothing
    in these sources and is not modelled. *)
Context {RandomState : Type}.
Variable mutual_info_regression : RandomState -> ScoreFunc.
Variable global_random_state : RandomState.

(** [validate_data(estimator, X, y)] on the entries, the number of rows and
    the target: [None] when it accepts them, otherwise the exception it
    raises. *)
Variable check_X_y : DataFrame Series -> Target -> option PyExn.

(** [Lasso(alpha=alpha).fit(X, y)]: the coefficients found, or the
    exception with which [alpha] or the data are refused. *)
Context {Alpha : Type}.
Variable lasso_coef : Alpha -> list Series -> Target -> PyExn + (nat -> Score).
Variable lasso_default_threshold : Score.

(** [data/datahandler.py] is not part of the sources at hand; a
    [DataEmitter] is used only through [emit_train_Xy]. *)
Context {DataEmitter : Type}.
Variable emit_train_Xy : DataEmitter -> DataFrame Series * Target.

(** ** sklearn.feature_selection *)

(** [SelectorMixin]: a fitted selector knows the feature names it saw and
    computes a support mask; the mixin derives the rest. *)
Class SelectorMixin (S : Type) : Type := {
  feature_names_in_ : S -> list string;
  _get_support_mask : S -> list bool
}.

Definition get_support {S : Type} `{SelectorMixin S} (selector : S) : list bool :=
  _get_support_mask selector.

(** [get_feature_names_out()] is [feature_names_in_[self.get_support()]]. *)
Definition get_feature_names_out {S : Type} `{SelectorMixin S} (selector : S)
  : Py (list string) :=
  np_boolean_index (feature_names_in_ selector) (get_support selector).

(** [validate_data]: whatever it makes of the entries, a frame without
    columns does not pass ([ensure_min_features=1]). *)
Definition validate_data (X : DataFrame Series) (y : Target) : Py unit :=
  match check_X_y X y with
  | Some e => raise e
  | None =>
      match X with
      | [] => raise (ValueError (message_of no_feature))
      | _ :: _ => ret tt
      end
  end.

(** A fitted [SelectKBest(score_func, k=k)]. *)
Record SelectKBest : Type := {
  kbest_k : Z;
  kbest_feature_names_in_ : list string;
  scores_ : list Score
}.

(** [SelectKBest(score_func, k=k).fit(X, y)].  The parameters are checked
    first, [k] before [score_func]: [k] has to be an integer from 0 on and
    [score_func] a callable.  Then the data are validated and scored.  A
    [k] above the number of columns is not refused: [_check_params] only
    warns that all the features will be returned. *)
Definition SelectKBest_fit (score_func : option ScoreFunc) (k : Z)
    (X : DataFrame Series) (y : Target) : Py SelectKBest :=
  if (k <? 0)%Z then raise (InvalidParameterError (message_of (k_below_zero k)))
  else
    match score_func with
    | None => raise (InvalidParameterError (message_of score_func_not_callable))
    | Some f =>
        validate_data X y ;;
        scores <- of_result (f X y) ;;
        ret {| kbest_k := k;
               kbest_feature_names_in_ := columns_to_list X;
               scores_ := ndarray_of (length X) scores |}
    end.

(** [SelectKBest._get_support_mask]: nothing for [k = 0], otherwise the [k]
    last indices of the stable ascending sort of the scores, which are all
    the indices when there are no more than [k]. *)
Definition SelectKBest_get_support_mask (selector : SelectKBest) : list bool :=
  if (kbest_k selector =? 0)%Z then np_zeros_bool (length (scores_ selector))
  else
    let scores := map clean_nan (scores_ selector) in
    let mask := np_zeros_bool (length scores) in
    np_set_true (last_k (Z.to_nat (kbest_k selector)) (np_argsort score_leb scores)) mask.

#[local] Instance SelectKBest_selector : SelectorMixin SelectKBest := {
  feature_names_in_ := kbest_feature_names_in_;
  _get_support_mask := SelectKBest_get_support_mask
}.

(** [Lasso(alpha=alpha)], and what [fit] leaves in it. *)
Record Lasso : Type := {
  alpha : Alpha;
  coef_ : option (list Score)
}.

(** [model.fit(X=X.to_numpy(), y=y.to_numpy())]: the matrix carries no
    column names. *)
Definition Lasso_fit (model : Lasso) (X : list Series) (y : Target) : Py Lasso :=
  coef <- of_result (lasso_coef (alpha model) X y) ;;
  ret {| alpha := alpha model;
         coef_ := Some (ndarray_of (length X) coef) |}.

(** A fitted [SelectFromModel(estimator, prefit=True, max_features=m)]. *)
Record SelectFromModel : Type := {
  max_features : Z;
  sfm_feature_names_in_ : list string;
  estimator_coef_ : list Score
}.

(** [SelectFromModel(...).fit(X, y)] with a prefit estimator: the
    parameter check wants [max_features] from 0 on, [_check_max_features]
    wants it within the width of [X]; the estimator has to be fitted and is
    kept, and the feature names are taken from [X] because the estimator
    has none.  The entries of [X] are not looked at. *)
Definition SelectFromModel_fit (estimator : Lasso) (max_n_features : Z)
    (X : DataFrame Series) (y : Target) : Py SelectFromModel :=
  if (max_n_features <? 0)%Z then
    raise (InvalidParameterError (message_of (max_features_below_zero max_n_features)))
  else if (Z.of_nat (length X) <? max_n_features)%Z then
    raise (ValueError (message_of (max_features_above max_n_features (length X))))
  else
    match coef_ estimator with
    | None => raise (NotFittedError (message_of estimator_not_fitted))
    | Some coef =>
        ret {| max_features := max_n_features;
               sfm_feature_names_in_ := columns_to_list X;
               estimator_coef_ := coef |}
    end.

(** [SelectFromModel._get_support_mask]: the [max_features] first indices
    of the stable descending sort of the importances, then every feature
    whose importance is below the threshold is switched off. *)
Definition SelectFromModel_get_support_mask (selector : SelectFromModel) : list bool :=
  let scores := map score_abs (estimator_coef_ selector) in
  let mask := np_zeros_bool (length scores) in
  let candidate_indices :=
    firstn (Z.to_nat (max_features selector))
           (np_argsort score_leb (map score_neg scores)) in
  let mask := np_set_true candidate_indices mask in
  map (fun sb => if score_ltb (fst sb) lasso_default_threshold then false else snd sb)
      (combine scores mask).

#[local] Instance SelectFromModel_selector : SelectorMixin SelectFromModel := {
  feature_names_in_ := sfm_feature_names_in_;
  _get_support_mask := SelectFromModel_get_support_mask
}.

(** ** The selectors of the repository *)

(** What [BaseFSR] keeps for every selector.  The attributes that [select]
    assigns do not exist before its first call. *)
Record BaseFSR : Type := {
  _name : string;
  _all_features : option (list string);
  _selected_features : option (list string);
  _support : option (list bool)
}.

Definition BaseFSR_init (name : string) : BaseFSR :=
  {| _name := name; _all_features := None; _selected_features := None; _support := None |}.

(** What [select] returns: all features, selected features, support mask. *)
Definition Selection : Type := (list string * list string * list bool)%type.

Record KBestSelectorR : Type := {
  kbest_base : BaseFSR;
  _scorer : string;
  _k : Z;
  _all_feature_scores : option (list Score);
  _selected_feature_scores : option (list Score)
}.

Definition KBestSelectorR_init (scorer : string) (k : Z) (name : option string)
  : KBestSelectorR :=
  let name :=
    match name with
    | None => ("KBestSelector(" ++ scorer ++ ")")%string
    | Some n => n
    end in
  {| kbest_base := BaseFSR_init name;
     _scorer := scorer;
     _k := k;
     _all_feature_scores := None;
     _selected_feature_scores := None |}.

Definition KBestSelectorR_select (self : KBestSelectorR) (dataemitter : DataEmitter)
  : Py (KBestSelectorR * Selection) :=
  let scorer :=
    if String.eqb (_scorer self) "f_regression" then Some f_regression
    else if String.eqb (_scorer self) "mutual_info_regression"
         then Some (mutual_info_regression global_random_state)
    else if String.eqb (_scorer self) "r_regression" then Some r_regression
    else None in
  let (X_train, y_train) := emit_train_Xy dataemitter in
  let all_features := columns_to_list X_train in
  selector <- SelectKBest_fit scorer (_k self) X_train y_train ;;
  selected_features <- get_feature_names_out selector ;;
  let all_feature_scores := scores_ selector in
  let support := get_support selector in
  selected_feature_scores <- np_boolean_index (scores_ selector) support ;;
  ret ({| kbest_base :=
            {| _name := _name (kbest_base self);
               _all_features := Some all_features;
               _selected_features := Some selected_features;
               _support := Some support |};
          _scorer := _scorer self;
          _k := _k self;
          _all_feature_scores := Some all_feature_scores;
          _selected_feature_scores := Some selected_feature_scores |},
       (all_features, selected_features, support)).

Record LassoSelectorR : Type := {
  lasso_base : BaseFSR;
  _model : Lasso;
  _max_n_features : Z
}.

Definition LassoSelectorR_init (max_n_features : Z) (alpha0 : Alpha) (name : option string)
  : LassoSelectorR :=
  let name :=
    match name with
    | None => "LassoSelectorR"
    | Some n => n
    end in
  {| lasso_base := BaseFSR_init name;
     _model := {| alpha := alpha0; coef_ := None |};
     _max_n_features := max_n_features |}.

Definition LassoSelectorR_select (self : LassoSelectorR) (dataemitter : DataEmitter)
  : Py (LassoSelectorR * Selection) :=
  let (X_train, y_train) := emit_train_Xy dataemitter in
  let all_features := columns_to_list X_train in
  model <- Lasso_fit (_model self) (map snd X_train) y_train ;;
  selector <- SelectFromModel_fit model (_max_n_features self) X_train y_train ;;
  selected_features <- get_feature_names_out selector ;;
  let support := get_support selector in
  ret ({| lasso_base :=
            {| _name := _name (lasso_base self);
               _all_features := Some all_features;
               _selected_features := Some selected_features;
               _support := Some support |};
          _model := model;
          _max_n_features := _max_n_features self |},
       (all_features, selected_features, support)).

(** The two selectors behind their common [select]. *)
Inductive FeatureSelector : Type :=
| KBest (selector : KBestSelectorR)
| LassoSel (selector : LassoSelectorR).

Definition select (fs : FeatureSelector) (dataemitter : DataEmitter)
  : Py (FeatureSelector * Selection) :=
  match fs with
  | KBest s => r <- KBestSelectorR_select s dataemitter ;; ret (KBest (fst r), snd r)
  | LassoSel s => r <- LassoSelectorR_select s dataemitter ;; ret (LassoSel (fst r), snd r)
  end.

(** ** What a fit that returns has gone through *)

(** The scoring function [KBestSelectorR.select] picks for a scorer name. *)
Definition chosen_scorer (name : string) : option ScoreFunc :=
  if String.eqb name "f_regression" then Some f_regression
  else if String.eqb name "mutual_info_regression"
       then Some (mutual_info_regression global_random_state)
  else if String.eqb name "r_regression" then Some r_regression
  else None.

(** A feature count within the width of a frame. *)
Definition feature_count_ok (k : Z) (X : DataFrame Series) : bool :=
  ((0 <=? k)%Z && (k <=? Z.of_nat (length X))%Z)%bool.

Lemma feature_count_ok_iff k X :
  feature_count_ok k X = true <-> (0 <= k <= Z.of_nat (length X))%Z.
Proof.
  unfold feature_count_ok. rewrite andb_true_iff, !Z.leb_le. reflexivity.
Qed.

Lemma validate_data_returns X y out u :
  validate_data X y = (out, inr u) -> check_X_y X y = None /\ X <> [] /\ out = [].
Proof.
  unfold validate_data.
  destruct (check_X_y X y); [discriminate |].
  destruct X; [discriminate |].
  intros H. inversion H. repeat split. discriminate.
Qed.

Lemma validate_data_accepts X y :
  check_X_y X y = None -> X <> [] -> validate_data X y = ret tt.
Proof.
  unfold validate_data. intros -> HX. destruct X; [contradiction | reflexivity].
Qed.

Lemma SelectKBest_fit_unfolded score_func k X y out selector :
  SelectKBest_fit score_func k X y = (out, inr selector) ->
  exists f scores,
    score_func = Some f /\ (0 <= k)%Z /\ check_X_y X y = None /\ X <> [] /\
    f X y = inr scores /\ out = [] /\
    selector = {| kbest_k := k;
                  kbest_feature_names_in_ := columns_to_list X;
                  scores_ := ndarray_of (length X) scores |}.
Proof.
  unfold SelectKBest_fit.
  destruct (k <? 0)%Z eqn:Hk; [discriminate |]. apply Z.ltb_ge in Hk.
  destruct score_func as [f |]; [| discriminate].
  intros H.
  apply bind_returns in H as (o1 & u & o2 & Hv & H & Ho).
  apply validate_data_returns in Hv as (Hc & HX & ->).
  unfold of_result in H. destruct (f X y) as [e | scores] eqn:Hs; [discriminate |].
  inversion H; subst.
  exists f, scores. repeat split; assumption.
Qed.

Lemma SelectKBest_fit_accepts (f : ScoreFunc) scores k X y :
  (0 <= k)%Z -> check_X_y X y = None -> X <> [] -> f X y = inr scores ->
  SelectKBest_fit (Some f) k X y
  = ret {| kbest_k := k;
           kbest_feature_names_in_ := columns_to_list X;
           scores_ := ndarray_of (length X) scores |}.
Proof.
  intros Hk Hc HX Hs. unfold SelectKBest_fit.
  replace (k <? 0)%Z with false by (symmetry; apply Z.ltb_ge; exact Hk).
  rewrite (validate_data_accepts _ _ Hc HX), Hs. reflexivity.
Qed.

Lemma SelectFromModel_fit_unfolded estimator m X y out selector :
  SelectFromModel_fit estimator m X y = (out, inr selector) ->
  exists coef,
    coef_ estimator = Some coef /\ feature_count_ok m X = true /\ out = [] /\
    selector = {| max_features := m;
                  sfm_feature_names_in_ := columns_to_list X;
                  estimator_coef_ := coef |}.
Proof.
  unfold SelectFromModel_fit.
  destruct (m <? 0)%Z eqn:H0; [discriminate |]. apply Z.ltb_ge in H0.
  destruct (Z.of_nat (length X) <? m)%Z eqn:Hn; [discriminate |]. apply Z.ltb_ge in Hn.
  destruct (coef_ estimator) as [coef |]; [| discriminate].
  intros H. inversion H; subst.
  exists coef. repeat split. apply feature_count_ok_iff. lia.
Qed.

Lemma SelectFromModel_fit_accepts estimator coef m X y :
  coef_ estimator = Some coef -> (0 <= m <= Z.of_nat (length X))%Z ->
  SelectFromModel_fit estimator m X y
  = ret {| max_features := m;
           sfm_feature_names_in_ := columns_to_list X;
           estimator_coef_ := coef |}.
Proof.
  intros Hc Hm. unfold SelectFromModel_fit.
  replace (m <? 0)%Z with false by (symmetry; apply Z.ltb_ge; lia).
  replace (Z.of_nat (length X) <? m)%Z with false by (symmetry; apply Z.ltb_ge; lia).
  rewrite Hc. reflexivity.
Qed.

Lemma Lasso_fit_unfolded model X y out model' :
  Lasso_fit model X y = (out, inr model') ->
  exists coef,
    lasso_coef (alpha model) X y = inr coef /\ out = [] /\
    model' = {| alpha := alpha model; coef_ := Some (ndarray_of (length X) coef) |}.
Proof.
  unfold Lasso_fit, of_result.
  destruct (lasso_coef (alpha model) X y) as [e | coef]; [discriminate |].
  intros H. inversion H; subst. exists coef. repeat split.
Qed.

(** ** The support mask lines up with the features *)

Lemma SelectKBest_fit_returns score_func k X y out selector :
  SelectKBest_fit score_func k X y = (out, inr selector) ->
  feature_names_in_ selector = columns_to_list X /\
  length (scores_ selector) = length X.
Proof.
  intros H. apply SelectKBest_fit_unfolded in H as (f & scores & _ & _ & _ & _ & _ & _ & ->).
  simpl. split; [reflexivity | apply length_ndarray_of].
Qed.

Lemma length_SelectKBest_get_support_mask (selector : SelectKBest) :
  length (SelectKBest_get_support_mask selector) = length (scores_ selector).
Proof.
  unfold SelectKBest_get_support_mask.
  destruct (kbest_k selector =? 0)%Z.
  - apply length_np_zeros_bool.
  - rewrite length_np_set_true, length_np_zeros_bool. apply length_map.
Qed.

Lemma SelectFromModel_fit_returns estimator m X y out selector :
  SelectFromModel_fit estimator m X y = (out, inr selector) ->
  feature_names_in_ selector = columns_to_list X /\
  coef_ estimator = Some (estimator_coef_ selector).
Proof.
  intros H. apply SelectFromModel_fit_unfolded in H as (coef & Hc & _ & _ & ->).
  simpl. auto.
Qed.

Lemma length_SelectFromModel_get_support_mask (selector : SelectFromModel) :
  length (SelectFromModel_get_support_mask selector) = length (estimator_coef_ selector).
Proof.
  unfold SelectFromModel_get_support_mask.
  rewrite length_map, length_combine, length_np_set_true, length_np_zeros_bool.
  rewrite Nat.min_id. apply length_map.
Qed.

Lemma KBestSelectorR_select_aligned self dataemitter out self' all_features selected support :
  KBestSelectorR_select self dataemitter = (out, inr (self', (all_features, selected, support))) ->
  length support = length all_features /\
  selected = positional_filter all_features support.
Proof.
  unfold KBestSelectorR_select.
  destruct (emit_train_Xy dataemitter) as [X_train y_train].
  intros H.
  apply bind_returns in H as (o1 & selector & o2 & Hfit & H & _).
  apply bind_returns in H as (o3 & names & o4 & Hnames & H & _).
  apply bind_returns in H as (o5 & sc & o6 & _ & H & _).
  inversion H; subst; clear H.
  apply SelectKBest_fit_returns in Hfit as [Hcols Hlen].
  unfold get_feature_names_out in Hnames.
  apply np_boolean_index_returns in Hnames as [Hm Hsel].
  rewrite Hcols in Hm, Hsel. auto.
Qed.

Lemma LassoSelectorR_select_aligned self dataemitter out self' all_features selected support :
  LassoSelectorR_select self dataemitter = (out, inr (self', (all_features, selected, support))) ->
  length support = length all_features /\
  selected = positional_filter all_features support.
Proof.
  unfold LassoSelectorR_select.
  destruct (emit_train_Xy dataemitter) as [X_train y_train].
  intros H.
  apply bind_returns in H as (o0 & model & o0' & _ & H & _).
  apply bind_returns in H as (o1 & selector & o2 & Hfit & H & _).
  apply bind_returns in H as (o3 & names & o4 & Hnames & H & _).
  inversion H; subst; clear H.
  apply SelectFromModel_fit_returns in Hfit as [Hcols _].
  unfold get_feature_names_out in Hnames.
  apply np_boolean_index_returns in Hnames as [Hm Hsel].
  rewrite Hcols in Hm, Hsel. auto.
Qed.

(** [KBestSelectorR.select], step by step, when it returns. *)
Lemma KBestSelectorR_select_unfolded self dataemitter out self' all_features selected support :
  KBestSelectorR_select self dataemitter = (out, inr (self', (all_features, selected, support))) ->
  let X := fst (emit_train_Xy dataemitter) in
  let y := snd (emit_train_Xy dataemitter) in
  exists f scores,
    chosen_scorer (_scorer self) = Some f /\
    (0 <= _k self)%Z /\ check_X_y X y = None /\ X <> [] /\ f X y = inr scores /\
    let selector := {| kbest_k := _k self;
                       kbest_feature_names_in_ := columns_to_list X;
                       scores_ := ndarray_of (length X) scores |} in
    out = [] /\
    all_features = columns_to_list X /\
    support = SelectKBest_get_support_mask selector /\
    selected = positional_filter all_features support /\
    self' = {| kbest_base :=
                 {| _name := _name (kbest_base self);
                    _all_features := Some all_features;
                    _selected_features := Some selected;
                    _support := Some support |};
               _scorer := _scorer self;
               _k := _k self;
               _all_feature_scores := Some (scores_ selector);
               _selected_feature_scores :=
                 Some (positional_filter (scores_ selector) support) |}.
Proof.
  unfold KBestSelectorR_select. fold (chosen_scorer (_scorer self)).
  destruct (emit_train_Xy dataemitter) as [X_train y_train]. cbn [fst snd].
  destruct (SelectKBest_fit (chosen_scorer (_scorer self)) (_k self) X_train y_train)
    as [o1 [e | selector0]] eqn:Hfit; [discriminate |].
  apply SelectKBest_fit_unfolded in Hfit as (f & scores & Hf & Hk & Hc & HX & Hs & -> & ->).
  change (@nil Printed, @inr PyExn SelectKBest ?s) with (ret s).
  rewrite bind_ret_l. unfold get_feature_names_out, get_support.
  cbn [_get_support_mask feature_names_in_ SelectKBest_selector kbest_feature_names_in_ scores_].
  set (selector := {| kbest_k := _k self; kbest_feature_names_in_ := columns_to_list X_train;
                      scores_ := ndarray_of (length X_train) scores |}).
  assert (length (SelectKBest_get_support_mask selector) = length X_train) as Hlen.
  { rewrite length_SelectKBest_get_support_mask. apply length_ndarray_of. }
  rewrite np_boolean_index_same_length
    by (unfold columns_to_list; now rewrite length_map).
  rewrite bind_ret_l.
  rewrite np_boolean_index_same_length by (now rewrite Hlen, length_ndarray_of).
  rewrite bind_ret_l. unfold ret. intros H. inversion H; subst; clear H.
  exists f, scores. repeat split; try assumption; reflexivity.
Qed.

(** [LassoSelectorR.select], step by step, when it returns. *)
Lemma LassoSelectorR_select_unfolded self dataemitter out self' all_features selected support :
  LassoSelectorR_select self dataemitter = (out, inr (self', (all_features, selected, support))) ->
  let X := fst (emit_train_Xy dataemitter) in
  let y := snd (emit_train_Xy dataemitter) in
  exists coef,
    lasso_coef (alpha (_model self)) (map snd X) y = inr coef /\
    feature_count_ok (_max_n_features self) X = true /\
    let model := {| alpha := alpha (_model self);
                    coef_ := Some (ndarray_of (length (map snd X)) coef) |} in
    let selector := {| max_features := _max_n_features self;
                       sfm_feature_names_in_ := columns_to_list X;
                       estimator_coef_ := ndarray_of (length (map snd X)) coef |} in
    out = [] /\
    all_features = columns_to_list X /\
    support = SelectFromModel_get_support_mask selector /\
    selected = positional_filter all_features support /\
    self' = {| lasso_base :=
                 {| _name := _name (lasso_base self);
                    _all_features := Some all_features;
                    _selected_features := Some selected;
                    _support := Some support |};
               _model := model;
               _max_n_features := _max_n_features self |}.
Proof.
  unfold LassoSelectorR_select.
  destruct (emit_train_Xy dataemitter) as [X_train y_train]. cbn [fst snd].
  destruct (Lasso_fit (_model self) (map snd X_train) y_train)
    as [o0 [e | model0]] eqn:Hlasso; [discriminate |].
  apply Lasso_fit_unfolded in Hlasso as (coef & Hcoef & -> & ->).
  change (@nil Printed, @inr PyExn Lasso ?s) with (ret s).
  rewrite bind_ret_l.
  match goal with
  | |- context [SelectFromModel_fit ?m ?k ?X ?y] =>
      destruct (SelectFromModel_fit m k X y) as [o1 [e | selector0]] eqn:Hfit;
        [discriminate |]
  end.
  apply SelectFromModel_fit_unfolded in Hfit as (coef' & Hc & Hk & -> & ->).
  cbn [coef_] in Hc. injection Hc as <-.
  change (@nil Printed, @inr PyExn SelectFromModel ?s) with (ret s).
  rewrite bind_ret_l.
  unfold get_feature_names_out, get_support.
  cbn [_get_support_mask feature_names_in_ SelectFromModel_selector sfm_feature_names_in_].
  rewrite np_boolean_index_same_length.
  2:{ rewrite length_SelectFromModel_get_support_mask. cbn [estimator_coef_].
      unfold columns_to_list. now rewrite length_ndarray_of, !length_map. }
  rewrite bind_ret_l. unfold ret. intros H. inversion H; subst; clear H.
  exists coef. repeat split; try assumption; reflexivity.
Qed.

(** The selectors do return on what scikit-learn accepts: for
    [KBestSelectorR] a known scoring function that succeeds on validated
    data with at least one column and a [k] from 0 on, however large; for
    [LassoSelectorR] a Lasso fit that succeeds and a feature count within
    the width of the frame. *)
Lemma KBestSelectorR_select_returns self dataemitter f scores :
  let X := fst (emit_train_Xy dataemitter) in
  let y := snd (emit_train_Xy dataemitter) in
  chosen_scorer (_scorer self) = Some f ->
  (0 <= _k self)%Z -> check_X_y X y = None -> X <> [] -> f X y = inr scores ->
  exists self' selection, KBestSelectorR_select self dataemitter = ([], inr (self', selection)).
Proof.
  unfold KBestSelectorR_select. fold (chosen_scorer (_scorer self)).
  destruct (emit_train_Xy dataemitter) as [X_train y_train]. cbn [fst snd]. cbv zeta.
  intros Hf Hk Hc HX Hs. do 2 eexists. rewrite Hf.
  rewrite (SelectKBest_fit_accepts _ _ _ _ _ Hk Hc HX Hs).
  rewrite bind_ret_l. unfold get_feature_names_out, get_support. simpl.
  rewrite np_boolean_index_same_length.
  2:{ rewrite length_SelectKBest_get_support_mask. simpl.
      unfold columns_to_list. now rewrite length_ndarray_of, length_map. }
  rewrite bind_ret_l.
  rewrite np_boolean_index_same_length
    by apply length_SelectKBest_get_support_mask.
  rewrite bind_ret_l. reflexivity.
Qed.

Lemma LassoSelectorR_select_returns self dataemitter coef :
  let X := fst (emit_train_Xy dataemitter) in
  let y := snd (emit_train_Xy dataemitter) in
  lasso_coef (alpha (_model self)) (map snd X) y = inr coef ->
  (0 <= _max_n_features self <= Z.of_nat (length X))%Z ->
  exists self' selection, LassoSelectorR_select self dataemitter = ([], inr (self', selection)).
Proof.
  unfold LassoSelectorR_select.
  destruct (emit_train_Xy dataemitter) as [X_train y_train]. cbn [fst snd]. cbv zeta.
  intros Hcoef Hk. do 2 eexists.
  unfold Lasso_fit. rewrite Hcoef.
  change (of_result (inr coef)) with (ret coef). rewrite !bind_ret_l.
  erewrite SelectFromModel_fit_accepts; [| reflexivity | exact Hk].
  rewrite bind_ret_l.
  unfold get_feature_names_out, get_support.
  rewrite np_boolean_index_same_length.
  2:{ cbn [_get_support_mask feature_names_in_ SelectFromModel_selector].
      rewrite length_SelectFromModel_get_support_mask. simpl.
      unfold columns_to_list. now rewrite length_ndarray_of, !length_map. }
  rewrite bind_ret_l. reflexivity.
Qed.

(** C1.  Whatever selector [select] is called on ([KBestSelectorR] or
    [LassoSelectorR]) and whatever the data emitter, a returned triple
    (all features, selected features, support mask) has a mask as long as
    the list of all features, and the selected features are exactly the
    features at the positions where the mask holds, in order. *)
Theorem select_support_mask_invariant :
  forall (fs : FeatureSelector) (dataemitter : DataEmitter)
         out fs' all_features selected_features support_mask,
    select fs dataemitter = (out, inr (fs', (all_features, selected_features, support_mask))) ->
    length support_mask = length all_features /\
    selected_features = map fst (filter snd (combine all_features support_mask)).
Proof.
  intros fs dataemitter out fs' all_features selected support H.
  destruct fs as [s | s]; simpl in H;
    apply bind_returns in H as (o1 & [s' [[a f] m]] & o2 & Hsel & H & _);
    inversion H; subst; clear H.
  - eapply KBestSelectorR_select_aligned; eauto.
  - eapply LassoSelectorR_select_aligned; eauto.
Qed.

(** ** How many features are selected *)

Lemma count_true_SelectKBest_get_support_mask (selector : SelectKBest) :
  count_true (SelectKBest_get_support_mask selector)
  = Nat.min (Z.to_nat (kbest_k selector)) (length (scores_ selector)).
Proof.
  unfold SelectKBest_get_support_mask.
  destruct (kbest_k selector =? 0)%Z eqn:E.
  - apply Z.eqb_eq in E. rewrite E. apply count_true_zeros.
  - set (scores := map clean_nan (scores_ selector)).
    assert (length scores = length (scores_ selector)) as Hlen by apply length_map.
    rewrite count_true_np_set_true_distinct.
    + rewrite count_true_zeros, length_last_k_min, length_np_argsort, Hlen. reflexivity.
    + apply NoDup_skipn, np_argsort_NoDup.
    + intros i Hi. apply In_skipn, np_argsort_in_range in Hi.
      now apply nth_error_zeros.
Qed.

Lemma count_true_threshold (scores : list Score) (mask : list bool) :
  count_true
    (map (fun sb => if score_ltb (fst sb) lasso_default_threshold then false else snd sb)
         (combine scores mask))
  <= count_true mask.
Proof.
  unfold count_true. revert mask.
  induction scores as [| s scores IH]; intros [| b mask]; simpl; try lia.
  specialize (IH mask).
  destruct (score_ltb s lasso_default_threshold), b; simpl; lia.
Qed.

Lemma count_true_SelectFromModel_get_support_mask (selector : SelectFromModel) :
  count_true (SelectFromModel_get_support_mask selector) <= Z.to_nat (max_features selector).
Proof.
  unfold SelectFromModel_get_support_mask.
  etransitivity; [apply count_true_threshold |].
  etransitivity; [apply count_true_np_set_true_le |].
  rewrite count_true_zeros, length_firstn. lia.
Qed.

(** How many positions of the mask of a returning [KBestSelectorR.select]
    hold: [k] of them, or all when there are fewer than [k]. *)
Lemma KBestSelectorR_select_count self dataemitter out self' all_features selected support :
  KBestSelectorR_select self dataemitter = (out, inr (self', (all_features, selected, support))) ->
  (0 <= _k self)%Z /\
  count_true support = Nat.min (Z.to_nat (_k self)) (length all_features) /\
  length selected = count_true support.
Proof.
  intros H.
  pose proof (KBestSelectorR_select_aligned _ _ _ _ _ _ _ H) as [Hlen Hsel].
  apply KBestSelectorR_select_unfolded in H. cbv zeta in H.
  destruct H as (f & scores & _ & Hk & _ & _ & _ & _ & Hall & Hmask & _ & _).
  split; [exact Hk |]. split.
  - rewrite Hmask, count_true_SelectKBest_get_support_mask. cbn [kbest_k scores_].
    rewrite length_ndarray_of, Hall. unfold columns_to_list. now rewrite length_map.
  - rewrite Hsel. apply length_positional_filter. symmetry. exact Hlen.
Qed.

(** X1.  When [KBestSelectorR.select] returns, [k] is not negative and the
    number of selected features is the smaller of [k] and the number of
    features: the support mask holds at that many positions and the list of
    selected features has that many names.  A [k] that is not below the
    number of features selects them all, in their order. *)
Theorem KBestSelectorR_selects_k_or_all :
  forall (self : KBestSelectorR) (dataemitter : DataEmitter)
         out self' all_features selected_features support_mask,
    KBestSelectorR_select self dataemitter
    = (out, inr (self', (all_features, selected_features, support_mask))) ->
    let n_features := Z.of_nat (length all_features) in
    (0 <= _k self)%Z /\
    Z.of_nat (count_true support_mask) = Z.min (_k self) n_features /\
    Z.of_nat (length selected_features) = Z.min (_k self) n_features /\
    ((n_features <= _k self)%Z ->
       selected_features = all_features /\
       support_mask = repeat true (length all_features)).
Proof.
  intros self dataemitter out self' all_features selected support H n_features.
  pose proof (KBestSelectorR_select_aligned _ _ _ _ _ _ _ H) as [Hlen Hsel].
  apply KBestSelectorR_select_count in H as (Hk & Hcount & Hl).
  subst n_features. repeat split; try lia.
  - assert (count_true support = length support) as Hfull by lia.
    apply count_true_full in Hfull. rewrite Hlen in Hfull.
    rewrite Hsel, Hfull. apply positional_filter_all.
  - assert (count_true support = length support) as Hfull by lia.
    apply count_true_full in Hfull. now rewrite Hlen in Hfull.
Qed.

(** X2.  When [LassoSelectorR.select] returns, it has selected at most
    [max_n_features] features; with [max_n_features = 0] it selects none. *)
Theorem LassoSelectorR_selects_at_most_max :
  forall (self : LassoSelectorR) (dataemitter : DataEmitter)
         out self' all_features selected_features support_mask,
    LassoSelectorR_select self dataemitter
    = (out, inr (self', (all_features, selected_features, support_mask))) ->
    (Z.of_nat (length selected_features) <= _max_n_features self)%Z /\
    (Z.of_nat (count_true support_mask) <= _max_n_features self)%Z /\
    (_max_n_features self = 0%Z -> selected_features = []).
Proof.
  intros self dataemitter out self' all_features selected support H.
  pose proof (LassoSelectorR_select_aligned _ _ _ _ _ _ _ H) as [Hlen _].
  apply LassoSelectorR_select_unfolded in H. cbv zeta in H.
  destruct H as (coef & _ & Hk & _ & _ & Hmask & Hsel & _).
  apply feature_count_ok_iff in Hk.
  assert (count_true support <= Z.to_nat (_max_n_features self)) as Hcount.
  { rewrite Hmask. apply count_true_SelectFromModel_get_support_mask. }
  assert (length selected = count_true support) as Hl
      by (rewrite Hsel; apply length_positional_filter; symmetry; exact Hlen).
  repeat split; try lia.
  intros H0. rewrite H0 in Hcount. simpl in Hcount.
  destruct selected; [reflexivity | simpl in Hl; lia].
Qed.




(** X14.  The two ends of [KBestSelectorR]: when [select] returns, [k = 0]
    selects no feature, and [k] equal to the number of features selects
    them all, in their order, with a mask that holds everywhere. *)
Theorem KBestSelectorR_selects_none_or_all :
  forall (self : KBestSelectorR) (dataemitter : DataEmitter)
         out self' all_features selected_features support_mask,
    KBestSelectorR_select self dataemitter
    = (out, inr (self', (all_features, selected_features, support_mask))) ->
    (_k self = 0%Z -> selected_features = []) /\
    (_k self = Z.of_nat (length all_features) ->
       selected_features = all_features /\
       support_mask = repeat true (length all_features)).
Proof.
  intros self dataemitter out self' all_features selected support H.
  pose proof (KBestSelectorR_select_aligned _ _ _ _ _ _ _ H) as [Hlen Hsel].
  apply KBestSelectorR_select_count in H as (_ & Hcount & Hl).
  split.
  - intros H0. rewrite H0 in Hcount. simpl in Hcount.
    destruct selected; [reflexivity | simpl in Hl; lia].
  - intros Hn. rewrite Hn, Nat2Z.id, Nat.min_id, <- Hlen in Hcount.
    apply count_true_full in Hcount. rewrite Hlen in Hcount.
    split; [| exact Hcount].
    rewrite Hsel, Hcount. apply positional_filter_all.
Qed.

End FeatureSelection.

(* ===================================================================== *)
(** * Classification reports (interactive/classification/mlclass.py) *)
(* ===================================================================== *)

Module Classification.

Section Reports.

(** The collaborators of the report layer stay abstract: the columns of a
    statistics table, the arrays a scorer keeps, figures and axes, the data
    handler with its emitters, and the plotting routine. *)
Context {Col Array Figure Axes FigSize DataHandler DataEmitter : Type}.

(** [visualization.plot_roc_curve(y_score, y_true, figsize, ax)] *)
Variable plot_roc_curve : Array -> Array -> FigSize -> option Axes -> Figure.

(** [datahandler.train_test_emitter(y_var=, X_vars=)] *)
Variable train_test_emitter : DataHandler -> string -> list string -> DataEmitter.

(** [datahandler.kfold_emitters(y_var=, X_vars=, n_folds=, shuffle=, random_state=)] *)
Variable kfold_emitters :
  DataHandler -> string -> list string -> Z -> bool -> Z -> list DataEmitter.

(** A scorer of [metrics/classification_scoring.py], as the reports use it:
    whether it is a [ClassificationBinaryScorer], the tables its methods
    return, and the scores and labels it stores. *)
Record Scorer : Type := {
  is_ClassificationBinaryScorer : bool;
  stats_df : DataFrame Col;
  stats_by_class_df : DataFrame Col;
  cv_stats_df : DataFrame Col;
  cv_stats_by_class_df : DataFrame Col;
  _y_pred_score : Array;
  _y_true : Array
}.

(** A model of [base_classification.py], as the reports use it.  The cross
    validation scorer and the overall scorer may be [None]. *)
Record BaseClassification : Type := {
  _name : string;
  train_scorer : Scorer;
  test_scorer : Scorer;
  cv_scorer : option Scorer;
  train_overall_scorer : option Scorer;
  _is_cross_validated : bool
}.

(** [model.specify_data(dataemitter=, dataemitters=)] followed by
    [model.fit()]: the state the model object is left in.  Fitting is the
    business of the model classes and is taken to return. *)
Variable specify_data_and_fit :
  DataEmitter -> option (list DataEmitter) -> BaseClassification -> BaseClassification.

(** ** SingleModelSingleDatasetMLClassReport *)

Record SingleModelSingleDatasetMLClassReport : Type := {
  model : BaseClassification;
  _is_binary : bool;
  _dataset : string
}.

Definition dataset_error : string :=
  ("dataset must be either " ++ dquote ++ "train" ++ dquote ++ " or "
     ++ dquote ++ "test" ++ dquote ++ ".")%string.

(** [__init__(self, model, dataset)] *)
Definition SingleModelSingleDatasetMLClassReport_init
    (model0 : BaseClassification) (dataset : string)
  : Py SingleModelSingleDatasetMLClassReport :=
  let is_binary := is_ClassificationBinaryScorer (train_scorer model0) in
  if negb (String.eqb dataset "train" || String.eqb dataset "test") then
    raise (ValueError dataset_error)
  else
    ret {| model := model0; _is_binary := is_binary; _dataset := dataset |}.

Definition SingleModelSingleDatasetMLClassReport_fit_statistics
    (self : SingleModelSingleDatasetMLClassReport) : DataFrame Col :=
  if String.eqb (_dataset self) "train" then stats_df (train_scorer (model self))
  else stats_df (test_scorer (model self)).

Definition by_class_binary_warning : string :=
  "Fit statistics by class are not available for binary classification.".

Definition SingleModelSingleDatasetMLClassReport_fit_statistics_by_class
    (self : SingleModelSingleDatasetMLClassReport) : Py (option (DataFrame Col)) :=
  if _is_binary self then
    print_wrapped by_class_binary_warning "WARNING" ;;
    ret None
  else if String.eqb (_dataset self) "train" then
    ret (Some (stats_by_class_df (train_scorer (model self))))
  else
    ret (Some (stats_by_class_df (test_scorer (model self)))).

Definition not_cross_validated_warning : string :=
  "Cross validation statistics are not available for models that are not cross-validated.".

Definition cv_test_data_warning : string :=
  "Cross validation statistics are not available for test data.".

(** The method ends after the [elif]: with any other selector it would fall
    off the end and return [None] without a message. *)
Definition SingleModelSingleDatasetMLClassReport_cv_fit_statistics
    (self : SingleModelSingleDatasetMLClassReport) (averaged_across_folds : bool)
  : Py (option (DataFrame Col)) :=
  if negb (_is_cross_validated (model self)) then
    print_wrapped not_cross_validated_warning "WARNING" ;;
    ret None
  else if String.eqb (_dataset self) "train" then
    if averaged_across_folds then
      scorer <- getattr_of (cv_scorer (model self)) "stats_df" ;;
      ret (Some (stats_df scorer))
    else
      scorer <- getattr_of (cv_scorer (model self)) "cv_stats_df" ;;
      ret (Some (cv_stats_df scorer))
  else if String.eqb (_dataset self) "test" then
    print_wrapped cv_test_data_warning "WARNING" ;;
    ret None
  else ret None.

Definition cv_by_class_binary_warning : string :=
  "Cross validation statistics by class are not available for binary classification.".

Definition SingleModelSingleDatasetMLClassReport_cv_fit_statistics_by_class
    (self : SingleModelSingleDatasetMLClassReport) (averaged_across_folds : bool)
  : Py (option (DataFrame Col)) :=
  if negb (_is_cross_validated (model self)) then
    print_wrapped not_cross_validated_warning "WARNING" ;;
    ret None
  else if _is_binary self then
    print_wrapped cv_by_class_binary_warning "WARNING" ;;
    ret None
  else if String.eqb (_dataset self) "train" then
    if averaged_across_folds then
      scorer <- getattr_of (cv_scorer (model self)) "stats_by_class_df" ;;
      ret (Some (stats_by_class_df scorer))
    else
      scorer <- getattr_of (cv_scorer (model self)) "cv_stats_by_class_df" ;;
      ret (Some (cv_stats_by_class_df scorer))
  else
    print_wrapped cv_test_data_warning "WARNING" ;;
    ret None.

Definition roc_multiclass_warning : string :=
  "ROC curve is not available for multiclass classification.".

Definition SingleModelSingleDatasetMLClassReport_plot_roc_curve
    (self : SingleModelSingleDatasetMLClassReport) (figsize : FigSize) (ax : option Axes)
  : Py (option Figure) :=
  if negb (_is_binary self) then
    print_wrapped roc_multiclass_warning "WARNING" ;;
    ret None
  else
    let (y_score, y_true) :=
      if String.eqb (_dataset self) "train" then
        match train_overall_scorer (model self) with
        | Some overall => (_y_pred_score overall, _y_true overall)
        | None => (_y_pred_score (train_scorer (model self)),
                   _y_true (train_scorer (model self)))
        end
      else (_y_pred_score (test_scorer (model self)), _y_true (test_scorer (model self))) in
    ret (Some (plot_roc_curve y_score y_true figsize ax)).

(** ** SingleModelMLClassReport *)

Record SingleModelMLClassReport : Type := { routed_model : BaseClassification }.

Definition SingleModelMLClassReport_init (model0 : BaseClassification)
  : SingleModelMLClassReport := {| routed_model := model0 |}.

Definition train_report (self : SingleModelMLClassReport)
  : Py SingleModelSingleDatasetMLClassReport :=
  SingleModelSingleDatasetMLClassReport_init (routed_model self) "train".

Definition test_report (self : SingleModelMLClassReport)
  : Py SingleModelSingleDatasetMLClassReport :=
  SingleModelSingleDatasetMLClassReport_init (routed_model self) "test".

(** ** MLClassificationReport *)

Record MLClassificationReport : Type := {
  _models : list BaseClassification;
  _id_to_model : PyDict.t BaseClassification;
  y_var : string;
  X_vars : list string;
  _emitter : DataEmitter;
  _emitters : option (list DataEmitter);
  _verbose : bool;
  _id_to_report : PyDict.t SingleModelMLClassReport
}.

(** One turn of the fitting loop of [__init__]. *)
Definition fit_model (verbose : bool) (emitter : DataEmitter)
    (emitters : option (list DataEmitter)) (model0 : BaseClassification)
  : Py BaseClassification :=
  (if verbose
   then print_wrapped ("Fitting model " ++ _name model0 ++ ".")%string "UPDATE"
   else ret tt) ;;
  let fitted := specify_data_and_fit emitter emitters model0 in
  (if verbose
   then print_wrapped ("Fitted model " ++ _name fitted ++ ".")%string "UPDATE"
   else ret tt) ;;
  ret fitted.

(** [__init__(self, models, datahandler, y_var, X_vars, outer_cv=None,
    outer_cv_seed=42, verbose=True)].  The name-to-model mapping is built
    from the names the models have on entry and holds the model objects,
    which the loop then fits in place; the name-to-report mapping is built
    after the loop.  Every entry of [models] is taken to be an object of its
    own. *)
Definition MLClassificationReport_init (models : list BaseClassification)
    (datahandler : DataHandler) (y_var0 : string) (X_vars0 : list string)
    (outer_cv : option Z) (outer_cv_seed : Z) (verbose : bool)
  : Py MLClassificationReport :=
  let emitter := train_test_emitter datahandler y_var0 X_vars0 in
  let emitters :=
    match outer_cv with
    | None => None
    | Some n_folds =>
        Some (kfold_emitters datahandler y_var0 X_vars0 n_folds true outer_cv_seed)
    end in
  let id_to_model :=
    PyDict.comp _name (specify_data_and_fit emitter emitters) models in
  fitted <- comprehension (fit_model verbose emitter emitters) models ;;
  ret {| _models := fitted;
         _id_to_model := id_to_model;
         y_var := y_var0;
         X_vars := X_vars0;
         _emitter := emitter;
         _emitters := emitters;
         _verbose := verbose;
         _id_to_report := PyDict.comp _name SingleModelMLClassReport_init fitted |}.

Definition MLClassificationReport_model_report (self : MLClassificationReport)
    (model_id : string) : Py SingleModelMLClassReport :=
  PyDict.getitem model_id (_id_to_report self).

Definition MLClassificationReport_model (self : MLClassificationReport)
    (model_id : string) : Py BaseClassification :=
  PyDict.getitem model_id (_id_to_model self).

Definition MLClassificationReport_fit_statistics (self : MLClassificationReport)
    (dataset : string) : Py (DataFrame Col) :=
  if String.eqb dataset "train" then
    frames <- comprehension
                (fun report =>
                   r <- train_report report ;;
                   ret (Some (SingleModelSingleDatasetMLClassReport_fit_statistics r)))
                (PyDict.values (_id_to_report self)) ;;
    pd_concat_axis1 frames
  else
    frames <- comprehension
                (fun report =>
                   r <- test_report report ;;
                   ret (Some (SingleModelSingleDatasetMLClassReport_fit_statistics r)))
                (PyDict.values (_id_to_report self)) ;;
    pd_concat_axis1 frames.

Definition MLClassificationReport_cv_fit_statistics (self : MLClassificationReport)
    (averaged_across_folds : bool) : Py (option (DataFrame Col)) :=
  first <- list_getitem (_models self) 0 ;;
  if negb (_is_cross_validated first) then
    print_wrapped not_cross_validated_warning "WARNING" ;;
    ret None
  else
    frames <- comprehension
                (fun report =>
                   r <- train_report report ;;
                   SingleModelSingleDatasetMLClassReport_cv_fit_statistics
                     r averaged_across_folds)
                (PyDict.values (_id_to_report self)) ;;
    table <- pd_concat_axis1 frames ;;
    ret (Some table).

(** [report[model_id]] *)
Definition MLClassificationReport_getitem (self : MLClassificationReport)
    (model_id : string) : Py SingleModelMLClassReport :=
  PyDict.getitem model_id (_id_to_report self).

(** ** Vocabulary of the statements below *)

(** What the fitting loop prints for one model. *)
Definition fit_model_prints (verbose : bool) (emitter : DataEmitter)
    (emitters : option (list DataEmitter)) (model0 : BaseClassification) : list Printed :=
  if verbose then
    [mkPrinted ("Fitting model " ++ _name model0 ++ ".")%string "UPDATE";
     mkPrinted ("Fitted model "
                  ++ _name (specify_data_and_fit emitter emitters model0) ++ ".")%string
               "UPDATE"]
  else [].

(** The emitters [__init__] hands to the models. *)
Definition outer_emitters (datahandler : DataHandler) (y_var0 : string)
    (X_vars0 : list string) (outer_cv : option Z) (outer_cv_seed : Z)
  : option (list DataEmitter) :=
  match outer_cv with
  | None => None
  | Some n_folds => Some (kfold_emitters datahandler y_var0 X_vars0 n_folds true outer_cv_seed)
  end.

(** The models as [__init__] leaves them, in the order supplied. *)
Definition fitted_models (models : list BaseClassification) (datahandler : DataHandler)
    (y_var0 : string) (X_vars0 : list string) (outer_cv : option Z) (outer_cv_seed : Z)
  : list BaseClassification :=
  map (specify_data_and_fit (train_test_emitter datahandler y_var0 X_vars0)
         (outer_emitters datahandler y_var0 X_vars0 outer_cv outer_cv_seed))
      models.

(** The scorer of a model for a partition, as [fit_statistics] picks it. *)
Definition partition_scorer (dataset : string) (model0 : BaseClassification) : Scorer :=
  if String.eqb dataset "train" then train_scorer model0 else test_scorer model0.

(** What one model contributes to the cross validated table: nothing, with
    a warning, when it was not cross validated. *)
Definition cv_frame (averaged : bool) (model0 : BaseClassification)
  : option (DataFrame Col) :=
  if _is_cross_validated model0 then
    match cv_scorer model0 with
    | Some scorer => Some (if averaged then stats_df scorer else cv_stats_df scorer)
    | None => None
    end
  else None.

(** What that contribution prints. *)
Definition cv_frame_prints (model0 : BaseClassification) : list Printed :=
  if _is_cross_validated model0 then []
  else [mkPrinted not_cross_validated_warning "WARNING"].

(** A model that says it is cross validated has a cross validation scorer. *)
Definition cv_scorer_present (model0 : BaseClassification) : Prop :=
  _is_cross_validated model0 = true -> cv_scorer model0 <> None.

(** ** What the methods compute *)

Lemma class_init_returns model0 dataset out r :
  SingleModelSingleDatasetMLClassReport_init model0 dataset = (out, inr r) ->
  (dataset = "train" \/ dataset = "test") /\ out = [] /\
  r = {| model := model0;
         _is_binary := is_ClassificationBinaryScorer (train_scorer model0);
         _dataset := dataset |}.
Proof.
  unfold SingleModelSingleDatasetMLClassReport_init.
  destruct (String.eqb dataset "train") eqn:Etrain;
    [| destruct (String.eqb dataset "test") eqn:Etest];
    simpl; intros H; inversion H; subst; clear H.
  - apply String.eqb_eq in Etrain. auto.
  - apply String.eqb_eq in Etest. auto.
Qed.

Lemma class_init_valid model0 dataset :
  dataset = "train" \/ dataset = "test" ->
  SingleModelSingleDatasetMLClassReport_init model0 dataset =
  ret {| model := model0;
         _is_binary := is_ClassificationBinaryScorer (train_scorer model0);
         _dataset := dataset |}.
Proof. intros [-> | ->]; reflexivity. Qed.

Lemma class_init_invalid model0 dataset :
  dataset <> "train" -> dataset <> "test" ->
  SingleModelSingleDatasetMLClassReport_init model0 dataset =
  raise (ValueError dataset_error).
Proof.
  intros Htrain Htest. unfold SingleModelSingleDatasetMLClassReport_init.
  apply String.eqb_neq in Htrain, Htest. now rewrite Htrain, Htest.
Qed.

(** [cv_fit_statistics] on a report that [__init__] returned. *)
Lemma class_cv_fit_statistics_constructed model0 dataset out r averaged :
  SingleModelSingleDatasetMLClassReport_init model0 dataset = (out, inr r) ->
  SingleModelSingleDatasetMLClassReport_cv_fit_statistics r averaged =
  if negb (_is_cross_validated model0) then
    ([mkPrinted not_cross_validated_warning "WARNING"], inr None)
  else if String.eqb dataset "train" then
    match cv_scorer model0 with
    | Some scorer =>
        ([], inr (Some (if averaged then stats_df scorer else cv_stats_df scorer)))
    | None =>
        ([], inl (AttributeError
                    ("'NoneType' object has no attribute '"
                       ++ (if averaged then "stats_df" else "cv_stats_df") ++ "'")%string))
    end
  else ([mkPrinted cv_test_data_warning "WARNING"], inr None).
Proof.
  intros H. apply class_init_returns in H as (Hd & _ & ->).
  unfold SingleModelSingleDatasetMLClassReport_cv_fit_statistics. simpl.
  destruct (_is_cross_validated model0); simpl; [| reflexivity].
  destruct Hd as [-> | ->]; simpl; [| reflexivity].
  destruct (cv_scorer model0), averaged; reflexivity.
Qed.

Lemma class_fit_statistics_by_class_constructed model0 dataset out r :
  SingleModelSingleDatasetMLClassReport_init model0 dataset = (out, inr r) ->
  SingleModelSingleDatasetMLClassReport_fit_statistics_by_class r =
  if is_ClassificationBinaryScorer (train_scorer model0) then
    ([mkPrinted by_class_binary_warning "WARNING"], inr None)
  else if String.eqb dataset "train" then
    ([], inr (Some (stats_by_class_df (train_scorer model0))))
  else ([], inr (Some (stats_by_class_df (test_scorer model0)))).
Proof.
  intros H. apply class_init_returns in H as (Hd & _ & ->).
  unfold SingleModelSingleDatasetMLClassReport_fit_statistics_by_class. simpl.
  destruct (is_ClassificationBinaryScorer (train_scorer model0)); [reflexivity |].
  destruct (String.eqb dataset "train"); reflexivity.
Qed.

Lemma class_plot_roc_curve_constructed model0 dataset out r figsize ax :
  SingleModelSingleDatasetMLClassReport_init model0 dataset = (out, inr r) ->
  SingleModelSingleDatasetMLClassReport_plot_roc_curve r figsize ax =
  if negb (is_ClassificationBinaryScorer (train_scorer model0)) then
    ([mkPrinted roc_multiclass_warning "WARNING"], inr None)
  else
    let scorer :=
      if String.eqb dataset "train" then
        match train_overall_scorer model0 with
        | Some overall => overall
        | None => train_scorer model0
        end
      else test_scorer model0 in
    ([], inr (Some (plot_roc_curve (_y_pred_score scorer) (_y_true scorer) figsize ax))).
Proof.
  intros H. apply class_init_returns in H as (Hd & _ & ->).
  unfold SingleModelSingleDatasetMLClassReport_plot_roc_curve. simpl.
  destruct (is_ClassificationBinaryScorer (train_scorer model0)); [| reflexivity].
  simpl. destruct (String.eqb dataset "train"); [| reflexivity].
  destruct (train_overall_scorer model0); reflexivity.
Qed.

(** Construction never fails, and this is the report it returns. *)
Lemma class_report_constructed models datahandler y_var0 X_vars0 outer_cv seed verbose :
  let emitter := train_test_emitter datahandler y_var0 X_vars0 in
  let emitters := outer_emitters datahandler y_var0 X_vars0 outer_cv seed in
  let fitted := fitted_models models datahandler y_var0 X_vars0 outer_cv seed in
  MLClassificationReport_init models datahandler y_var0 X_vars0 outer_cv seed verbose =
  (flat_map (fit_model_prints verbose emitter emitters) models,
   inr {| _models := fitted;
          _id_to_model := PyDict.comp _name (specify_data_and_fit emitter emitters) models;
          y_var := y_var0;
          X_vars := X_vars0;
          _emitter := emitter;
          _emitters := emitters;
          _verbose := verbose;
          _id_to_report := PyDict.comp _name SingleModelMLClassReport_init fitted |}).
Proof.
  intros emitter emitters fitted. unfold MLClassificationReport_init.
  fold (outer_emitters datahandler y_var0 X_vars0 outer_cv seed). fold emitter emitters.
  rewrite (comprehension_outputs _ (fit_model_prints verbose emitter emitters)
             (specify_data_and_fit emitter emitters)).
  - unfold bind, ret. now rewrite app_nil_r.
  - intros a _. unfold fit_model, fit_model_prints. destruct verbose; reflexivity.
Qed.

Lemma class_fit_statistics_concat (self : MLClassificationReport) (dataset : string) :
  MLClassificationReport_fit_statistics self dataset =
  pd_concat_axis1
    (map (fun report => Some (stats_df (partition_scorer dataset (routed_model report))))
         (PyDict.values (_id_to_report self))).
Proof.
  unfold MLClassificationReport_fit_statistics, partition_scorer.
  destruct (String.eqb dataset "train");
    erewrite comprehension_silent by (intros; reflexivity);
    now rewrite bind_ret_l.
Qed.

Lemma class_train_cv_fit_statistics (report : SingleModelMLClassReport) averaged :
  cv_scorer_present (routed_model report) ->
  (r <- train_report report ;;
   SingleModelSingleDatasetMLClassReport_cv_fit_statistics r averaged) =
  (cv_frame_prints (routed_model report), inr (cv_frame averaged (routed_model report))).
Proof.
  intros Hwf. unfold train_report. rewrite class_init_valid by now left.
  rewrite bind_ret_l.
  erewrite class_cv_fit_statistics_constructed by (apply class_init_valid; now left).
  unfold cv_frame_prints, cv_frame, cv_scorer_present in *.
  destruct (_is_cross_validated (routed_model report)); simpl; [| reflexivity].
  destruct (cv_scorer (routed_model report)); [reflexivity |].
  exfalso. now apply Hwf.
Qed.

Lemma class_fit_statistics_distinct (self : MLClassificationReport) (dataset : string) :
  _id_to_report self = PyDict.comp _name SingleModelMLClassReport_init (_models self) ->
  NoDup (map _name (_models self)) ->
  _models self <> [] ->
  MLClassificationReport_fit_statistics self dataset =
  ret (List.concat (map (fun m => stats_df (partition_scorer dataset m)) (_models self))).
Proof.
  intros Hrep Hnd Hne. rewrite class_fit_statistics_concat, Hrep.
  rewrite values_comp_distinct by exact Hnd.
  rewrite map_map. simpl.
  rewrite <- (map_map (fun m => stats_df (partition_scorer dataset m)) Some).
  apply pd_concat_axis1_frames.
  destruct (_models self); [congruence | discriminate].
Qed.

Lemma class_cv_fit_statistics_first_not_cv (self : MLClassificationReport) first rest averaged :
  _models self = first :: rest ->
  _is_cross_validated first = false ->
  MLClassificationReport_cv_fit_statistics self averaged =
  ([mkPrinted not_cross_validated_warning "WARNING"], inr None).
Proof.
  intros Hm Hcv. unfold MLClassificationReport_cv_fit_statistics.
  rewrite Hm. cbn [list_getitem nth_error]. rewrite bind_ret_l, Hcv. reflexivity.
Qed.

Lemma class_cv_fit_statistics_distinct (self : MLClassificationReport) first rest averaged :
  _models self = first :: rest ->
  _id_to_report self = PyDict.comp _name SingleModelMLClassReport_init (_models self) ->
  NoDup (map _name (_models self)) ->
  (forall m, In m (_models self) -> cv_scorer_present m) ->
  _is_cross_validated first = true ->
  MLClassificationReport_cv_fit_statistics self averaged =
  (flat_map cv_frame_prints (_models self),
   inr (Some (List.concat (drop_none (map (cv_frame averaged) (_models self)))))).
Proof.
  intros Hm Hrep Hnd Hwf Hcv. unfold MLClassificationReport_cv_fit_statistics.
  rewrite Hm at 1. cbn [list_getitem nth_error]. rewrite bind_ret_l, Hcv.
  cbn [negb].
  rewrite Hrep, values_comp_distinct by exact Hnd.
  rewrite (comprehension_outputs _
             (fun report => cv_frame_prints (routed_model report))
             (fun report => cv_frame averaged (routed_model report))).
  2:{ intros report Hin. apply class_train_cv_fit_statistics.
      apply in_map_iff in Hin as (m & <- & Hin). simpl. now apply Hwf. }
  rewrite map_map, flat_map_concat_map, map_map, <- flat_map_concat_map. simpl.
  assert (cv_frame averaged first <> None) as Hfirst.
  { unfold cv_frame. rewrite Hcv.
    assert (cv_scorer_present first) as Hp by (apply Hwf; rewrite Hm; now left).
    specialize (Hp Hcv). destruct (cv_scorer first); congruence. }
  rewrite Hm in *. simpl map. simpl flat_map.
  destruct (cv_frame averaged first) as [frame |] eqn:Hframe; [| congruence].
  unfold bind, pd_concat_axis1, ret. simpl drop_none. cbv iota beta.
  now rewrite !app_nil_r.
Qed.

Lemma class_cv_fit_statistics_empty (self : MLClassificationReport) averaged :
  _models self = [] ->
  MLClassificationReport_cv_fit_statistics self averaged =
  ([], inl (IndexError "list index out of range")).
Proof.
  intros Hm. unfold MLClassificationReport_cv_fit_statistics. now rewrite Hm.
Qed.

Lemma class_fit_statistics_not_train (self : MLClassificationReport) (dataset : string) :
  dataset <> "train" ->
  MLClassificationReport_fit_statistics self dataset =
  MLClassificationReport_fit_statistics self "test".
Proof.
  intros H. unfold MLClassificationReport_fit_statistics.
  apply String.eqb_neq in H. rewrite H. reflexivity.
Qed.

Lemma class_fit_statistics_returns (self : MLClassificationReport) (dataset : string) :
  _id_to_report self <> [] ->
  MLClassificationReport_fit_statistics self dataset =
  ret (List.concat
         (map (fun report => stats_df (partition_scorer dataset (routed_model report)))
              (PyDict.values (_id_to_report self)))).
Proof.
  intros H. rewrite class_fit_statistics_concat.
  rewrite <- (map_map (fun report => stats_df (partition_scorer dataset (routed_model report)))
                Some).
  apply pd_concat_axis1_frames.
  unfold PyDict.values. destruct (_id_to_report self); [congruence | discriminate].
Qed.

Lemma class_fit_statistics_empty (self : MLClassificationReport) (dataset : string) :
  _id_to_report self = [] ->
  MLClassificationReport_fit_statistics self dataset =
  raise (ValueError "No objects to concatenate").
Proof.
  intros H. rewrite class_fit_statistics_concat, H. reflexivity.
Qed.

(** [cv_fit_statistics_by_class] on a report that [__init__] returned. *)
Lemma class_cv_fit_statistics_by_class_constructed model0 dataset out r averaged :
  SingleModelSingleDatasetMLClassReport_init model0 dataset = (out, inr r) ->
  SingleModelSingleDatasetMLClassReport_cv_fit_statistics_by_class r averaged =
  if negb (_is_cross_validated model0) then
    ([mkPrinted not_cross_validated_warning "WARNING"], inr None)
  else if is_ClassificationBinaryScorer (train_scorer model0) then
    ([mkPrinted cv_by_class_binary_warning "WARNING"], inr None)
  else if String.eqb dataset "train" then
    match cv_scorer model0 with
    | Some scorer =>
        ([], inr (Some (if averaged then stats_by_class_df scorer
                        else cv_stats_by_class_df scorer)))
    | None =>
        ([], inl (AttributeError
                    ("'NoneType' object has no attribute '"
                       ++ (if averaged then "stats_by_class_df" else "cv_stats_by_class_df")
                       ++ "'")%string))
    end
  else ([mkPrinted cv_test_data_warning "WARNING"], inr None).
Proof.
  intros H. apply class_init_returns in H as (Hd & _ & ->).
  unfold SingleModelSingleDatasetMLClassReport_cv_fit_statistics_by_class. simpl.
  destruct (_is_cross_validated model0); simpl; [| reflexivity].
  destruct (is_ClassificationBinaryScorer (train_scorer model0)); [reflexivity |].
  destruct Hd as [-> | ->]; simpl; [| reflexivity].
  destruct (cv_scorer model0), averaged; reflexivity.
Qed.

(** [cv_fit_statistics] of the multi-model report when the first model is
    cross validated, in terms of the reports the lookup holds. *)
Lemma class_cv_fit_statistics_held (self : MLClassificationReport) first rest averaged :
  _models self = first :: rest ->
  _is_cross_validated first = true ->
  _id_to_report self <> [] ->
  (forall report, In report (PyDict.values (_id_to_report self)) ->
                  cv_scorer_present (routed_model report)) ->
  MLClassificationReport_cv_fit_statistics self averaged =
  (flat_map (fun report => cv_frame_prints (routed_model report))
            (PyDict.values (_id_to_report self)),
   match drop_none (map (fun report => cv_frame averaged (routed_model report))
                        (PyDict.values (_id_to_report self))) with
   | [] => inl (ValueError "All objects passed were None")
   | frame :: frames => inr (Some (List.concat (frame :: frames)))
   end).
Proof.
  intros Hm Hcv Hne Hwf. unfold MLClassificationReport_cv_fit_statistics.
  rewrite Hm. cbn [list_getitem nth_error]. rewrite bind_ret_l, Hcv. cbn [negb].
  rewrite (comprehension_outputs _
             (fun report => cv_frame_prints (routed_model report))
             (fun report => cv_frame averaged (routed_model report)))
    by (intros report Hin; now apply class_train_cv_fit_statistics, Hwf).
  assert (PyDict.values (_id_to_report self) <> []) as Hv
      by (unfold PyDict.values; destruct (_id_to_report self); [congruence | discriminate]).
  destruct (PyDict.values (_id_to_report self)) as [| report reports]; [congruence |].
  unfold bind, pd_concat_axis1. cbn [map].
  destruct (drop_none (cv_frame averaged (routed_model report)
                         :: map (fun report0 => cv_frame averaged (routed_model report0))
                                reports));
    unfold raise, ret; now rewrite ?app_nil_r.
Qed.

End Reports.

End Classification.

(* ===================================================================== *)
(** * Regression reports (interactive/regression/mlreg.py) *)
(* ===================================================================== *)

Module Regression.

Section Reports.

(** The collaborators of the report layer stay abstract: the columns of a
    statistics table, the arrays a scorer keeps, figures and axes, the data
    handler with its emitters, and the plotting routine. *)
Context {Col Array Figure Axes FigSize DataHandler DataEmitter : Type}.

(** [visualization.plot_obs_vs_pred(y_pred, y_true, figsize, ax)] *)
Variable plot_obs_vs_pred : Array -> Array -> FigSize -> option Axes -> Figure.

(** [datahandler.train_test_emitter(y_var=, X_vars=)] *)
Variable train_test_emitter : DataHandler -> string -> list string -> DataEmitter.

(** [datahandler.kfold_emitters(y_var=, X_vars=, n_folds=, shuffle=, random_state=)] *)
Variable kfold_emitters :
  DataHandler -> string -> list string -> Z -> bool -> Z -> list DataEmitter.

(** A scorer of [metrics/regression_scoring.py], as the reports use it:
    the tables its methods return, and the predictions and observations it
    stores. *)
Record Scorer : Type := {
  stats_df : DataFrame Col;
  cv_stats_df : DataFrame Col;
  _y_pred : Array;
  _y_true : Array
}.

(** A model of [base_regression.py], as the reports use it.  The cross
    validation scorer may be [None]. *)
Record BaseRegression : Type := {
  _name : string;
  train_scorer : Scorer;
  test_scorer : Scorer;
  cv_scorer : option Scorer;
  _is_cross_validated : bool
}.

(** [model.specify_data(dataemitter=, dataemitters=)] followed by
    [model.fit()]: the state the model object is left in.  Fitting is the
    business of the model classes and is taken to return. *)
Variable specify_data_and_fit :
  DataEmitter -> option (list DataEmitter) -> BaseRegression -> BaseRegression.

(** ** SingleModelSingleDatasetMLRegReport *)

Record SingleModelSingleDatasetMLRegReport : Type := {
  model : BaseRegression;
  _dataset : string
}.

Definition dataset_error : string :=
  ("dataset must be either " ++ dquote ++ "train" ++ dquote ++ " or "
     ++ dquote ++ "test" ++ dquote ++ ".")%string.

(** [__init__(self, model, dataset)] *)
Definition SingleModelSingleDatasetMLRegReport_init
    (model0 : BaseRegression) (dataset : string)
  : Py SingleModelSingleDatasetMLRegReport :=
  if negb (String.eqb dataset "train" || String.eqb dataset "test") then
    raise (ValueError dataset_error)
  else
    ret {| model := model0; _dataset := dataset |}.

Definition SingleModelSingleDatasetMLRegReport_fit_statistics
    (self : SingleModelSingleDatasetMLRegReport) : DataFrame Col :=
  if String.eqb (_dataset self) "train" then stats_df (train_scorer (model self))
  else stats_df (test_scorer (model self)).

Definition not_cross_validated_warning : string :=
  "Cross validation statistics are not available for models that are not cross-validated.".

Definition cv_test_data_warning : string :=
  "Cross validation statistics are not available for test data.".

Definition SingleModelSingleDatasetMLRegReport_cv_fit_statistics
    (self : SingleModelSingleDatasetMLRegReport) (averaged_across_folds : bool)
  : Py (option (DataFrame Col)) :=
  if negb (_is_cross_validated (model self)) then
    print_wrapped not_cross_validated_warning "WARNING" ;;
    ret None
  else if String.eqb (_dataset self) "train" then
    if averaged_across_folds then
      scorer <- getattr_of (cv_scorer (model self)) "stats_df" ;;
      ret (Some (stats_df scorer))
    else
      scorer <- getattr_of (cv_scorer (model self)) "cv_stats_df" ;;
      ret (Some (cv_stats_df scorer))
  else
    print_wrapped cv_test_data_warning "WARNING" ;;
    ret None.

Definition SingleModelSingleDatasetMLRegReport_plot_obs_vs_pred
    (self : SingleModelSingleDatasetMLRegReport) (figsize : FigSize) (ax : option Axes)
  : Figure :=
  let (y_pred, y_true) :=
    if String.eqb (_dataset self) "train" then
      (_y_pred (train_scorer (model self)), _y_true (train_scorer (model self)))
    else (_y_pred (test_scorer (model self)), _y_true (test_scorer (model self))) in
  plot_obs_vs_pred y_pred y_true figsize ax.

(** ** SingleModelMLRegReport *)

Record SingleModelMLRegReport : Type := { routed_model : BaseRegression }.

Definition SingleModelMLRegReport_init (model0 : BaseRegression)
  : SingleModelMLRegReport := {| routed_model := model0 |}.

Definition train_report (self : SingleModelMLRegReport)
  : Py SingleModelSingleDatasetMLRegReport :=
  SingleModelSingleDatasetMLRegReport_init (routed_model self) "train".

Definition test_report (self : SingleModelMLRegReport)
  : Py SingleModelSingleDatasetMLRegReport :=
  SingleModelSingleDatasetMLRegReport_init (routed_model self) "test".

(** ** MLRegressionReport *)

Record MLRegressionReport : Type := {
  _models : list BaseRegression;
  _id_to_model : PyDict.t BaseRegression;
  y_var : string;
  X_vars : list string;
  _emitter : DataEmitter;
  _emitters : option (list DataEmitter);
  _verbose : bool;
  _id_to_report : PyDict.t SingleModelMLRegReport
}.

(** One turn of the fitting loop of [__init__]. *)
Definition fit_model (verbose : bool) (emitter : DataEmitter)
    (emitters : option (list DataEmitter)) (model0 : BaseRegression)
  : Py BaseRegression :=
  (if verbose
   then print_wrapped ("Fitting model " ++ _name model0 ++ ".")%string "UPDATE"
   else ret tt) ;;
  let fitted := specify_data_and_fit emitter emitters model0 in
  (if verbose
   then print_wrapped ("Fitted model " ++ _name fitted ++ ".")%string "UPDATE"
   else ret tt) ;;
  ret fitted.

(** [__init__(self, models, datahandler, y_var, X_vars, outer_cv=None,
    outer_cv_seed=42, verbose=True)].  The name-to-model mapping is built
    from the names the models have on entry and holds the model objects,
    which the loop then fits in place; the name-to-report mapping is built
    after the loop.  Every entry of [models] is taken to be an object of its
    own. *)
Definition MLRegressionReport_init (models : list BaseRegression)
    (datahandler : DataHandler) (y_var0 : string) (X_vars0 : list string)
    (outer_cv : option Z) (outer_cv_seed : Z) (verbose : bool)
  : Py MLRegressionReport :=
  let emitter := train_test_emitter datahandler y_var0 X_vars0 in
  let emitters :=
    match outer_cv with
    | None => None
    | Some n_folds =>
        Some (kfold_emitters datahandler y_var0 X_vars0 n_folds true outer_cv_seed)
    end in
  let id_to_model :=
    PyDict.comp _name (specify_data_and_fit emitter emitters) models in
  fitted <- comprehension (fit_model verbose emitter emitters) models ;;
  ret {| _models := fitted;
         _id_to_model := id_to_model;
         y_var := y_var0;
         X_vars := X_vars0;
         _emitter := emitter;
         _emitters := emitters;
         _verbose := verbose;
         _id_to_report := PyDict.comp _name SingleModelMLRegReport_init fitted |}.

Definition MLRegressionReport_model_report (self : MLRegressionReport)
    (model_id : string) : Py SingleModelMLRegReport :=
  PyDict.getitem model_id (_id_to_report self).

Definition MLRegressionReport_model (self : MLRegressionReport)
    (model_id : string) : Py BaseRegression :=
  PyDict.getitem model_id (_id_to_model self).

(** [fit_statistics(self, dataset='test')] *)
Definition MLRegressionReport_fit_statistics (self : MLRegressionReport)
    (dataset : string) : Py (DataFrame Col) :=
  if String.eqb dataset "train" then
    frames <- comprehension
                (fun report =>
                   r <- train_report report ;;
                   ret (Some (SingleModelSingleDatasetMLRegReport_fit_statistics r)))
                (PyDict.values (_id_to_report self)) ;;
    pd_concat_axis1 frames
  else
    frames <- comprehension
                (fun report =>
                   r <- test_report report ;;
                   ret (Some (SingleModelSingleDatasetMLRegReport_fit_statistics r)))
                (PyDict.values (_id_to_report self)) ;;
    pd_concat_axis1 frames.

Definition MLRegressionReport_cv_fit_statistics (self : MLRegressionReport)
    (averaged_across_folds : bool) : Py (option (DataFrame Col)) :=
  first <- list_getitem (_models self) 0 ;;
  if negb (_is_cross_validated first) then
    print_wrapped not_cross_validated_warning "WARNING" ;;
    ret None
  else
    frames <- comprehension
                (fun report =>
                   r <- train_report report ;;
                   SingleModelSingleDatasetMLRegReport_cv_fit_statistics
                     r averaged_across_folds)
                (PyDict.values (_id_to_report self)) ;;
    table <- pd_concat_axis1 frames ;;
    ret (Some table).

(** [report[model_id]] *)
Definition MLRegressionReport_getitem (self : MLRegressionReport)
    (model_id : string) : Py SingleModelMLRegReport :=
  PyDict.getitem model_id (_id_to_report self).

(** ** Vocabulary of the statements below *)

(** What the fitting loop prints for one model. *)
Definition fit_model_prints (verbose : bool) (emitter : DataEmitter)
    (emitters : option (list DataEmitter)) (model0 : BaseRegression) : list Printed :=
  if verbose then
    [mkPrinted ("Fitting model " ++ _name model0 ++ ".")%string "UPDATE";
     mkPrinted ("Fitted model "
                  ++ _name (specify_data_and_fit emitter emitters model0) ++ ".")%string
               "UPDATE"]
  else [].

(** The emitters [__init__] hands to the models. *)
Definition outer_emitters (datahandler : DataHandler) (y_var0 : string)
    (X_vars0 : list string) (outer_cv : option Z) (outer_cv_seed : Z)
  : option (list DataEmitter) :=
  match outer_cv with
  | None => None
  | Some n_folds => Some (kfold_emitters datahandler y_var0 X_vars0 n_folds true outer_cv_seed)
  end.

(** The models as [__init__] leaves them, in the order supplied. *)
Definition fitted_models (models : list BaseRegression) (datahandler : DataHandler)
    (y_var0 : string) (X_vars0 : list string) (outer_cv : option Z) (outer_cv_seed : Z)
  : list BaseRegression :=
  map (specify_data_and_fit (train_test_emitter datahandler y_var0 X_vars0)
         (outer_emitters datahandler y_var0 X_vars0 outer_cv outer_cv_seed))
      models.

(** The scorer of a model for a partition, as [fit_statistics] picks it. *)
Definition partition_scorer (dataset : string) (model0 : BaseRegression) : Scorer :=
  if String.eqb dataset "train" then train_scorer model0 else test_scorer model0.

(** What one model contributes to the cross validated table: nothing, with
    a warning, when it was not cross validated. *)
Definition cv_frame (averaged : bool) (model0 : BaseRegression)
  : option (DataFrame Col) :=
  if _is_cross_validated model0 then
    match cv_scorer model0 with
    | Some scorer => Some (if averaged then stats_df scorer else cv_stats_df scorer)
    | None => None
    end
  else None.

(** What that contribution prints. *)
Definition cv_frame_prints (model0 : BaseRegression) : list Printed :=
  if _is_cross_validated model0 then []
  else [mkPrinted not_cross_validated_warning "WARNING"].

(** A model that says it is cross validated has a cross validation scorer. *)
Definition cv_scorer_present (model0 : BaseRegression) : Prop :=
  _is_cross_validated model0 = true -> cv_scorer model0 <> None.

(** ** What the methods compute *)

Lemma reg_init_returns model0 dataset out r :
  SingleModelSingleDatasetMLRegReport_init model0 dataset = (out, inr r) ->
  (dataset = "train" \/ dataset = "test") /\ out = [] /\
  r = {| model := model0; _dataset := dataset |}.
Proof.
  unfold SingleModelSingleDatasetMLRegReport_init.
  destruct (String.eqb dataset "train") eqn:Etrain;
    [| destruct (String.eqb dataset "test") eqn:Etest];
    simpl; intros H; inversion H; subst; clear H.
  - apply String.eqb_eq in Etrain. auto.
  - apply String.eqb_eq in Etest. auto.
Qed.

Lemma reg_init_valid model0 dataset :
  dataset = "train" \/ dataset = "test" ->
  SingleModelSingleDatasetMLRegReport_init model0 dataset =
  ret {| model := model0; _dataset := dataset |}.
Proof. intros [-> | ->]; reflexivity. Qed.

Lemma reg_init_invalid model0 dataset :
  dataset <> "train" -> dataset <> "test" ->
  SingleModelSingleDatasetMLRegReport_init model0 dataset =
  raise (ValueError dataset_error).
Proof.
  intros Htrain Htest. unfold SingleModelSingleDatasetMLRegReport_init.
  apply String.eqb_neq in Htrain, Htest. now rewrite Htrain, Htest.
Qed.

(** [cv_fit_statistics] on a report that [__init__] returned. *)
Lemma reg_cv_fit_statistics_constructed model0 dataset out r averaged :
  SingleModelSingleDatasetMLRegReport_init model0 dataset = (out, inr r) ->
  SingleModelSingleDatasetMLRegReport_cv_fit_statistics r averaged =
  if negb (_is_cross_validated model0) then
    ([mkPrinted not_cross_validated_warning "WARNING"], inr None)
  else if String.eqb dataset "train" then
    match cv_scorer model0 with
    | Some scorer =>
        ([], inr (Some (if averaged then stats_df scorer else cv_stats_df scorer)))
    | None =>
        ([], inl (AttributeError
                    ("'NoneType' object has no attribute '"
                       ++ (if averaged then "stats_df" else "cv_stats_df") ++ "'")%string))
    end
  else ([mkPrinted cv_test_data_warning "WARNING"], inr None).
Proof.
  intros H. apply reg_init_returns in H as (Hd & _ & ->).
  unfold SingleModelSingleDatasetMLRegReport_cv_fit_statistics. simpl.
  destruct (_is_cross_validated model0); simpl; [| reflexivity].
  destruct Hd as [-> | ->]; simpl; [| reflexivity].
  destruct (cv_scorer model0), averaged; reflexivity.
Qed.

(** Construction never fails, and this is the report it returns. *)
Lemma reg_report_constructed models datahandler y_var0 X_vars0 outer_cv seed verbose :
  let emitter := train_test_emitter datahandler y_var0 X_vars0 in
  let emitters := outer_emitters datahandler y_var0 X_vars0 outer_cv seed in
  let fitted := fitted_models models datahandler y_var0 X_vars0 outer_cv seed in
  MLRegressionReport_init models datahandler y_var0 X_vars0 outer_cv seed verbose =
  (flat_map (fit_model_prints verbose emitter emitters) models,
   inr {| _models := fitted;
          _id_to_model := PyDict.comp _name (specify_data_and_fit emitter emitters) models;
          y_var := y_var0;
          X_vars := X_vars0;
          _emitter := emitter;
          _emitters := emitters;
          _verbose := verbose;
          _id_to_report := PyDict.comp _name SingleModelMLRegReport_init fitted |}).
Proof.
  intros emitter emitters fitted. unfold MLRegressionReport_init.
  fold (outer_emitters datahandler y_var0 X_vars0 outer_cv seed). fold emitter emitters.
  rewrite (comprehension_outputs _ (fit_model_prints verbose emitter emitters)
             (specify_data_and_fit emitter emitters)).
  - unfold bind, ret. now rewrite app_nil_r.
  - intros a _. unfold fit_model, fit_model_prints. destruct verbose; reflexivity.
Qed.

Lemma reg_fit_statistics_concat (self : MLRegressionReport) (dataset : string) :
  MLRegressionReport_fit_statistics self dataset =
  pd_concat_axis1
    (map (fun report => Some (stats_df (partition_scorer dataset (routed_model report))))
         (PyDict.values (_id_to_report self))).
Proof.
  unfold MLRegressionReport_fit_statistics, partition_scorer.
  destruct (String.eqb dataset "train");
    erewrite comprehension_silent by (intros; reflexivity);
    now rewrite bind_ret_l.
Qed.

Lemma reg_train_cv_fit_statistics (report : SingleModelMLRegReport) averaged :
  cv_scorer_present (routed_model report) ->
  (r <- train_report report ;;
   SingleModelSingleDatasetMLRegReport_cv_fit_statistics r averaged) =
  (cv_frame_prints (routed_model report), inr (cv_frame averaged (routed_model report))).
Proof.
  intros Hwf. unfold train_report. rewrite reg_init_valid by now left.
  rewrite bind_ret_l.
  erewrite reg_cv_fit_statistics_constructed by (apply reg_init_valid; now left).
  unfold cv_frame_prints, cv_frame, cv_scorer_present in *.
  destruct (_is_cross_validated (routed_model report)); simpl; [| reflexivity].
  destruct (cv_scorer (routed_model report)); [reflexivity |].
  exfalso. now apply Hwf.
Qed.

Lemma reg_fit_statistics_distinct (self : MLRegressionReport) (dataset : string) :
  _id_to_report self = PyDict.comp _name SingleModelMLRegReport_init (_models self) ->
  NoDup (map _name (_models self)) ->
  _models self <> [] ->
  MLRegressionReport_fit_statistics self dataset =
  ret (List.concat (map (fun m => stats_df (partition_scorer dataset m)) (_models self))).
Proof.
  intros Hrep Hnd Hne. rewrite reg_fit_statistics_concat, Hrep.
  rewrite values_comp_distinct by exact Hnd.
  rewrite map_map. simpl.
  rewrite <- (map_map (fun m => stats_df (partition_scorer dataset m)) Some).
  apply pd_concat_axis1_frames.
  destruct (_models self); [congruence | discriminate].
Qed.

Lemma reg_cv_fit_statistics_first_not_cv (self : MLRegressionReport) first rest averaged :
  _models self = first :: rest ->
  _is_cross_validated first = false ->
  MLRegressionReport_cv_fit_statistics self averaged =
  ([mkPrinted not_cross_validated_warning "WARNING"], inr None).
Proof.
  intros Hm Hcv. unfold MLRegressionReport_cv_fit_statistics.
  rewrite Hm. cbn [list_getitem nth_error]. rewrite bind_ret_l, Hcv. reflexivity.
Qed.

Lemma reg_cv_fit_statistics_distinct (self : MLRegressionReport) first rest averaged :
  _models self = first :: rest ->
  _id_to_report self = PyDict.comp _name SingleModelMLRegReport_init (_models self) ->
  NoDup (map _name (_models self)) ->
  (forall m, In m (_models self) -> cv_scorer_present m) ->
  _is_cross_validated first = true ->
  MLRegressionReport_cv_fit_statistics self averaged =
  (flat_map cv_frame_prints (_models self),
   inr (Some (List.concat (drop_none (map (cv_frame averaged) (_models self)))))).
Proof.
  intros Hm Hrep Hnd Hwf Hcv. unfold MLRegressionReport_cv_fit_statistics.
  rewrite Hm at 1. cbn [list_getitem nth_error]. rewrite bind_ret_l, Hcv.
  cbn [negb].
  rewrite Hrep, values_comp_distinct by exact Hnd.
  rewrite (comprehension_outputs _
             (fun report => cv_frame_prints (routed_model report))
             (fun report => cv_frame averaged (routed_model report))).
  2:{ intros report Hin. apply reg_train_cv_fit_statistics.
      apply in_map_iff in Hin as (m & <- & Hin). simpl. now apply Hwf. }
  rewrite map_map, flat_map_concat_map, map_map, <- flat_map_concat_map. simpl.
  assert (cv_frame averaged first <> None) as Hfirst.
  { unfold cv_frame. rewrite Hcv.
    assert (cv_scorer_present first) as Hp by (apply Hwf; rewrite Hm; now left).
    specialize (Hp Hcv). destruct (cv_scorer first); congruence. }
  rewrite Hm in *. simpl map. simpl flat_map.
  destruct (cv_frame averaged first) as [frame |] eqn:Hframe; [| congruence].
  unfold bind, pd_concat_axis1, ret. simpl drop_none. cbv iota beta.
  now rewrite !app_nil_r.
Qed.

Lemma reg_cv_fit_statistics_empty (self : MLRegressionReport) averaged :
  _models self = [] ->
  MLRegressionReport_cv_fit_statistics self averaged =
  ([], inl (IndexError "list index out of range")).
Proof.
  intros Hm. unfold MLRegressionReport_cv_fit_statistics. now rewrite Hm.
Qed.

Lemma reg_fit_statistics_not_train (self : MLRegressionReport) (dataset : string) :
  dataset <> "train" ->
  MLRegressionReport_fit_statistics self dataset =
  MLRegressionReport_fit_statistics self "test".
Proof.
  intros H. unfold MLRegressionReport_fit_statistics.
  apply String.eqb_neq in H. rewrite H. reflexivity.
Qed.

Lemma reg_fit_statistics_returns (self : MLRegressionReport) (dataset : string) :
  _id_to_report self <> [] ->
  MLRegressionReport_fit_statistics self dataset =
  ret (List.concat
         (map (fun report => stats_df (partition_scorer dataset (routed_model report)))
              (PyDict.values (_id_to_report self)))).
Proof.
  intros H. rewrite reg_fit_statistics_concat.
  rewrite <- (map_map (fun report => stats_df (partition_scorer dataset (routed_model report)))
                Some).
  apply pd_concat_axis1_frames.
  unfold PyDict.values. destruct (_id_to_report self); [congruence | discriminate].
Qed.

Lemma reg_fit_statistics_empty (self : MLRegressionReport) (dataset : string) :
  _id_to_report self = [] ->
  MLRegressionReport_fit_statistics self dataset =
  raise (ValueError "No objects to concatenate").
Proof.
  intros H. rewrite reg_fit_statistics_concat, H. reflexivity.
Qed.

(** [cv_fit_statistics] of the multi-model report when the first model is
    cross validated, in terms of the reports the lookup holds. *)
Lemma reg_cv_fit_statistics_held (self : MLRegressionReport) first rest averaged :
  _models self = first :: rest ->
  _is_cross_validated first = true ->
  _id_to_report self <> [] ->
  (forall report, In report (PyDict.values (_id_to_report self)) ->
                  cv_scorer_present (routed_model report)) ->
  MLRegressionReport_cv_fit_statistics self averaged =
  (flat_map (fun report => cv_frame_prints (routed_model report))
            (PyDict.values (_id_to_report self)),
   match drop_none (map (fun report => cv_frame averaged (routed_model report))
                        (PyDict.values (_id_to_report self))) with
   | [] => inl (ValueError "All objects passed were None")
   | frame :: frames => inr (Some (List.concat (frame :: frames)))
   end).
Proof.
  intros Hm Hcv Hne Hwf. unfold MLRegressionReport_cv_fit_statistics.
  rewrite Hm. cbn [list_getitem nth_error]. rewrite bind_ret_l, Hcv. cbn [negb].
  rewrite (comprehension_outputs _
             (fun report => cv_frame_prints (routed_model report))
             (fun report => cv_frame averaged (routed_model report)))
    by (intros report Hin; now apply reg_train_cv_fit_statistics, Hwf).
  assert (PyDict.values (_id_to_report self) <> []) as Hv
      by (unfold PyDict.values; destruct (_id_to_report self); [congruence | discriminate]).
  destruct (PyDict.values (_id_to_report self)) as [| report reports]; [congruence |].
  unfold bind, pd_concat_axis1. cbn [map].
  destruct (drop_none (cv_frame averaged (routed_model report)
                         :: map (fun report0 => cv_frame averaged (routed_model report0))
                                reports));
    unfold raise, ret; now rewrite ?app_nil_r.
Qed.

End Reports.

End Regression.

(* ===================================================================== *)
(** * The reports against their specification *)
(* ===================================================================== *)

(** Splits a conjunction of case statements and closes each case by its
    hypotheses. *)
Ltac settle_cases :=
  repeat match goal with
         | |- _ /\ _ => split
         | |- _ <-> _ => split
         end;
  intros;
  repeat match goal with
         | H : exists _, _ |- _ => destruct H
         | H : _ /\ _ |- _ => destruct H
         | H : _ \/ _ |- _ => destruct H
         end;
  simpl in *; try discriminate; try congruence; eauto.

Section ReportClaims.

Context {Col Array Figure Axes FigSize DataHandler DataEmitter : Type}.

Variable plot_roc_curve : Array -> Array -> FigSize -> option Axes -> Figure.
Variable train_test_emitter : DataHandler -> string -> list string -> DataEmitter.
Variable kfold_emitters :
  DataHandler -> string -> list string -> Z -> bool -> Z -> list DataEmitter.

Local Abbreviation ClassModel := (@Classification.BaseClassification Col Array).
Local Abbreviation RegModel := (@Regression.BaseRegression Col Array).

Variable fit_classification :
  DataEmitter -> option (list DataEmitter) -> ClassModel -> ClassModel.
Variable fit_regression :
  DataEmitter -> option (list DataEmitter) -> RegModel -> RegModel.

(** C2.  Constructing a single-model/single-dataset report, classification
    or regression, with a dataset selector other than the strings train and
    test raises [ValueError]; with train or test the construction succeeds.
    So every report object that was constructed has train or test in its
    dataset field. *)
Theorem dataset_selector_validated :
  forall (mc : ClassModel) (mr : RegModel) (dataset : string),
    (dataset <> "train" /\ dataset <> "test" ->
       Classification.SingleModelSingleDatasetMLClassReport_init mc dataset
         = ([], inl (ValueError Classification.dataset_error)) /\
       Regression.SingleModelSingleDatasetMLRegReport_init mr dataset
         = ([], inl (ValueError Regression.dataset_error)))
    /\
    (dataset = "train" \/ dataset = "test" ->
       (exists r, Classification.SingleModelSingleDatasetMLClassReport_init mc dataset
                    = ([], inr r)
                  /\ Classification.model r = mc /\ Classification._dataset r = dataset) /\
       (exists r, Regression.SingleModelSingleDatasetMLRegReport_init mr dataset
                    = ([], inr r)
                  /\ Regression.model r = mr /\ Regression._dataset r = dataset))
    /\
    (forall out r,
       Classification.SingleModelSingleDatasetMLClassReport_init mc dataset = (out, inr r) ->
       Classification._dataset r = "train" \/ Classification._dataset r = "test")
    /\
    (forall out r,
       Regression.SingleModelSingleDatasetMLRegReport_init mr dataset = (out, inr r) ->
       Regression._dataset r = "train" \/ Regression._dataset r = "test").
Proof.
  intros mc mr dataset. repeat split.
  - destruct H. now apply Classification.class_init_invalid.
  - destruct H. now apply Regression.reg_init_invalid.
  - eexists. split; [now apply Classification.class_init_valid |]. auto.
  - eexists. split; [now apply Regression.reg_init_valid |]. auto.
  - intros out r H. apply Classification.class_init_returns in H as (Hd & _ & ->). exact Hd.
  - intros out r H. apply Regression.reg_init_returns in H as (Hd & _ & ->). exact Hd.
Qed.

(** C3.  On every single-model/single-dataset report, [cv_fit_statistics]
    returns a statistics table exactly when the model is cross validated
    and the dataset selector is train: the averaged table of the cross
    validation scorer when [averaged_across_folds] holds, its per-fold
    table otherwise.  In every other case (a model that is not cross
    validated, whatever the selector, or the selector test) it prints one
    warning and returns [None]; it does not raise.  A model that reports
    itself cross validated is taken to carry its cross validation scorer. *)
Theorem single_report_cv_fit_statistics :
  forall (mc : ClassModel) (mr : RegModel) (dataset : string) (averaged : bool)
         out_c rc out_r rr,
    Classification.SingleModelSingleDatasetMLClassReport_init mc dataset = (out_c, inr rc) ->
    Regression.SingleModelSingleDatasetMLRegReport_init mr dataset = (out_r, inr rr) ->
    Classification.cv_scorer_present mc ->
    Regression.cv_scorer_present mr ->
    (let result :=
       Classification.SingleModelSingleDatasetMLClassReport_cv_fit_statistics rc averaged in
     ((exists table, snd result = inr (Some table)) <->
        (Classification._is_cross_validated mc = true /\ dataset = "train"))
     /\
     (Classification._is_cross_validated mc = true /\ dataset = "train" ->
        exists scorer,
          Classification.cv_scorer mc = Some scorer /\
          result = ([], inr (Some (if averaged then Classification.stats_df scorer
                                   else Classification.cv_stats_df scorer))))
     /\
     (Classification._is_cross_validated mc = false \/ dataset = "test" ->
        exists text, result = ([mkPrinted text "WARNING"], inr None)))
    /\
    (let result :=
       Regression.SingleModelSingleDatasetMLRegReport_cv_fit_statistics rr averaged in
     ((exists table, snd result = inr (Some table)) <->
        (Regression._is_cross_validated mr = true /\ dataset = "train"))
     /\
     (Regression._is_cross_validated mr = true /\ dataset = "train" ->
        exists scorer,
          Regression.cv_scorer mr = Some scorer /\
          result = ([], inr (Some (if averaged then Regression.stats_df scorer
                                   else Regression.cv_stats_df scorer))))
     /\
     (Regression._is_cross_validated mr = false \/ dataset = "test" ->
        exists text, result = ([mkPrinted text "WARNING"], inr None))).
Proof.
  intros mc mr dataset averaged out_c rc out_r rr Hc Hr Hwc Hwr.
  pose proof (Classification.class_cv_fit_statistics_constructed _ _ _ _ averaged Hc) as Ec.
  pose proof (Regression.reg_cv_fit_statistics_constructed _ _ _ _ averaged Hr) as Er.
  apply Classification.class_init_returns in Hc as (Hd & _ & _).
  clear Hr. cbv zeta. rewrite Ec, Er. clear Ec Er.
  unfold Classification.cv_scorer_present in Hwc.
  unfold Regression.cv_scorer_present in Hwr.
  split.
  - destruct (Classification._is_cross_validated mc) eqn:Hcv; simpl;
      [destruct (Classification.cv_scorer mc) as [scorer |] eqn:Hs;
         [| exfalso; now apply Hwc];
       destruct Hd as [-> | ->]; simpl |];
      settle_cases.
  - destruct (Regression._is_cross_validated mr) eqn:Hcv; simpl;
      [destruct (Regression.cv_scorer mr) as [scorer |] eqn:Hs;
         [| exfalso; now apply Hwr];
       destruct Hd as [-> | ->]; simpl |];
      settle_cases.
Qed.

(** C5.  On a classification single-model/single-dataset report whose
    model has a binary train scorer, [fit_statistics_by_class] prints a
    warning and returns [None] instead of raising; on a report that is not
    binary it returns the per-class table of the scorer of the configured
    dataset. *)
Theorem fit_statistics_by_class_binary_absent :
  forall (mc : ClassModel) (dataset : string) out r,
    Classification.SingleModelSingleDatasetMLClassReport_init mc dataset = (out, inr r) ->
    let result := Classification.SingleModelSingleDatasetMLClassReport_fit_statistics_by_class r in
    (Classification.is_ClassificationBinaryScorer (Classification.train_scorer mc) = true ->
       result = ([mkPrinted Classification.by_class_binary_warning "WARNING"], inr None))
    /\
    (Classification.is_ClassificationBinaryScorer (Classification.train_scorer mc) = false ->
       (dataset = "train" ->
          result = ([], inr (Some (Classification.stats_by_class_df
                                     (Classification.train_scorer mc))))) /\
       (dataset = "test" ->
          result = ([], inr (Some (Classification.stats_by_class_df
                                     (Classification.test_scorer mc)))))).
Proof.
  intros mc dataset out r H. cbv zeta.
  rewrite (Classification.class_fit_statistics_by_class_constructed _ _ _ _ H).
  destruct (Classification.is_ClassificationBinaryScorer (Classification.train_scorer mc)).
  - split; [reflexivity | intros; discriminate].
  - split; [intros; discriminate |].
    intros _. split; intros ->; reflexivity.
Qed.

(** C7.  On a classification single-model/single-dataset report,
    [plot_roc_curve] prints a warning and returns [None] when the task is
    not binary.  When it is binary and the selector is train, the scores
    and labels come from the overall scorer of the model if there is one
    and from the train scorer otherwise; when the selector is test they
    come from the test scorer. *)
Theorem plot_roc_curve_scorer_choice :
  forall (mc : ClassModel) (dataset : string) (figsize : FigSize) (ax : option Axes) out r,
    Classification.SingleModelSingleDatasetMLClassReport_init mc dataset = (out, inr r) ->
    let result :=
      Classification.SingleModelSingleDatasetMLClassReport_plot_roc_curve
        plot_roc_curve r figsize ax in
    let drawn_from (scorer : Classification.Scorer) :=
      ([], inr (Some (plot_roc_curve (Classification._y_pred_score scorer)
                                     (Classification._y_true scorer) figsize ax))) in
    (Classification.is_ClassificationBinaryScorer (Classification.train_scorer mc) = false ->
       result = ([mkPrinted Classification.roc_multiclass_warning "WARNING"], inr None))
    /\
    (Classification.is_ClassificationBinaryScorer (Classification.train_scorer mc) = true ->
       (dataset = "train" ->
          (forall overall, Classification.train_overall_scorer mc = Some overall ->
                           result = drawn_from overall) /\
          (Classification.train_overall_scorer mc = None ->
             result = drawn_from (Classification.train_scorer mc))) /\
       (dataset = "test" -> result = drawn_from (Classification.test_scorer mc))).
Proof.
  intros mc dataset figsize ax out r H. cbv zeta.
  rewrite (Classification.class_plot_roc_curve_constructed _ _ _ _ _ figsize ax H).
  destruct (Classification.is_ClassificationBinaryScorer (Classification.train_scorer mc));
    simpl.
  - split; [intros; discriminate |].
    intros _. split; intros ->; simpl; [| reflexivity].
    split; [intros overall -> | intros ->]; reflexivity.
  - split; [reflexivity | intros; discriminate].
Qed.

(** ** Multi-model reports *)

(** C8.  When two or more of the models handed to a multi-model report
    share a name, construction raises nothing, and [model], [model_report]
    and the indexing operator resolve that name to the model that comes
    latest in the order supplied; the earlier models of that name are not
    reachable through the lookups, which hold every name once.  Fitting is
    taken to leave the names of the models as they are. *)
Theorem duplicate_names_resolve_to_latest :
  forall (cbefore cafter : list ClassModel) (mc : ClassModel)
         (rbefore rafter : list RegModel) (mr : RegModel)
         (datahandler : DataHandler) (y_var : string) (X_vars : list string)
         (outer_cv : option Z) (outer_cv_seed : Z) (verbose : bool),
    let emitter := train_test_emitter datahandler y_var X_vars in
    let cfit :=
      fit_classification emitter
        (Classification.outer_emitters kfold_emitters datahandler y_var X_vars
           outer_cv outer_cv_seed) in
    let rfit :=
      fit_regression emitter
        (Regression.outer_emitters kfold_emitters datahandler y_var X_vars
           outer_cv outer_cv_seed) in
    (forall m, In m cafter -> Classification._name m <> Classification._name mc) ->
    (forall m, In m (cbefore ++ mc :: cafter) ->
               Classification._name (cfit m) = Classification._name m) ->
    (forall m, In m rafter -> Regression._name m <> Regression._name mr) ->
    (forall m, In m (rbefore ++ mr :: rafter) ->
               Regression._name (rfit m) = Regression._name m) ->
    (exists out r,
        Classification.MLClassificationReport_init
          train_test_emitter kfold_emitters fit_classification
          (cbefore ++ mc :: cafter) datahandler y_var X_vars outer_cv outer_cv_seed verbose
        = (out, inr r) /\
        Classification.MLClassificationReport_model r (Classification._name mc)
        = ret (cfit mc) /\
        Classification.MLClassificationReport_model_report r (Classification._name mc)
        = ret (Classification.SingleModelMLClassReport_init (cfit mc)) /\
        Classification.MLClassificationReport_getitem r (Classification._name mc)
        = ret (Classification.SingleModelMLClassReport_init (cfit mc)) /\
        NoDup (PyDict.keys (Classification._id_to_model r)) /\
        NoDup (PyDict.keys (Classification._id_to_report r)))
    /\
    (exists out r,
        Regression.MLRegressionReport_init
          train_test_emitter kfold_emitters fit_regression
          (rbefore ++ mr :: rafter) datahandler y_var X_vars outer_cv outer_cv_seed verbose
        = (out, inr r) /\
        Regression.MLRegressionReport_model r (Regression._name mr)
        = ret (rfit mr) /\
        Regression.MLRegressionReport_model_report r (Regression._name mr)
        = ret (Regression.SingleModelMLRegReport_init (rfit mr)) /\
        Regression.MLRegressionReport_getitem r (Regression._name mr)
        = ret (Regression.SingleModelMLRegReport_init (rfit mr)) /\
        NoDup (PyDict.keys (Regression._id_to_model r)) /\
        NoDup (PyDict.keys (Regression._id_to_report r))).
Proof.
  intros cbefore cafter mc rbefore rafter mr datahandler y_var X_vars outer_cv seed verbose
         emitter cfit rfit Hc Hcfit Hr Hrfit.
  split.
  - do 2 eexists. split; [apply Classification.class_report_constructed |].
    unfold Classification.MLClassificationReport_model,
      Classification.MLClassificationReport_model_report,
      Classification.MLClassificationReport_getitem, PyDict.getitem.
    cbn [Classification._id_to_model Classification._id_to_report].
    unfold Classification.fitted_models. fold emitter. fold cfit.
    assert (PyDict.get (Classification._name mc)
              (PyDict.comp Classification._name Classification.SingleModelMLClassReport_init
                 (map cfit (cbefore ++ mc :: cafter)))
            = Some (Classification.SingleModelMLClassReport_init (cfit mc))) as Hrep.
    { rewrite map_app. cbn [map].
      rewrite <- (Hcfit mc) by (apply in_or_app; right; now left).
      apply get_comp_latest.
      intros m' Hin. apply in_map_iff in Hin as (m & <- & Hin).
      rewrite !Hcfit by (apply in_or_app; right; simpl; auto).
      now apply Hc. }
    rewrite get_comp_latest by exact Hc. rewrite Hrep.
    repeat split; try reflexivity; apply NoDup_keys_comp.
  - do 2 eexists. split; [apply Regression.reg_report_constructed |].
    unfold Regression.MLRegressionReport_model,
      Regression.MLRegressionReport_model_report,
      Regression.MLRegressionReport_getitem, PyDict.getitem.
    cbn [Regression._id_to_model Regression._id_to_report].
    unfold Regression.fitted_models. fold emitter. fold rfit.
    assert (PyDict.get (Regression._name mr)
              (PyDict.comp Regression._name Regression.SingleModelMLRegReport_init
                 (map rfit (rbefore ++ mr :: rafter)))
            = Some (Regression.SingleModelMLRegReport_init (rfit mr))) as Hrep.
    { rewrite map_app. cbn [map].
      rewrite <- (Hrfit mr) by (apply in_or_app; right; now left).
      apply get_comp_latest.
      intros m' Hin. apply in_map_iff in Hin as (m & <- & Hin).
      rewrite !Hrfit by (apply in_or_app; right; simpl; auto).
      now apply Hr. }
    rewrite get_comp_latest by exact Hr. rewrite Hrep.
    repeat split; try reflexivity; apply NoDup_keys_comp.
Qed.

(** C9.  On a multi-model report constructed over an empty collection of
    models, [cv_fit_statistics] raises [IndexError]: it reads the first
    element of the model list before anything else, and neither warns nor
    returns [None]. *)
Theorem empty_collection_cv_fit_statistics_raises :
  forall (datahandler : DataHandler) (y_var : string) (X_vars : list string)
         (outer_cv : option Z) (outer_cv_seed : Z) (verbose averaged : bool),
    (exists r,
        Classification.MLClassificationReport_init
          train_test_emitter kfold_emitters fit_classification
          [] datahandler y_var X_vars outer_cv outer_cv_seed verbose
        = ([], inr r) /\
        Classification.MLClassificationReport_cv_fit_statistics r averaged
        = ([], inl (IndexError "list index out of range")))
    /\
    (exists r,
        Regression.MLRegressionReport_init
          train_test_emitter kfold_emitters fit_regression
          [] datahandler y_var X_vars outer_cv outer_cv_seed verbose
        = ([], inr r) /\
        Regression.MLRegressionReport_cv_fit_statistics r averaged
        = ([], inl (IndexError "list index out of range"))).
Proof.
  intros. split; eexists; (split; [reflexivity |]).
  - now apply Classification.class_cv_fit_statistics_empty.
  - now apply Regression.reg_cv_fit_statistics_empty.
Qed.

(** C6, amended.  Over a non-empty collection of models whose names are
    pairwise distinct, [fit_statistics] of a multi-model report returns the
    column-wise concatenation of the statistics tables of the models for
    the partition asked for (the train scorers for train, the test scorers
    for test), in the order in which the models were supplied, and prints
    nothing. *)
Theorem fit_statistics_in_supplied_order :
  forall (cmodels : list ClassModel) (rmodels : list RegModel)
         (datahandler : DataHandler) (y_var : string) (X_vars : list string)
         (outer_cv : option Z) (outer_cv_seed : Z) (verbose : bool),
    let cfitted :=
      Classification.fitted_models train_test_emitter kfold_emitters fit_classification
        cmodels datahandler y_var X_vars outer_cv outer_cv_seed in
    let rfitted :=
      Regression.fitted_models train_test_emitter kfold_emitters fit_regression
        rmodels datahandler y_var X_vars outer_cv outer_cv_seed in
    cmodels <> [] -> NoDup (map Classification._name cfitted) ->
    rmodels <> [] -> NoDup (map Regression._name rfitted) ->
    (exists out r,
        Classification.MLClassificationReport_init
          train_test_emitter kfold_emitters fit_classification
          cmodels datahandler y_var X_vars outer_cv outer_cv_seed verbose
        = (out, inr r) /\
        Classification.MLClassificationReport_fit_statistics r "train"
        = ([], inr (List.concat
                      (map (fun m => Classification.stats_df (Classification.train_scorer m))
                           cfitted))) /\
        Classification.MLClassificationReport_fit_statistics r "test"
        = ([], inr (List.concat
                      (map (fun m => Classification.stats_df (Classification.test_scorer m))
                           cfitted))))
    /\
    (exists out r,
        Regression.MLRegressionReport_init
          train_test_emitter kfold_emitters fit_regression
          rmodels datahandler y_var X_vars outer_cv outer_cv_seed verbose
        = (out, inr r) /\
        Regression.MLRegressionReport_fit_statistics r "train"
        = ([], inr (List.concat
                      (map (fun m => Regression.stats_df (Regression.train_scorer m))
                           rfitted))) /\
        Regression.MLRegressionReport_fit_statistics r "test"
        = ([], inr (List.concat
                      (map (fun m => Regression.stats_df (Regression.test_scorer m))
                           rfitted)))).
Proof.
  intros cmodels rmodels datahandler y_var X_vars outer_cv seed verbose cfitted rfitted
         Hcne Hcnd Hrne Hrnd.
  assert (cfitted <> []) as Hcf
      by (subst cfitted; unfold Classification.fitted_models;
          destruct cmodels; [congruence | discriminate]).
  assert (rfitted <> []) as Hrf
      by (subst rfitted; unfold Regression.fitted_models;
          destruct rmodels; [congruence | discriminate]).
  split.
  - do 2 eexists. split; [apply Classification.class_report_constructed |].
    split; (rewrite Classification.class_fit_statistics_distinct; [reflexivity | ..]); auto.
  - do 2 eexists. split; [apply Regression.reg_report_constructed |].
    split; (rewrite Regression.reg_fit_statistics_distinct; [reflexivity | ..]); auto.
Qed.

(** C4, amended.  Over a non-empty collection of models whose names are
    pairwise distinct, [cv_fit_statistics] of a multi-model report looks
    at the cross validation flag of the first model only.  If the first
    model is not cross validated it prints a warning and returns [None].
    Otherwise it returns the column-wise concatenation, in the order
    supplied, of what the train report of every model gives for its cross
    validated statistics: the table of a cross validated model, and
    nothing, with one warning, for a model that is not.  The report itself
    checks no model but the first.  A model that reports itself cross
    validated is taken to carry its cross validation scorer. *)
Theorem cv_fit_statistics_first_model_proxy :
  forall (cmodels : list ClassModel) (rmodels : list RegModel)
         (datahandler : DataHandler) (y_var : string) (X_vars : list string)
         (outer_cv : option Z) (outer_cv_seed : Z) (verbose averaged : bool),
    let cfitted :=
      Classification.fitted_models train_test_emitter kfold_emitters fit_classification
        cmodels datahandler y_var X_vars outer_cv outer_cv_seed in
    let rfitted :=
      Regression.fitted_models train_test_emitter kfold_emitters fit_regression
        rmodels datahandler y_var X_vars outer_cv outer_cv_seed in
    cmodels <> [] -> NoDup (map Classification._name cfitted) ->
    (forall m, In m cfitted -> Classification.cv_scorer_present m) ->
    rmodels <> [] -> NoDup (map Regression._name rfitted) ->
    (forall m, In m rfitted -> Regression.cv_scorer_present m) ->
    (exists out r first,
        Classification.MLClassificationReport_init
          train_test_emitter kfold_emitters fit_classification
          cmodels datahandler y_var X_vars outer_cv outer_cv_seed verbose
        = (out, inr r) /\
        hd_error cfitted = Some first /\
        (Classification._is_cross_validated first = false ->
           Classification.MLClassificationReport_cv_fit_statistics r averaged
           = ([mkPrinted Classification.not_cross_validated_warning "WARNING"], inr None)) /\
        (Classification._is_cross_validated first = true ->
           Classification.MLClassificationReport_cv_fit_statistics r averaged
           = (flat_map Classification.cv_frame_prints cfitted,
              inr (Some (List.concat
                           (drop_none (map (Classification.cv_frame averaged) cfitted)))))))
    /\
    (exists out r first,
        Regression.MLRegressionReport_init
          train_test_emitter kfold_emitters fit_regression
          rmodels datahandler y_var X_vars outer_cv outer_cv_seed verbose
        = (out, inr r) /\
        hd_error rfitted = Some first /\
        (Regression._is_cross_validated first = false ->
           Regression.MLRegressionReport_cv_fit_statistics r averaged
           = ([mkPrinted Regression.not_cross_validated_warning "WARNING"], inr None)) /\
        (Regression._is_cross_validated first = true ->
           Regression.MLRegressionReport_cv_fit_statistics r averaged
           = (flat_map Regression.cv_frame_prints rfitted,
              inr (Some (List.concat
                           (drop_none (map (Regression.cv_frame averaged) rfitted))))))).
Proof.
  intros cmodels rmodels datahandler y_var X_vars outer_cv seed verbose averaged
         cfitted rfitted Hcne Hcnd Hcwf Hrne Hrnd Hrwf.
  split.
  - destruct cfitted as [| first rest] eqn:Hf.
    { subst cfitted. unfold Classification.fitted_models in Hf.
      destruct cmodels; [congruence | discriminate]. }
    exists (flat_map (Classification.fit_model_prints fit_classification verbose
                        (train_test_emitter datahandler y_var X_vars)
                        (Classification.outer_emitters kfold_emitters datahandler
                           y_var X_vars outer_cv seed)) cmodels).
    eexists. exists first.
    split; [apply Classification.class_report_constructed |].
    split; [reflexivity |].
    split; intros Hcv.
    + eapply Classification.class_cv_fit_statistics_first_not_cv; [exact Hf | exact Hcv].
    + rewrite <- Hf.
      eapply Classification.class_cv_fit_statistics_distinct; cbn; eauto;
        fold cfitted; rewrite ?Hf; auto.
  - destruct rfitted as [| first rest] eqn:Hf.
    { subst rfitted. unfold Regression.fitted_models in Hf.
      destruct rmodels; [congruence | discriminate]. }
    exists (flat_map (Regression.fit_model_prints fit_regression verbose
                        (train_test_emitter datahandler y_var X_vars)
                        (Regression.outer_emitters kfold_emitters datahandler
                           y_var X_vars outer_cv seed)) rmodels).
    eexists. exists first.
    split; [apply Regression.reg_report_constructed |].
    split; [reflexivity |].
    split; intros Hcv.
    + eapply Regression.reg_cv_fit_statistics_first_not_cv; [exact Hf | exact Hcv].
    + rewrite <- Hf.
      eapply Regression.reg_cv_fit_statistics_distinct; cbn; eauto;
        fold rfitted; rewrite ?Hf; auto.
Qed.

(** C10, amended.  [fit_statistics] of a multi-model report does not
    validate its dataset argument.  For every string other than train, a
    name such as validation included, the call does exactly what
    [fit_statistics] does for test; and over a non-empty collection of
    models that is: it returns the concatenated test-partition statistics
    of the entries of the name-to-report lookup, raises nothing and prints
    nothing. *)
Theorem fit_statistics_dataset_unvalidated :
  forall (cmodels : list ClassModel) (rmodels : list RegModel)
         (datahandler : DataHandler) (y_var : string) (X_vars : list string)
         (outer_cv : option Z) (outer_cv_seed : Z) (verbose : bool) (dataset : string),
    dataset <> "train" ->
    (exists out r,
        Classification.MLClassificationReport_init
          train_test_emitter kfold_emitters fit_classification
          cmodels datahandler y_var X_vars outer_cv outer_cv_seed verbose
        = (out, inr r) /\
        Classification.MLClassificationReport_fit_statistics r dataset
        = Classification.MLClassificationReport_fit_statistics r "test" /\
        (cmodels <> [] ->
         Classification.MLClassificationReport_fit_statistics r dataset
         = ([], inr (List.concat
                       (map (fun report =>
                               Classification.stats_df
                                 (Classification.test_scorer
                                    (Classification.routed_model report)))
                            (PyDict.values (Classification._id_to_report r)))))))
    /\
    (exists out r,
        Regression.MLRegressionReport_init
          train_test_emitter kfold_emitters fit_regression
          rmodels datahandler y_var X_vars outer_cv outer_cv_seed verbose
        = (out, inr r) /\
        Regression.MLRegressionReport_fit_statistics r dataset
        = Regression.MLRegressionReport_fit_statistics r "test" /\
        (rmodels <> [] ->
         Regression.MLRegressionReport_fit_statistics r dataset
         = ([], inr (List.concat
                       (map (fun report =>
                               Regression.stats_df
                                 (Regression.test_scorer
                                    (Regression.routed_model report)))
                            (PyDict.values (Regression._id_to_report r))))))).
Proof.
  intros cmodels rmodels datahandler y_var X_vars outer_cv seed verbose dataset Hd.
  pose proof Hd as Hneq. apply String.eqb_neq in Hneq.
  split.
  - do 2 eexists. split; [apply Classification.class_report_constructed |].
    split; [now apply Classification.class_fit_statistics_not_train |].
    intros Hne. rewrite Classification.class_fit_statistics_returns.
    + unfold Classification.partition_scorer. rewrite Hneq. reflexivity.
    + cbn [Classification._id_to_report]. apply comp_not_empty.
      unfold Classification.fitted_models. destruct cmodels; [congruence | discriminate].
  - do 2 eexists. split; [apply Regression.reg_report_constructed |].
    split; [now apply Regression.reg_fit_statistics_not_train |].
    intros Hne. rewrite Regression.reg_fit_statistics_returns.
    + unfold Regression.partition_scorer. rewrite Hneq. reflexivity.
    + cbn [Regression._id_to_report]. apply comp_not_empty.
      unfold Regression.fitted_models. destruct rmodels; [congruence | discriminate].
Qed.

End ReportClaims.

(* ===================================================================== *)
(** * More on the reports *)
(* ===================================================================== *)

Section MoreOnReports.

Context {Col Array Figure Axes FigSize DataHandler DataEmitter : Type}.

Variable train_test_emitter : DataHandler -> string -> list string -> DataEmitter.
Variable kfold_emitters :
  DataHandler -> string -> list string -> Z -> bool -> Z -> list DataEmitter.

Local Abbreviation ClassModel := (@Classification.BaseClassification Col Array).
Local Abbreviation RegModel := (@Regression.BaseRegression Col Array).

Variable fit_classification :
  DataEmitter -> option (list DataEmitter) -> ClassModel -> ClassModel.
Variable fit_regression :
  DataEmitter -> option (list DataEmitter) -> RegModel -> RegModel.

(** X6.  On a classification single-model/single-dataset report,
    [cv_fit_statistics_by_class] returns a table exactly when the model is
    cross validated, the task is not binary and the selector is train: the
    per-class table of the cross validation scorer, averaged or per fold.
    Otherwise it prints one warning and returns [None], and the warning
    tells the first reason that applies: not cross validated, then binary,
    then test data.  A model that reports itself cross validated is taken
    to carry its cross validation scorer. *)
Theorem cv_fit_statistics_by_class_cases :
  forall (mc : ClassModel) (dataset : string) (averaged : bool) out r,
    Classification.SingleModelSingleDatasetMLClassReport_init mc dataset = (out, inr r) ->
    Classification.cv_scorer_present mc ->
    let result :=
      Classification.SingleModelSingleDatasetMLClassReport_cv_fit_statistics_by_class
        r averaged in
    let cross_validated := Classification._is_cross_validated mc in
    let binary :=
      Classification.is_ClassificationBinaryScorer (Classification.train_scorer mc) in
    ((exists table, snd result = inr (Some table)) <->
       (cross_validated = true /\ binary = false /\ dataset = "train"))
    /\
    (cross_validated = false ->
       result = ([mkPrinted Classification.not_cross_validated_warning "WARNING"], inr None))
    /\
    (cross_validated = true -> binary = true ->
       result = ([mkPrinted Classification.cv_by_class_binary_warning "WARNING"], inr None))
    /\
    (cross_validated = true -> binary = false -> dataset = "test" ->
       result = ([mkPrinted Classification.cv_test_data_warning "WARNING"], inr None))
    /\
    (cross_validated = true -> binary = false -> dataset = "train" ->
       exists scorer,
         Classification.cv_scorer mc = Some scorer /\
         result = ([], inr (Some (if averaged
                                  then Classification.stats_by_class_df scorer
                                  else Classification.cv_stats_by_class_df scorer)))).
Proof.
  intros mc dataset averaged out r H Hwf. cbv zeta.
  rewrite (Classification.class_cv_fit_statistics_by_class_constructed _ _ _ _ averaged H).
  apply Classification.class_init_returns in H as (Hd & _ & _).
  unfold Classification.cv_scorer_present in Hwf.
  destruct (Classification._is_cross_validated mc) eqn:Hcv; simpl.
  - destruct (Classification.cv_scorer mc) as [scorer |] eqn:Hs;
      [| exfalso; now apply Hwf].
    destruct (Classification.is_ClassificationBinaryScorer (Classification.train_scorer mc));
      [| destruct Hd as [-> | ->]; simpl]; settle_cases.
  - settle_cases.
Qed.

(** X7.  Lookup by name in a multi-model report.  For a name that none of
    the supplied models carries, [model], [model_report] and the indexing
    operator raise [KeyError] with that name.  For a name that some model
    carries they all succeed, and the report found wraps the very model
    that [model] returns.  Fitting is taken to leave the names of the
    models as they are. *)
Theorem lookups_by_name :
  forall (cmodels : list ClassModel) (rmodels : list RegModel)
         (datahandler : DataHandler) (y_var : string) (X_vars : list string)
         (outer_cv : option Z) (outer_cv_seed : Z) (verbose : bool) (name : string),
    let emitter := train_test_emitter datahandler y_var X_vars in
    let cfit :=
      fit_classification emitter
        (Classification.outer_emitters kfold_emitters datahandler y_var X_vars
           outer_cv outer_cv_seed) in
    let rfit :=
      fit_regression emitter
        (Regression.outer_emitters kfold_emitters datahandler y_var X_vars
           outer_cv outer_cv_seed) in
    (forall m, In m cmodels -> Classification._name (cfit m) = Classification._name m) ->
    (forall m, In m rmodels -> Regression._name (rfit m) = Regression._name m) ->
    (exists out r,
        Classification.MLClassificationReport_init
          train_test_emitter kfold_emitters fit_classification
          cmodels datahandler y_var X_vars outer_cv outer_cv_seed verbose
        = (out, inr r) /\
        ((forall m, In m cmodels -> Classification._name m <> name) ->
           Classification.MLClassificationReport_model r name = raise (KeyError name) /\
           Classification.MLClassificationReport_model_report r name = raise (KeyError name) /\
           Classification.MLClassificationReport_getitem r name = raise (KeyError name)) /\
        ((exists m, In m cmodels /\ Classification._name m = name) ->
           exists m, In m cmodels /\ Classification._name m = name /\
             Classification.MLClassificationReport_model r name = ret (cfit m) /\
             Classification.MLClassificationReport_model_report r name
             = ret (Classification.SingleModelMLClassReport_init (cfit m)) /\
             Classification.MLClassificationReport_getitem r name
             = ret (Classification.SingleModelMLClassReport_init (cfit m))))
    /\
    (exists out r,
        Regression.MLRegressionReport_init
          train_test_emitter kfold_emitters fit_regression
          rmodels datahandler y_var X_vars outer_cv outer_cv_seed verbose
        = (out, inr r) /\
        ((forall m, In m rmodels -> Regression._name m <> name) ->
           Regression.MLRegressionReport_model r name = raise (KeyError name) /\
           Regression.MLRegressionReport_model_report r name = raise (KeyError name) /\
           Regression.MLRegressionReport_getitem r name = raise (KeyError name)) /\
        ((exists m, In m rmodels /\ Regression._name m = name) ->
           exists m, In m rmodels /\ Regression._name m = name /\
             Regression.MLRegressionReport_model r name = ret (rfit m) /\
             Regression.MLRegressionReport_model_report r name
             = ret (Regression.SingleModelMLRegReport_init (rfit m)) /\
             Regression.MLRegressionReport_getitem r name
             = ret (Regression.SingleModelMLRegReport_init (rfit m)))).
Proof.
  intros cmodels rmodels datahandler y_var X_vars outer_cv seed verbose name
         emitter cfit rfit Hcfit Hrfit.
  split.
  - do 2 eexists. split; [apply Classification.class_report_constructed |].
    unfold Classification.MLClassificationReport_model,
      Classification.MLClassificationReport_model_report,
      Classification.MLClassificationReport_getitem, PyDict.getitem.
    cbn [Classification._id_to_model Classification._id_to_report].
    unfold Classification.fitted_models. fold emitter. fold cfit.
    rewrite !get_comp, latest_map.
    rewrite (latest_ext (fun x => Classification._name (cfit x)) Classification._name)
      by exact Hcfit.
    destruct (latest Classification._name name cmodels) as [m |] eqn:E.
    + apply latest_some in E as [Hin Hname]. split.
      * intros Hno. exfalso. now apply (Hno m).
      * intros _. exists m. simpl. auto.
    + pose proof (proj1 (latest_none _ _ _) E) as Hno. split.
      * intros _. simpl. auto.
      * intros (m & Hin & Hname). exfalso. now apply (Hno m).
  - do 2 eexists. split; [apply Regression.reg_report_constructed |].
    unfold Regression.MLRegressionReport_model,
      Regression.MLRegressionReport_model_report,
      Regression.MLRegressionReport_getitem, PyDict.getitem.
    cbn [Regression._id_to_model Regression._id_to_report].
    unfold Regression.fitted_models. fold emitter. fold rfit.
    rewrite !get_comp, latest_map.
    rewrite (latest_ext (fun x => Regression._name (rfit x)) Regression._name)
      by exact Hrfit.
    destruct (latest Regression._name name rmodels) as [m |] eqn:E.
    + apply latest_some in E as [Hin Hname]. split.
      * intros Hno. exfalso. now apply (Hno m).
      * intros _. exists m. simpl. auto.
    + pose proof (proj1 (latest_none _ _ _) E) as Hno. split.
      * intros _. simpl. auto.
      * intros (m & Hin & Hname). exfalso. now apply (Hno m).
Qed.

(** X9.  [fit_statistics] of a multi-model report, whatever the names of
    the models: over a non-empty collection it returns one group of
    columns per distinct model name, in the order in which the names first
    occur, and the group of a name is the table of the last model supplied
    under that name. *)
Theorem fit_statistics_one_group_per_name :
  forall (cmodels : list ClassModel) (rmodels : list RegModel)
         (datahandler : DataHandler) (y_var : string) (X_vars : list string)
         (outer_cv : option Z) (outer_cv_seed : Z) (verbose : bool) (dataset : string),
    let cfitted :=
      Classification.fitted_models train_test_emitter kfold_emitters fit_classification
        cmodels datahandler y_var X_vars outer_cv outer_cv_seed in
    let rfitted :=
      Regression.fitted_models train_test_emitter kfold_emitters fit_regression
        rmodels datahandler y_var X_vars outer_cv outer_cv_seed in
    cmodels <> [] -> rmodels <> [] ->
    (exists out r,
        Classification.MLClassificationReport_init
          train_test_emitter kfold_emitters fit_classification
          cmodels datahandler y_var X_vars outer_cv outer_cv_seed verbose
        = (out, inr r) /\
        Classification.MLClassificationReport_fit_statistics r dataset
        = ([], inr (List.concat
                      (map (fun name =>
                              match latest Classification._name name cfitted with
                              | Some m =>
                                  Classification.stats_df
                                    (Classification.partition_scorer dataset m)
                              | None => []
                              end)
                           (first_occurrences (map Classification._name cfitted))))))
    /\
    (exists out r,
        Regression.MLRegressionReport_init
          train_test_emitter kfold_emitters fit_regression
          rmodels datahandler y_var X_vars outer_cv outer_cv_seed verbose
        = (out, inr r) /\
        Regression.MLRegressionReport_fit_statistics r dataset
        = ([], inr (List.concat
                      (map (fun name =>
                              match latest Regression._name name rfitted with
                              | Some m =>
                                  Regression.stats_df (Regression.partition_scorer dataset m)
                              | None => []
                              end)
                           (first_occurrences (map Regression._name rfitted)))))).
Proof.
  intros cmodels rmodels datahandler y_var X_vars outer_cv seed verbose dataset
         cfitted rfitted Hcne Hrne.
  split.
  - do 2 eexists. split; [apply Classification.class_report_constructed |].
    rewrite Classification.class_fit_statistics_returns.
    + cbn [Classification._id_to_report]. fold cfitted.
      unfold ret.
      apply (f_equal (fun frames => (@nil Printed, @inr PyExn _ (List.concat frames)))).
      exact (values_comp_latest Classification._name
               Classification.SingleModelMLClassReport_init
               (fun report =>
                  Classification.stats_df
                    (Classification.partition_scorer dataset
                       (Classification.routed_model report)))
               [] cfitted).
    + cbn [Classification._id_to_report]. apply comp_not_empty.
      unfold Classification.fitted_models. destruct cmodels; [congruence | discriminate].
  - do 2 eexists. split; [apply Regression.reg_report_constructed |].
    rewrite Regression.reg_fit_statistics_returns.
    + cbn [Regression._id_to_report]. fold rfitted.
      unfold ret.
      apply (f_equal (fun frames => (@nil Printed, @inr PyExn _ (List.concat frames)))).
      exact (values_comp_latest Regression._name
               Regression.SingleModelMLRegReport_init
               (fun report =>
                  Regression.stats_df
                    (Regression.partition_scorer dataset (Regression.routed_model report)))
               [] rfitted).
    + cbn [Regression._id_to_report]. apply comp_not_empty.
      unfold Regression.fitted_models. destruct rmodels; [congruence | discriminate].
Qed.

(** X13.  [cv_fit_statistics] of a multi-model report, whatever the names
    of the models.  The report runs over the models its name lookup holds:
    the last model of each distinct name, in the order in which the names
    first occur.  When the first model supplied is cross validated, it
    prints one warning for each of these that is not cross validated and
    returns the concatenation of the cross validated tables of the others;
    it never returns [None] then, and it raises [ValueError] when none of
    them is cross validated.  A model that reports itself cross validated
    is taken to carry its cross validation scorer. *)
Theorem cv_fit_statistics_over_the_lookup :
  forall (cmodels : list ClassModel) (rmodels : list RegModel)
         (datahandler : DataHandler) (y_var : string) (X_vars : list string)
         (outer_cv : option Z) (outer_cv_seed : Z) (verbose averaged : bool),
    let cfitted :=
      Classification.fitted_models train_test_emitter kfold_emitters fit_classification
        cmodels datahandler y_var X_vars outer_cv outer_cv_seed in
    let rfitted :=
      Regression.fitted_models train_test_emitter kfold_emitters fit_regression
        rmodels datahandler y_var X_vars outer_cv outer_cv_seed in
    (forall m, In m cfitted -> Classification.cv_scorer_present m) ->
    (forall m, In m rfitted -> Regression.cv_scorer_present m) ->
    (exists out r held,
        Classification.MLClassificationReport_init
          train_test_emitter kfold_emitters fit_classification
          cmodels datahandler y_var X_vars outer_cv outer_cv_seed verbose
        = (out, inr r) /\
        held = map Classification.routed_model
                   (PyDict.values (Classification._id_to_report r)) /\
        map Some held
        = map (fun name => latest Classification._name name cfitted)
              (first_occurrences (map Classification._name cfitted)) /\
        (forall first,
            hd_error cfitted = Some first ->
            Classification._is_cross_validated first = true ->
            Classification.MLClassificationReport_cv_fit_statistics r averaged
            = (flat_map Classification.cv_frame_prints held,
               match drop_none (map (Classification.cv_frame averaged) held) with
               | [] => inl (ValueError "All objects passed were None")
               | frame :: frames => inr (Some (List.concat (frame :: frames)))
               end)))
    /\
    (exists out r held,
        Regression.MLRegressionReport_init
          train_test_emitter kfold_emitters fit_regression
          rmodels datahandler y_var X_vars outer_cv outer_cv_seed verbose
        = (out, inr r) /\
        held = map Regression.routed_model (PyDict.values (Regression._id_to_report r)) /\
        map Some held
        = map (fun name => latest Regression._name name rfitted)
              (first_occurrences (map Regression._name rfitted)) /\
        (forall first,
            hd_error rfitted = Some first ->
            Regression._is_cross_validated first = true ->
            Regression.MLRegressionReport_cv_fit_statistics r averaged
            = (flat_map Regression.cv_frame_prints held,
               match drop_none (map (Regression.cv_frame averaged) held) with
               | [] => inl (ValueError "All objects passed were None")
               | frame :: frames => inr (Some (List.concat (frame :: frames)))
               end))).
Proof.
  intros cmodels rmodels datahandler y_var X_vars outer_cv seed verbose averaged
         cfitted rfitted Hcwf Hrwf.
  split.
  - do 3 eexists. split; [apply Classification.class_report_constructed |].
    split; [reflexivity |].
    cbn [Classification._id_to_report]. fold cfitted. split.
    + rewrite map_map.
      rewrite (values_comp_latest Classification._name
                 Classification.SingleModelMLClassReport_init
                 (fun report => Some (Classification.routed_model report)) None cfitted).
      apply map_ext. intros name.
      destruct (latest Classification._name name cfitted); reflexivity.
    + intros first Hfirst Hcv.
      destruct cfitted as [| first' rest] eqn:Hf; [discriminate |].
      injection Hfirst as <-.
      rewrite flat_map_concat_map, !map_map, <- flat_map_concat_map.
      rewrite <- Hf.
      rewrite (Classification.class_cv_fit_statistics_held _ first' rest averaged);
        [reflexivity | ..].
      * exact Hf.
      * exact Hcv.
      * cbn [Classification._id_to_report]. apply comp_not_empty.
        fold cfitted. rewrite Hf. discriminate.
      * cbn [Classification._id_to_report]. intros report Hin.
        apply values_comp_from in Hin as (m & Hin & ->).
        apply Hcwf. rewrite <- Hf. exact Hin.
  - do 3 eexists. split; [apply Regression.reg_report_constructed |].
    split; [reflexivity |].
    cbn [Regression._id_to_report]. fold rfitted. split.
    + rewrite map_map.
      rewrite (values_comp_latest Regression._name
                 Regression.SingleModelMLRegReport_init
                 (fun report => Some (Regression.routed_model report)) None rfitted).
      apply map_ext. intros name.
      destruct (latest Regression._name name rfitted); reflexivity.
    + intros first Hfirst Hcv.
      destruct rfitted as [| first' rest] eqn:Hf; [discriminate |].
      injection Hfirst as <-.
      rewrite flat_map_concat_map, !map_map, <- flat_map_concat_map.
      rewrite <- Hf.
      rewrite (Regression.reg_cv_fit_statistics_held _ first' rest averaged);
        [reflexivity | ..].
      * exact Hf.
      * exact Hcv.
      * cbn [Regression._id_to_report]. apply comp_not_empty.
        fold rfitted. rewrite Hf. discriminate.
      * cbn [Regression._id_to_report]. intros report Hin.
        apply values_comp_from in Hin as (m & Hin & ->).
        apply Hrwf. rewrite <- Hf. exact Hin.
Qed.

End MoreOnReports.

(* ===================================================================== *)
(** * Reports over a given test split (tabularmagic/interactive/regression.py) *)
(* ===================================================================== *)

(** ** dict with integer keys *)
Module PyIntDict.

Definition t (V : Type) : Type := list (Z * V).

Definition empty {V : Type} : t V := [].

Fixpoint setitem {V : Type} (k : Z) (v : V) (d : t V) : t V :=
  match d with
  | [] => [(k, v)]
  | (k', v') :: d' =>
      if Z.eqb k' k then (k', v) :: d' else (k', v') :: setitem k v d'
  end.

Fixpoint get {V : Type} (k : Z) (d : t V) : option V :=
  match d with
  | [] => None
  | (k', v') :: d' => if Z.eqb k' k then Some v' else get k d'
  end.

(** The decimal text of an integer, as [KeyError] shows it. *)
Definition int_repr (i : Z) : string := NilZero.string_of_int (Z.to_int i).

(** [d[k]] *)
Definition getitem {V : Type} (k : Z) (d : t V) : Py V :=
  match get k d with
  | Some v => ret v
  | None => raise (KeyError (int_repr k))
  end.

Definition keys {V : Type} (d : t V) : list Z := map fst d.

Definition values {V : Type} (d : t V) : list V := map snd d.

(** [{key(x): value(x) for x in l}] *)
Definition comp {A V : Type} (key : A -> Z) (value : A -> V) (l : list A) : t V :=
  fold_left (fun d x => setitem (key x) (value x) d) l empty.

End PyIntDict.

(** [enumerate(l)], counting from [start]. *)
Fixpoint enumerate_from {A : Type} (start : Z) (l : list A) : list (Z * A) :=
  match l with
  | [] => []
  | x :: l' => (start, x) :: enumerate_from (start + 1) l'
  end.

Definition enumerate {A : Type} (l : list A) : list (Z * A) := enumerate_from 0 l.

Section PyIntDictFacts.

Context {A V : Type}.
Variable value : A -> V.

Lemma int_setitem_fresh (k : Z) (v : V) (d : PyIntDict.t V) :
  ~ In k (PyIntDict.keys d) -> PyIntDict.setitem k v d = d ++ [(k, v)].
Proof.
  induction d as [| [k' v'] d IH]; simpl; intros H; [reflexivity |].
  destruct (Z.eqb_spec k' k); [tauto |].
  rewrite IH by tauto. reflexivity.
Qed.

Lemma map_snd_enumerate_from (start : Z) (l : list A) :
  map snd (enumerate_from start l) = l.
Proof. revert start. induction l; intros start; simpl; congruence. Qed.

Lemma enumerate_from_keys (start : Z) (l : list A) (k : Z) :
  In k (map fst (enumerate_from start l)) -> (start <= k < start + Z.of_nat (length l))%Z.
Proof.
  revert start. induction l as [| x l IH]; intros start; simpl; [tauto |].
  intros [<- | H]; [lia |]. apply IH in H. lia.
Qed.

(** Enumerated elements have keys of their own, so the dict lists them all
    in order. *)
Lemma comp_enumerate_from (start : Z) (l : list A) (d : PyIntDict.t V) :
  (forall k, In k (PyIntDict.keys d) -> (k < start)%Z) ->
  fold_left (fun d x => PyIntDict.setitem (fst x) (value (snd x)) d)
            (enumerate_from start l) d
  = d ++ map (fun x => (fst x, value (snd x))) (enumerate_from start l).
Proof.
  revert start d. induction l as [| x l IH]; intros start d H; simpl.
  - now rewrite app_nil_r.
  - rewrite int_setitem_fresh by (intros Hin; apply H in Hin; lia).
    rewrite IH.
    + now rewrite <- app_assoc.
    + intros k Hin. unfold PyIntDict.keys in Hin. rewrite map_app in Hin.
      apply in_app_or in Hin as [Hin | Hin].
      * apply H in Hin. lia.
      * simpl in Hin. destruct Hin as [<- | []]. lia.
Qed.

Lemma comp_enumerate (l : list A) :
  PyIntDict.comp fst (fun x => value (snd x)) (enumerate l)
  = map (fun x => (fst x, value (snd x))) (enumerate l).
Proof.
  unfold PyIntDict.comp, enumerate.
  rewrite comp_enumerate_from by (intros k []). reflexivity.
Qed.

Lemma values_comp_enumerate (l : list A) :
  PyIntDict.values (PyIntDict.comp fst (fun x => value (snd x)) (enumerate l))
  = map value l.
Proof.
  rewrite comp_enumerate. unfold PyIntDict.values, enumerate. rewrite map_map.
  generalize 0%Z. induction l as [| x l IH]; intros start; simpl; [reflexivity |].
  now rewrite IH.
Qed.

Lemma get_enumerated (start : Z) (l : list A) (i : nat) (x : A) :
  nth_error l i = Some x ->
  PyIntDict.get (start + Z.of_nat i)
                (map (fun x => (fst x, value (snd x))) (enumerate_from start l))
  = Some (value x).
Proof.
  revert start i. induction l as [| y l IH]; intros start [| i] H; simpl in *; try discriminate.
  - injection H as ->. rewrite Z.add_0_r, Z.eqb_refl. reflexivity.
  - destruct (Z.eqb_spec start (start + Z.pos (Pos.of_succ_nat i))); [lia |].
    replace (start + Z.pos (Pos.of_succ_nat i))%Z with (start + 1 + Z.of_nat i)%Z by lia.
    now apply IH.
Qed.

Lemma get_not_enumerated (start : Z) (l : list A) (k : Z) :
  (k < start \/ start + Z.of_nat (length l) <= k)%Z ->
  PyIntDict.get k (map (fun x => (fst x, value (snd x))) (enumerate_from start l)) = None.
Proof.
  revert start. induction l as [| y l IH]; intros start H; simpl in *; [reflexivity |].
  destruct (Z.eqb_spec start k); [lia |].
  apply IH. lia.
Qed.

End PyIntDictFacts.

Module InteractiveRegression.

Section Reports.

(** Frames, series, matrices and arrays, the models with their [predict],
    [_n_regressors] and [str], and the scaler of the target stay abstract. *)
Context {Col Frame Series Matrix Array Model Scaler : Type}.

(** [X_test.to_numpy()] *)
Variable to_numpy : Frame -> Matrix.
(** [y_test.to_numpy().flatten()] *)
Variable to_numpy_flatten : Frame -> Array.
(** [y_test.to_frame()] *)
Variable to_frame : Series -> Frame.
(** [model.predict(X)] *)
Variable predict : Model -> Matrix -> Array.
(** [model._n_regressors] *)
Variable _n_regressors : Model -> Z.
(** [str(model)] *)
Variable model_str : Model -> string.
(** [y_scaler.inverse_transform(a)] *)
Variable inverse_transform : Scaler -> Array -> Array.

(** A [RegressionScorer], as it is constructed here. *)
Record RegressionScorer : Type := {
  y_pred : Array;
  y_true : Array;
  n_regressors : Z;
  model_id_str : string
}.

(** [scorer.to_df()] *)
Variable to_df : RegressionScorer -> DataFrame Col.

(** ** RegressionReport *)

Record RegressionReport : Type := {
  model : Model;
  _X_test_df : Frame;
  _y_test_df : Frame;
  _y_pred : Array;
  _y_true : Array;
  scorer : RegressionScorer
}.

(** [__init__(self, model, X_test, y_test, y_scaler=None)] *)
Definition RegressionReport_init (model0 : Model) (X_test y_test : Frame)
    (y_scaler : option Scaler) : RegressionReport :=
  let y_pred0 := predict model0 (to_numpy X_test) in
  let y_true0 := to_numpy_flatten y_test in
  let (y_pred1, y_true1) :=
    match y_scaler with
    | Some scaler => (inverse_transform scaler y_pred0, inverse_transform scaler y_true0)
    | None => (y_pred0, y_true0)
    end in
  {| model := model0;
     _X_test_df := X_test;
     _y_test_df := y_test;
     _y_pred := y_pred1;
     _y_true := y_true1;
     scorer := {| y_pred := y_pred1;
                  y_true := y_true1;
                  n_regressors := _n_regressors model0;
                  model_id_str := model_str model0 |} |}.

(** ** MLRegressionReport *)

(** The target as the caller passes it: a frame, or a series. *)
Inductive YTest : Type :=
| YFrame (frame : Frame)
| YSeries (series : Series).

Record MLRegressionReport : Type := {
  models : list Model;
  _X_test : Frame;
  _y_test : Frame;
  _report_dict_indexable_by_int : PyIntDict.t RegressionReport;
  _report_dict_indexable_by_str : PyDict.t RegressionReport;
  fit_statistics : DataFrame Col
}.

(** [__init__(self, models, X_test, y_test, y_scaler=None)] *)
Definition MLRegressionReport_init (models0 : list Model) (X_test : Frame)
    (y_test : YTest) (y_scaler : option Scaler) : Py MLRegressionReport :=
  let y_test :=
    match y_test with
    | YFrame frame => frame
    | YSeries series => to_frame series
    end in
  let by_int :=
    PyIntDict.comp fst (fun im => RegressionReport_init (snd im) X_test y_test y_scaler)
                   (enumerate models0) in
  let by_str :=
    PyDict.comp (fun report => model_str (model report)) (fun report => report)
                (PyIntDict.values by_int) in
  statistics <- pd_concat_axis1
                  (map (fun report => Some (to_df (scorer report)))
                       (PyIntDict.values by_int)) ;;
  ret {| models := models0;
         _X_test := X_test;
         _y_test := y_test;
         _report_dict_indexable_by_int := by_int;
         _report_dict_indexable_by_str := by_str;
         fit_statistics := statistics |}.

(** What a caller can index with: an [int], a [str], or something else,
    given by its text.  A [bool] is an [int] to Python and counts as 0 or 1. *)
Inductive Index : Type :=
| IntIndex (i : Z)
| StrIndex (s : string)
| OtherIndex (text : string).

(** [report[index]] *)
Definition MLRegressionReport_getitem (self : MLRegressionReport) (index : Index)
  : Py RegressionReport :=
  match index with
  | IntIndex i => PyIntDict.getitem i (_report_dict_indexable_by_int self)
  | StrIndex s => PyDict.getitem s (_report_dict_indexable_by_str self)
  | OtherIndex text => raise (ValueError ("Invalid input: " ++ text ++ ".")%string)
  end.

(** ** Vocabulary of the statements below *)

(** The target frame the reports are built on. *)
Definition target_frame (y_test : YTest) : Frame :=
  match y_test with
  | YFrame frame => frame
  | YSeries series => to_frame series
  end.

(** The report of one model inside an [MLRegressionReport]. *)
Definition report_of (X_test : Frame) (y_test : YTest) (y_scaler : option Scaler)
    (model0 : Model) : RegressionReport :=
  RegressionReport_init model0 X_test (target_frame y_test) y_scaler.

(** ** What construction and indexing compute *)

Lemma model_of_report (X_test : Frame) (y_test : YTest) (y_scaler : option Scaler)
    (model0 : Model) :
  model (report_of X_test y_test y_scaler model0) = model0.
Proof. unfold report_of, RegressionReport_init. destruct y_scaler; reflexivity. Qed.

(** The constructor, with the two dicts and the table written out. *)
Lemma split_report_init_unfolded (models0 : list Model) (X_test : Frame) (y_test : YTest)
    (y_scaler : option Scaler) :
  MLRegressionReport_init models0 X_test y_test y_scaler
  = (statistics <- pd_concat_axis1
                     (map Some
                          (map (fun m => to_df (scorer (report_of X_test y_test y_scaler m)))
                               models0)) ;;
     ret {| models := models0;
            _X_test := X_test;
            _y_test := target_frame y_test;
            _report_dict_indexable_by_int :=
              map (fun im => (fst im, report_of X_test y_test y_scaler (snd im)))
                  (enumerate models0);
            _report_dict_indexable_by_str :=
              PyDict.comp (fun report => model_str (model report)) (fun report => report)
                          (map (report_of X_test y_test y_scaler) models0);
            fit_statistics := statistics |}).
Proof.
  unfold MLRegressionReport_init.
  change (match y_test with YFrame frame => frame | YSeries series => to_frame series end)
    with (target_frame y_test).
  change (fun im : Z * Model =>
            RegressionReport_init (snd im) X_test (target_frame y_test) y_scaler)
    with (fun im : Z * Model => report_of X_test y_test y_scaler (snd im)).
  rewrite (values_comp_enumerate (report_of X_test y_test y_scaler)).
  rewrite (comp_enumerate (report_of X_test y_test y_scaler)).
  rewrite !map_map. reflexivity.
Qed.

Lemma split_report_constructed (models0 : list Model) (X_test : Frame) (y_test : YTest)
    (y_scaler : option Scaler) out r :
  MLRegressionReport_init models0 X_test y_test y_scaler = (out, inr r) ->
  out = [] /\ models0 <> [] /\
  r = {| models := models0;
         _X_test := X_test;
         _y_test := target_frame y_test;
         _report_dict_indexable_by_int :=
           map (fun im => (fst im, report_of X_test y_test y_scaler (snd im)))
               (enumerate models0);
         _report_dict_indexable_by_str :=
           PyDict.comp (fun report => model_str (model report)) (fun report => report)
                       (map (report_of X_test y_test y_scaler) models0);
         fit_statistics :=
           List.concat (map (fun m => to_df (scorer (report_of X_test y_test y_scaler m)))
                            models0) |}.
Proof.
  rewrite split_report_init_unfolded.
  destruct models0 as [| m models0]; [discriminate |].
  rewrite pd_concat_axis1_frames by discriminate.
  rewrite bind_ret_l. unfold ret. intros H. inversion H; subst; clear H.
  split; [reflexivity |]. split; [discriminate | reflexivity].
Qed.

(** X10.  An [MLRegressionReport] over a given test split cannot be built
    over no models: the constructor raises [ValueError], because there is
    nothing to concatenate.  Over a non-empty collection it returns,
    prints nothing, and its [fit_statistics] table is the column-wise
    concatenation of the score tables of all the models, in the order
    supplied, whether or not two models print as the same string. *)
Theorem split_report_construction :
  forall (models0 : list Model) (X_test : Frame) (y_test : YTest)
         (y_scaler : option Scaler),
    (models0 = [] ->
       MLRegressionReport_init models0 X_test y_test y_scaler
       = ([], inl (ValueError "No objects to concatenate")))
    /\
    (models0 <> [] ->
       exists r,
         MLRegressionReport_init models0 X_test y_test y_scaler = ([], inr r) /\
         fit_statistics r
         = List.concat
             (map (fun m =>
                     to_df (scorer (RegressionReport_init m X_test (target_frame y_test)
                                      y_scaler)))
                  models0) /\
         PyIntDict.values (_report_dict_indexable_by_int r)
         = map (fun m => RegressionReport_init m X_test (target_frame y_test) y_scaler)
               models0).
Proof.
  intros models0 X_test y_test y_scaler. split.
  - intros ->. reflexivity.
  - intros Hne. rewrite split_report_init_unfolded.
    rewrite pd_concat_axis1_frames by (destruct models0; [congruence | discriminate]).
    rewrite bind_ret_l. eexists. split; [reflexivity |].
    split; [reflexivity |].
    cbn [_report_dict_indexable_by_int]. unfold PyIntDict.values, enumerate.
    rewrite map_map. generalize 0%Z.
    induction models0 as [| m l IH]; [congruence |]. intros start. simpl. f_equal.
    destruct l as [| m' l]; [reflexivity |]. apply IH. discriminate.
Qed.

(** X11.  Indexing an [MLRegressionReport] with an integer.  The index
    [i] of a model in the collection gives the report of that model; any
    other integer, a negative one included, raises [KeyError], since the
    reports are kept in a dict and not in a list.  An index that is
    neither an integer nor a string raises [ValueError]. *)
Theorem split_report_integer_index :
  forall (models0 : list Model) (X_test : Frame) (y_test : YTest)
         (y_scaler : option Scaler) out r,
    MLRegressionReport_init models0 X_test y_test y_scaler = (out, inr r) ->
    (forall i m, nth_error models0 i = Some m ->
       MLRegressionReport_getitem r (IntIndex (Z.of_nat i))
       = ret (RegressionReport_init m X_test (target_frame y_test) y_scaler) /\
       model (RegressionReport_init m X_test (target_frame y_test) y_scaler) = m)
    /\
    (forall i, (i < 0 \/ Z.of_nat (length models0) <= i)%Z ->
       MLRegressionReport_getitem r (IntIndex i) = raise (KeyError (PyIntDict.int_repr i)))
    /\
    (forall text,
       MLRegressionReport_getitem r (OtherIndex text)
       = raise (ValueError ("Invalid input: " ++ text ++ ".")%string)).
Proof.
  intros models0 X_test y_test y_scaler out r H.
  apply split_report_constructed in H as (_ & _ & ->).
  unfold MLRegressionReport_getitem, PyIntDict.getitem.
  cbn [_report_dict_indexable_by_int]. unfold enumerate.
  split; [| split].
  - intros i m Hi. split; [| apply model_of_report].
    rewrite <- (Z.add_0_l (Z.of_nat i)).
    now rewrite (get_enumerated (report_of X_test y_test y_scaler) 0 models0 i m Hi).
  - intros i Hi.
    now rewrite (get_not_enumerated (report_of X_test y_test y_scaler) 0 models0 i)
      by (simpl; lia).
  - reflexivity.
Qed.

(** X12.  Indexing an [MLRegressionReport] with a string.  The string a
    model prints as gives the report of the last model of the collection
    that prints so; a string that no model prints as raises [KeyError]. *)
Theorem split_report_string_index :
  forall (models0 : list Model) (X_test : Frame) (y_test : YTest)
         (y_scaler : option Scaler) out r,
    MLRegressionReport_init models0 X_test y_test y_scaler = (out, inr r) ->
    (forall before m after,
       models0 = before ++ m :: after ->
       (forall m', In m' after -> model_str m' <> model_str m) ->
       MLRegressionReport_getitem r (StrIndex (model_str m))
       = ret (RegressionReport_init m X_test (target_frame y_test) y_scaler))
    /\
    (forall s,
       (forall m, In m models0 -> model_str m <> s) ->
       MLRegressionReport_getitem r (StrIndex s) = raise (KeyError s)).
Proof.
  intros models0 X_test y_test y_scaler out r H.
  apply split_report_constructed in H as (_ & _ & ->).
  unfold MLRegressionReport_getitem, PyDict.getitem.
  cbn [_report_dict_indexable_by_str].
  pose proof (model_of_report X_test y_test y_scaler) as Hmodel.
  split.
  - intros before m after -> Hafter.
    rewrite map_app. cbn [map].
    rewrite <- (Hmodel m) at 1.
    rewrite (get_comp_latest (fun report => model_str (model report)) (fun report => report)).
    + reflexivity.
    + intros report Hin. apply in_map_iff in Hin as (m' & <- & Hin).
      rewrite !Hmodel. now apply Hafter.
  - intros s Hno.
    rewrite (get_comp_absent (fun report => model_str (model report)) (fun report => report));
      [reflexivity |].
    intros report Hin. apply in_map_iff in Hin as (m' & <- & Hin).
    rewrite Hmodel. now apply Hno.
Qed.

End Reports.

End InteractiveRegression.

(* ===================================================================== *)
(** * Worked examples *)
(* ===================================================================== *)

(** ** Feature selection on a small frame

    Scores are integers, a column scores by its first entry, and the Lasso
    coefficient of a column is its first entry less the regularisation
    weight.  The state of the random generator is an integer, and the
    mutual information of a column is its score plus a noise that grows
    with the state and with the position of the column.  Every frame with
    a column is taken as valid, and a message names the parameter that was
    refused. *)

Definition demo_X_train : DataFrame (list Z) :=
  [("age", [5; 1]%Z); ("height", [2; 1]%Z); ("income", [7; 0]%Z)].

Definition demo_score : ScoreFunc (Score := Z) (Series := list Z) (Target := list Z) :=
  fun X _ => inr (fun j => hd 0%Z (snd (nth j X ("", [])))).

Definition demo_mutual_info (state : Z)
  : ScoreFunc (Score := Z) (Series := list Z) (Target := list Z) :=
  fun X _ => inr (fun j => (hd 0 (snd (nth j X ("", []))) + state * Z.of_nat j)%Z).

Definition demo_lasso_coef (alpha0 : Z) (X : list (list Z)) (y : list Z)
  : PyExn + (nat -> Z) :=
  inr (fun j => (hd 0 (nth j X []) - alpha0)%Z).

Definition demo_message (refusal : Refusal) : string :=
  match refusal with
  | k_below_zero _ => "k"
  | score_func_not_callable => "score_func"
  | no_feature => "X"
  | max_features_below_zero _ => "max_features"
  | max_features_above _ _ => "max_features"
  | estimator_not_fitted => "estimator"
  end.

Definition demo_check_X_y (X : DataFrame (list Z)) (y : list Z) : option PyExn := None.

Definition demo_select
  : FeatureSelector -> DataFrame (list Z) * list Z -> Py (FeatureSelector * Selection) :=
  select Z.leb Z.ltb Z.opp Z.abs (fun score => score) demo_message
         demo_score demo_score demo_mutual_info 0%Z demo_check_X_y
         demo_lasso_coef 1%Z (fun emitter => emitter).

Example demo_kbest_selects_two :
  snd (demo_select (KBest (KBestSelectorR_init "f_regression" 2 None))
                   (demo_X_train, [1; 0]%Z))
  = inr (KBest {| kbest_base :=
                    {| _name := "KBestSelector(f_regression)";
                       _all_features := Some ["age"; "height"; "income"];
                       _selected_features := Some ["age"; "income"];
                       _support := Some [true; false; true] |};
                  _scorer := "f_regression";
                  _k := 2;
                  _all_feature_scores := Some [5; 2; 7]%Z;
                  _selected_feature_scores := Some [5; 7]%Z |},
         (["age"; "height"; "income"], ["age"; "income"], [true; false; true])).
Proof. reflexivity. Qed.

Example demo_lasso_selects_at_most_three :
  exists fs',
    demo_select (LassoSel (LassoSelectorR_init 3 5%Z None)) (demo_X_train, [1; 0]%Z)
    = ([], inr (fs', (["age"; "height"; "income"], ["height"; "income"],
                      [false; true; true]))).
Proof. eexists. reflexivity. Qed.

Example demo_lasso_selects_two :
  exists fs',
    demo_select (LassoSel (LassoSelectorR_init 2 2%Z None)) (demo_X_train, [1; 0]%Z)
    = ([], inr (fs', (["age"; "height"; "income"], ["age"; "income"], [true; false; true]))).
Proof. eexists. reflexivity. Qed.

(** Four features asked of a frame with three: all three are returned. *)
Lemma select_support_mask_invariant_witness :
  exists fs',
    demo_select (KBest (KBestSelectorR_init "f_regression" 4 None)) (demo_X_train, [1; 0]%Z)
    = ([], inr (fs', (["age"; "height"; "income"], ["age"; "height"; "income"],
                      [true; true; true])))
    /\ length [true; true; true] = length ["age"; "height"; "income"]
    /\ ["age"; "height"; "income"]
       = map fst (filter snd (combine ["age"; "height"; "income"] [true; true; true])).
Proof.
  eexists. split; [reflexivity |].
  exact (select_support_mask_invariant
           Z.leb Z.ltb Z.opp Z.abs (fun score => score) demo_message
           demo_score demo_score demo_mutual_info 0%Z demo_check_X_y
           demo_lasso_coef 1%Z (fun emitter => emitter)
           (KBest (KBestSelectorR_init "f_regression" 4 None)) (demo_X_train, [1; 0]%Z)
           _ _ _ _ _ eq_refl).
Defined.

(** ** Reports over small models

    A column of a statistics table is an integer, an array a list of
    integers, a figure the pair of arrays it was drawn from.  The models
    are given in the state fitting leaves them in, so fitting changes
    nothing. *)

Definition demo_train_test_emitter (datahandler : unit) (y_var : string)
    (X_vars : list string) : nat := 0.

Definition demo_kfold_emitters (datahandler : unit) (y_var : string) (X_vars : list string)
    (n_folds : Z) (shuffle : bool) (random_state : Z) : list nat :=
  seq 1 (Z.to_nat n_folds).

Definition demo_plot (y_score y_true : list Z) (figsize : nat * nat) (ax : option unit)
  : list Z * list Z := (y_score, y_true).

Definition demo_class_scorer (binary : bool) (tag : Z)
  : Classification.Scorer (Col := Z) (Array := list Z) :=
  {| Classification.is_ClassificationBinaryScorer := binary;
     Classification.stats_df := [("accuracy", tag)];
     Classification.stats_by_class_df := [("precision", tag + 1)%Z];
     Classification.cv_stats_df := [("fold 0", tag + 2)%Z; ("fold 1", tag + 3)%Z];
     Classification.cv_stats_by_class_df := [("fold 0 precision", tag + 4)%Z];
     Classification._y_pred_score := [tag];
     Classification._y_true := [1%Z] |}.

Definition demo_class_model (name : string) (binary cross_validated : bool) (tag : Z)
  : Classification.BaseClassification :=
  {| Classification._name := name;
     Classification.train_scorer := demo_class_scorer binary tag;
     Classification.test_scorer := demo_class_scorer binary (tag + 10);
     Classification.cv_scorer :=
       if cross_validated then Some (demo_class_scorer binary (tag + 20)) else None;
     Classification.train_overall_scorer := None;
     Classification._is_cross_validated := cross_validated |}.

Definition demo_reg_scorer (tag : Z) : Regression.Scorer (Col := Z) (Array := list Z) :=
  {| Regression.stats_df := [("rmse", tag)];
     Regression.cv_stats_df := [("fold 0", tag + 2)%Z; ("fold 1", tag + 3)%Z];
     Regression._y_pred := [tag];
     Regression._y_true := [1%Z] |}.

Definition demo_reg_model (name : string) (cross_validated : bool) (tag : Z)
  : Regression.BaseRegression :=
  {| Regression._name := name;
     Regression.train_scorer := demo_reg_scorer tag;
     Regression.test_scorer := demo_reg_scorer (tag + 10);
     Regression.cv_scorer := if cross_validated then Some (demo_reg_scorer (tag + 20)) else None;
     Regression._is_cross_validated := cross_validated |}.

Definition demo_fit_class (emitter : nat) (emitters : option (list nat))
    (model0 : Classification.BaseClassification (Col := Z) (Array := list Z))
  : Classification.BaseClassification := model0.

Definition demo_fit_reg (emitter : nat) (emitters : option (list nat))
    (model0 : Regression.BaseRegression (Col := Z) (Array := list Z))
  : Regression.BaseRegression := model0.

(** [MLClassificationReport(models, datahandler, 'y', ['x1', 'x2'],
    outer_cv=5, verbose=False)] and its regression twin. *)
Definition demo_class_report (models : list Classification.BaseClassification)
  : Py Classification.MLClassificationReport :=
  Classification.MLClassificationReport_init
    demo_train_test_emitter demo_kfold_emitters demo_fit_class
    models tt "y" ["x1"; "x2"] (Some 5%Z) 42%Z false.

Definition demo_reg_report (models : list Regression.BaseRegression)
  : Py Regression.MLRegressionReport :=
  Regression.MLRegressionReport_init
    demo_train_test_emitter demo_kfold_emitters demo_fit_reg
    models tt "y" ["x1"; "x2"] (Some 5%Z) 42%Z false.

Example demo_invalid_selector_rejected :
  Classification.SingleModelSingleDatasetMLClassReport_init
    (demo_class_model "forest" true true 100) "validation"
  = ([], inl (ValueError Classification.dataset_error)).
Proof. reflexivity. Qed.

Lemma single_report_cv_fit_statistics_witness :
  Classification.SingleModelSingleDatasetMLClassReport_cv_fit_statistics
    {| Classification.model := demo_class_model "forest" true true 100;
       Classification._is_binary := true;
       Classification._dataset := "train" |} false
  = ([], inr (Some [("fold 0", 122%Z); ("fold 1", 123%Z)]))
  /\
  exists text,
    Regression.SingleModelSingleDatasetMLRegReport_cv_fit_statistics
      {| Regression.model := demo_reg_model "ridge" false 100;
         Regression._dataset := "train" |} false
    = ([mkPrinted text "WARNING"], inr None).
Proof.
  destruct (single_report_cv_fit_statistics
              (demo_class_model "forest" true true 100) (demo_reg_model "ridge" false 100)
              "train" false [] _ [] _ eq_refl eq_refl
              (fun _ => ltac:(discriminate)) (fun H => ltac:(discriminate)))
    as [[_ [Hc _]] [_ [_ Hr]]].
  split.
  - destruct (Hc (conj eq_refl eq_refl)) as [scorer [Hs E]].
    injection Hs as <-. exact E.
  - exact (Hr (or_introl eq_refl)).
Defined.

Lemma fit_statistics_by_class_binary_absent_witness :
  Classification.SingleModelSingleDatasetMLClassReport_fit_statistics_by_class
    {| Classification.model := demo_class_model "forest" true false 100;
       Classification._is_binary := true;
       Classification._dataset := "test" |}
  = ([mkPrinted Classification.by_class_binary_warning "WARNING"], inr None).
Proof.
  exact (proj1 (fit_statistics_by_class_binary_absent
                  (demo_class_model "forest" true false 100) "test" [] _ eq_refl)
               eq_refl).
Defined.

(** A binary model fitted with nested cross validation: it carries an
    overall scorer besides its train scorer. *)
Definition demo_nested_cv_model : Classification.BaseClassification :=
  {| Classification._name := "boosting";
     Classification.train_scorer := demo_class_scorer true 100;
     Classification.test_scorer := demo_class_scorer true 110;
     Classification.cv_scorer := Some (demo_class_scorer true 120);
     Classification.train_overall_scorer := Some (demo_class_scorer true 130);
     Classification._is_cross_validated := true |}.

Lemma plot_roc_curve_scorer_choice_witness :
  Classification.SingleModelSingleDatasetMLClassReport_plot_roc_curve demo_plot
    {| Classification.model := demo_nested_cv_model;
       Classification._is_binary := true;
       Classification._dataset := "train" |} (5, 5) None
  = ([], inr (Some ([130%Z], [1%Z]))).
Proof.
  exact (proj1 (proj1 (proj2 (plot_roc_curve_scorer_choice demo_plot
                                demo_nested_cv_model "train" (5, 5) None [] _ eq_refl)
                             eq_refl)
                      eq_refl)
               (demo_class_scorer true 130) eq_refl).
Defined.

(** Three classifiers and three regressors; the first and the last of each
    kind share the name m. *)
Definition demo_cA : Classification.BaseClassification := demo_class_model "m" true true 100.
Definition demo_cB : Classification.BaseClassification := demo_class_model "n" true false 200.
Definition demo_cC : Classification.BaseClassification := demo_class_model "m" true true 300.
Definition demo_rA : Regression.BaseRegression := demo_reg_model "m" true 100.
Definition demo_rB : Regression.BaseRegression := demo_reg_model "n" false 200.
Definition demo_rC : Regression.BaseRegression := demo_reg_model "m" true 300.

Lemma duplicate_names_resolve_to_latest_witness :
  (exists out r,
      demo_class_report [demo_cA; demo_cC; demo_cB] = (out, inr r) /\
      Classification.MLClassificationReport_model r "m" = ret demo_cC /\
      Classification.MLClassificationReport_model_report r "m"
      = ret (Classification.SingleModelMLClassReport_init demo_cC) /\
      Classification.MLClassificationReport_getitem r "m"
      = ret (Classification.SingleModelMLClassReport_init demo_cC) /\
      NoDup (PyDict.keys (Classification._id_to_model r)) /\
      NoDup (PyDict.keys (Classification._id_to_report r)))
  /\
  (exists out r,
      demo_reg_report [demo_rA; demo_rC; demo_rB] = (out, inr r) /\
      Regression.MLRegressionReport_model r "m" = ret demo_rC /\
      Regression.MLRegressionReport_model_report r "m"
      = ret (Regression.SingleModelMLRegReport_init demo_rC) /\
      Regression.MLRegressionReport_getitem r "m"
      = ret (Regression.SingleModelMLRegReport_init demo_rC) /\
      NoDup (PyDict.keys (Regression._id_to_model r)) /\
      NoDup (PyDict.keys (Regression._id_to_report r))).
Proof.
  refine (duplicate_names_resolve_to_latest
            demo_train_test_emitter demo_kfold_emitters demo_fit_class demo_fit_reg
            [demo_cA] [demo_cB] demo_cC [demo_rA] [demo_rB] demo_rC
            tt "y" ["x1"; "x2"] (Some 5%Z) 42%Z false _ _ _ _).
  - intros m [<- | []]. simpl. discriminate.
  - intros m _. reflexivity.
  - intros m [<- | []]. simpl. discriminate.
  - intros m _. reflexivity.
Defined.

Example demo_empty_report_cv_fit_statistics :
  exists r,
    demo_reg_report [] = ([], inr r) /\
    Regression.MLRegressionReport_cv_fit_statistics r true
    = ([], inl (IndexError "list index out of range")).
Proof. eexists. split; reflexivity. Qed.

Lemma fit_statistics_in_supplied_order_witness :
  (exists out r,
      demo_class_report [demo_cA; demo_cB] = (out, inr r) /\
      Classification.MLClassificationReport_fit_statistics r "train"
      = ([], inr [("accuracy", 100%Z); ("accuracy", 200%Z)]) /\
      Classification.MLClassificationReport_fit_statistics r "test"
      = ([], inr [("accuracy", 110%Z); ("accuracy", 210%Z)]))
  /\
  (exists out r,
      demo_reg_report [demo_rB; demo_rA] = (out, inr r) /\
      Regression.MLRegressionReport_fit_statistics r "train"
      = ([], inr [("rmse", 200%Z); ("rmse", 100%Z)]) /\
      Regression.MLRegressionReport_fit_statistics r "test"
      = ([], inr [("rmse", 210%Z); ("rmse", 110%Z)])).
Proof.
  refine (fit_statistics_in_supplied_order
            demo_train_test_emitter demo_kfold_emitters demo_fit_class demo_fit_reg
            [demo_cA; demo_cB] [demo_rB; demo_rA]
            tt "y" ["x1"; "x2"] (Some 5%Z) 42%Z false _ _ _ _).
  - discriminate.
  - simpl. repeat constructor; simpl; intuition discriminate.
  - discriminate.
  - simpl. repeat constructor; simpl; intuition discriminate.
Defined.

(** C6 as stated fails.  With the models m, n, m supplied in this order the
    train table is that of the third model followed by that of the second:
    the first model has no columns in it, and the third comes before the
    second.  Over no models at all the call raises. *)
Lemma fit_statistics_order_counterexample :
  (exists r,
      demo_class_report [demo_cA; demo_cB; demo_cC] = ([], inr r) /\
      Classification.MLClassificationReport_fit_statistics r "train"
      = ([], inr [("accuracy", 300%Z); ("accuracy", 200%Z)]) /\
      [("accuracy", 300%Z); ("accuracy", 200%Z)]
      <> List.concat
           (map (fun m => Classification.stats_df (Classification.train_scorer m))
                [demo_cA; demo_cB; demo_cC]))
  /\
  (exists r,
      demo_reg_report [demo_rA; demo_rB; demo_rC] = ([], inr r) /\
      Regression.MLRegressionReport_fit_statistics r "test"
      = ([], inr [("rmse", 310%Z); ("rmse", 210%Z)]) /\
      [("rmse", 310%Z); ("rmse", 210%Z)]
      <> List.concat
           (map (fun m => Regression.stats_df (Regression.test_scorer m))
                [demo_rA; demo_rB; demo_rC]))
  /\
  (exists r,
      demo_class_report [] = ([], inr r) /\
      Classification.MLClassificationReport_fit_statistics r "train"
      = ([], inl (ValueError "No objects to concatenate"))).
Proof.
  split; [| split]; eexists; (split; [reflexivity |]);
    try (split; [reflexivity | discriminate]); reflexivity.
Qed.

Lemma cv_fit_statistics_first_model_proxy_witness :
  (exists out r,
      demo_class_report [demo_cA; demo_cB] = (out, inr r) /\
      Classification.MLClassificationReport_cv_fit_statistics r true
      = ([mkPrinted Classification.not_cross_validated_warning "WARNING"],
         inr (Some [("accuracy", 120%Z)])))
  /\
  (exists out r,
      demo_reg_report [demo_rB; demo_rA] = (out, inr r) /\
      Regression.MLRegressionReport_cv_fit_statistics r true
      = ([mkPrinted Regression.not_cross_validated_warning "WARNING"], inr None)).
Proof.
  destruct (cv_fit_statistics_first_model_proxy
              demo_train_test_emitter demo_kfold_emitters demo_fit_class demo_fit_reg
              [demo_cA; demo_cB] [demo_rB; demo_rA]
              tt "y" ["x1"; "x2"] (Some 5%Z) 42%Z false true)
    as [(outc & rc & firstc & Hc & Hhc & _ & Hcv) (outr & rr & firstr & Hr & Hhr & Hncv & _)].
  - discriminate.
  - simpl. repeat constructor; simpl; intuition discriminate.
  - intros m [<- | [<- | []]]; intros H; simpl in *; discriminate.
  - discriminate.
  - simpl. repeat constructor; simpl; intuition discriminate.
  - intros m [<- | [<- | []]]; intros H; simpl in *; discriminate.
  - simpl in Hhc, Hhr. injection Hhc as <-. injection Hhr as <-.
    split.
    + exists outc, rc. split; [exact Hc | exact (Hcv eq_refl)].
    + exists outr, rr. split; [exact Hr | exact (Hncv eq_refl)].
Defined.

(** C4 as stated fails.  Two cross validated models of the same name: the
    table returned holds the columns of the second model only.  When the
    second model of that name is not cross validated, the call raises,
    although the first model of the collection is cross validated. *)
Lemma cv_fit_statistics_duplicate_counterexample :
  (exists r,
      demo_class_report [demo_cA; demo_cC] = ([], inr r) /\
      hd_error (Classification._models r) = Some demo_cA /\
      Classification._is_cross_validated demo_cA = true /\
      Classification.MLClassificationReport_cv_fit_statistics r true
      = ([], inr (Some [("accuracy", 320%Z)])) /\
      [("accuracy", 320%Z)]
      <> List.concat (drop_none (map (Classification.cv_frame true) [demo_cA; demo_cC])))
  /\
  (exists r,
      demo_reg_report [demo_rA; demo_reg_model "m" false 200] = ([], inr r) /\
      hd_error (Regression._models r) = Some demo_rA /\
      Regression._is_cross_validated demo_rA = true /\
      Regression.MLRegressionReport_cv_fit_statistics r true
      = ([mkPrinted Regression.not_cross_validated_warning "WARNING"],
         inl (ValueError "All objects passed were None"))).
Proof.
  split; eexists; (split; [reflexivity |]); repeat split; discriminate.
Qed.

Lemma fit_statistics_dataset_unvalidated_witness :
  (exists out r,
      demo_class_report [demo_cA; demo_cB] = (out, inr r) /\
      Classification.MLClassificationReport_fit_statistics r "validation"
      = Classification.MLClassificationReport_fit_statistics r "test" /\
      Classification.MLClassificationReport_fit_statistics r "validation"
      = ([], inr [("accuracy", 110%Z); ("accuracy", 210%Z)]))
  /\
  (exists out r,
      demo_reg_report [demo_rA; demo_rB] = (out, inr r) /\
      Regression.MLRegressionReport_fit_statistics r "validation"
      = Regression.MLRegressionReport_fit_statistics r "test" /\
      Regression.MLRegressionReport_fit_statistics r "validation"
      = ([], inr [("rmse", 110%Z); ("rmse", 210%Z)])).
Proof.
  destruct (fit_statistics_dataset_unvalidated
              demo_train_test_emitter demo_kfold_emitters demo_fit_class demo_fit_reg
              [demo_cA; demo_cB] [demo_rA; demo_rB]
              tt "y" ["x1"; "x2"] (Some 5%Z) 42%Z false "validation"
              ltac:(discriminate))
    as [(outc & rc & Hc & Htc & Hvc) (outr & rr & Hr & Htr & Hvr)].
  specialize (Hvc ltac:(discriminate)). specialize (Hvr ltac:(discriminate)).
  injection Hc as <- <-. injection Hr as <- <-.
  split.
  - do 2 eexists. split; [reflexivity |]. split; [exact Htc | exact Hvc].
  - do 2 eexists. split; [reflexivity |]. split; [exact Htr | exact Hvr].
Defined.

(** C10 as stated fails.  Over an empty collection of models the call with
    a dataset other than train raises instead of returning a table. *)
Lemma fit_statistics_empty_counterexample :
  (exists r,
      demo_class_report [] = ([], inr r) /\
      "validation" <> "train" /\
      Classification.MLClassificationReport_fit_statistics r "validation"
      = ([], inl (ValueError "No objects to concatenate")))
  /\
  (exists r,
      demo_reg_report [] = ([], inr r) /\
      "validation" <> "train" /\
      Regression.MLRegressionReport_fit_statistics r "validation"
      = ([], inl (ValueError "No objects to concatenate"))).
Proof.
  split; eexists; (split; [reflexivity |]); (split; [discriminate | reflexivity]).
Qed.

(** ** More feature selection on the small frame *)

Definition demo_kbest_select_at (state : Z)
  : KBestSelectorR -> DataFrame (list Z) * list Z -> Py (KBestSelectorR * Selection) :=
  KBestSelectorR_select Z.leb (fun score => score) demo_message
                        demo_score demo_score demo_mutual_info state demo_check_X_y
                        (fun emitter => emitter).

Definition demo_kbest_select
  : KBestSelectorR -> DataFrame (list Z) * list Z -> Py (KBestSelectorR * Selection) :=
  demo_kbest_select_at 0%Z.

Definition demo_lasso_select
  : LassoSelectorR -> DataFrame (list Z) * list Z -> Py (LassoSelectorR * Selection) :=
  LassoSelectorR_select Z.leb Z.ltb Z.opp Z.abs demo_message demo_lasso_coef 1%Z
                        (fun emitter => emitter).

Lemma KBestSelectorR_selects_k_or_all_witness :
  exists self',
    demo_kbest_select (KBestSelectorR_init "r_regression" 5 None) (demo_X_train, [1; 0]%Z)
    = ([], inr (self', (["age"; "height"; "income"], ["age"; "height"; "income"],
                        [true; true; true])))
    /\ Z.of_nat (count_true [true; true; true]) = Z.min 5 3
    /\ Z.of_nat (length ["age"; "height"; "income"]) = Z.min 5 3.
Proof.
  eexists. split; [reflexivity |].
  destruct (KBestSelectorR_selects_k_or_all
              Z.leb (fun score => score) demo_message
              demo_score demo_score demo_mutual_info 0%Z demo_check_X_y
              (fun emitter => emitter)
              (KBestSelectorR_init "r_regression" 5 None) (demo_X_train, [1; 0]%Z)
              _ _ _ _ _ eq_refl)
    as (_ & Hmask & Hselected & _).
  exact (conj Hmask Hselected).
Defined.

Lemma LassoSelectorR_selects_at_most_max_witness :
  exists self',
    demo_lasso_select (LassoSelectorR_init 1 2%Z None) (demo_X_train, [1; 0]%Z)
    = ([], inr (self', (["age"; "height"; "income"], ["income"], [false; false; true])))
    /\ (Z.of_nat (length ["income"]) <= 1)%Z.
Proof.
  eexists. split; [reflexivity |].
  exact (proj1 (LassoSelectorR_selects_at_most_max
                  Z.leb Z.ltb Z.opp Z.abs demo_message demo_lasso_coef 1%Z
                  (fun emitter => emitter)
                  (LassoSelectorR_init 1 2%Z None) (demo_X_train, [1; 0]%Z)
                  _ _ _ _ _ eq_refl)).
Defined.

(** A misspelt scorer name passes the constructor and fails in [select],
    and so do a negative [k], a frame without columns and, for the Lasso
    selector, a count above the number of columns. *)
Example demo_refusals :
  snd (demo_kbest_select (KBestSelectorR_init "f_regresion" 2 None) (demo_X_train, [1; 0]%Z))
  = inl (InvalidParameterError "score_func")
  /\ snd (demo_kbest_select (KBestSelectorR_init "f_regression" (-1) None)
                            (demo_X_train, [1; 0]%Z))
     = inl (InvalidParameterError "k")
  /\ snd (demo_kbest_select (KBestSelectorR_init "f_regression" 0 None) ([], [1; 0]%Z))
     = inl (ValueError "X")
  /\ snd (demo_lasso_select (LassoSelectorR_init 4 2%Z None) (demo_X_train, [1; 0]%Z))
     = inl (ValueError "max_features").
Proof. repeat split. Qed.

(** With [mutual_info_regression] the selection depends on the state of
    the random generator as well. *)
Example demo_mutual_info_follows_the_generator :
  (exists self',
      demo_kbest_select_at 0 (KBestSelectorR_init "mutual_info_regression" 2 None)
                           (demo_X_train, [1; 0]%Z)
      = ([], inr (self', (["age"; "height"; "income"], ["age"; "income"],
                          [true; false; true]))))
  /\
  (exists self',
      demo_kbest_select_at 10 (KBestSelectorR_init "mutual_info_regression" 2 None)
                           (demo_X_train, [1; 0]%Z)
      = ([], inr (self', (["age"; "height"; "income"], ["height"; "income"],
                          [false; true; true])))).
Proof. split; eexists; reflexivity. Qed.


Lemma KBestSelectorR_selects_none_or_all_witness :
  exists self',
    demo_kbest_select (KBestSelectorR_init "f_regression" 3 None) (demo_X_train, [1; 0]%Z)
    = ([], inr (self', (["age"; "height"; "income"], ["age"; "height"; "income"],
                        [true; true; true])))
    /\ ["age"; "height"; "income"] = ["age"; "height"; "income"]
    /\ [true; true; true] = repeat true 3.
Proof.
  eexists. split; [reflexivity |].
  exact (proj2 (KBestSelectorR_selects_none_or_all
                  Z.leb (fun score => score) demo_message
                  demo_score demo_score demo_mutual_info 0%Z demo_check_X_y
                  (fun emitter => emitter)
                  (KBestSelectorR_init "f_regression" 3 None) (demo_X_train, [1; 0]%Z)
                  _ _ _ _ _ eq_refl)
               eq_refl).
Defined.

(** ** More on the small reports *)

Lemma cv_fit_statistics_by_class_cases_witness :
  Classification.SingleModelSingleDatasetMLClassReport_cv_fit_statistics_by_class
    {| Classification.model := demo_class_model "forest" false true 100;
       Classification._is_binary := false;
       Classification._dataset := "train" |} true
  = ([], inr (Some [("precision", 121%Z)])).
Proof.
  destruct (cv_fit_statistics_by_class_cases
              (demo_class_model "forest" false true 100) "train" true [] _ eq_refl
              (fun _ => ltac:(discriminate)))
    as (_ & _ & _ & _ & H).
  destruct (H eq_refl eq_refl eq_refl) as [scorer [Hs E]].
  injection Hs as <-. exact E.
Defined.

Lemma lookups_by_name_witness :
  (exists out r,
      demo_class_report [demo_cA; demo_cB; demo_cC] = (out, inr r) /\
      Classification.MLClassificationReport_model r "lasso" = raise (KeyError "lasso") /\
      Classification.MLClassificationReport_model_report r "lasso"
      = raise (KeyError "lasso"))
  /\
  (exists out r m,
      demo_reg_report [demo_rA; demo_rB; demo_rC] = (out, inr r) /\
      Regression._name m = "n" /\
      Regression.MLRegressionReport_model r "n" = ret m /\
      Regression.MLRegressionReport_model_report r "n"
      = ret (Regression.SingleModelMLRegReport_init m)).
Proof.
  destruct (lookups_by_name
              demo_train_test_emitter demo_kfold_emitters demo_fit_class demo_fit_reg
              [demo_cA; demo_cB; demo_cC] [demo_rA; demo_rB; demo_rC]
              tt "y" ["x1"; "x2"] (Some 5%Z) 42%Z false "lasso"
              (fun m _ => eq_refl) (fun m _ => eq_refl))
    as [(outc & rc & Hc & Hno & _) _].
  destruct (lookups_by_name
              demo_train_test_emitter demo_kfold_emitters demo_fit_class demo_fit_reg
              [demo_cA; demo_cB; demo_cC] [demo_rA; demo_rB; demo_rC]
              tt "y" ["x1"; "x2"] (Some 5%Z) 42%Z false "n"
              (fun m _ => eq_refl) (fun m _ => eq_refl))
    as [_ (outr & rr & Hr & _ & Hyes)].
  split.
  - exists outc, rc. split; [exact Hc |].
    assert (forall m, In m [demo_cA; demo_cB; demo_cC] -> Classification._name m <> "lasso")
      as H by (intros m [<- | [<- | [<- | []]]]; discriminate).
    destruct (Hno H) as (H1 & H2 & _). exact (conj H1 H2).
  - destruct (Hyes (ex_intro _ demo_rB (conj (or_intror (or_introl eq_refl)) eq_refl)))
      as (m & _ & Hname & H1 & H2 & _).
    exists outr, rr, m. exact (conj Hr (conj Hname (conj H1 H2))).
Defined.

Example demo_verbose_construction :
  fst (Regression.MLRegressionReport_init
         demo_train_test_emitter demo_kfold_emitters demo_fit_reg
         [demo_rA; demo_rB] tt "y" ["x1"; "x2"] None 42%Z true)
  = [mkPrinted "Fitting model m." "UPDATE"; mkPrinted "Fitted model m." "UPDATE";
     mkPrinted "Fitting model n." "UPDATE"; mkPrinted "Fitted model n." "UPDATE"].
Proof. reflexivity. Qed.

Lemma fit_statistics_one_group_per_name_witness :
  (exists out r,
      demo_class_report [demo_cA; demo_cB; demo_cC] = (out, inr r) /\
      Classification.MLClassificationReport_fit_statistics r "train"
      = ([], inr [("accuracy", 300%Z); ("accuracy", 200%Z)]))
  /\
  (exists out r,
      demo_reg_report [demo_rA; demo_rB; demo_rC] = (out, inr r) /\
      Regression.MLRegressionReport_fit_statistics r "train"
      = ([], inr [("rmse", 300%Z); ("rmse", 200%Z)])).
Proof.
  exact (fit_statistics_one_group_per_name
           demo_train_test_emitter demo_kfold_emitters demo_fit_class demo_fit_reg
           [demo_cA; demo_cB; demo_cC] [demo_rA; demo_rB; demo_rC]
           tt "y" ["x1"; "x2"] (Some 5%Z) 42%Z false "train"
           ltac:(discriminate) ltac:(discriminate)).
Defined.

Lemma cv_fit_statistics_over_the_lookup_witness :
  (exists r,
      demo_class_report [demo_cA; demo_cB; demo_cC] = ([], inr r) /\
      Classification.MLClassificationReport_cv_fit_statistics r true
      = ([mkPrinted Classification.not_cross_validated_warning "WARNING"],
         inr (Some [("accuracy", 320%Z)])))
  /\
  (exists r,
      demo_reg_report [demo_rA; demo_reg_model "m" false 200] = ([], inr r) /\
      Regression.MLRegressionReport_cv_fit_statistics r true
      = ([mkPrinted Regression.not_cross_validated_warning "WARNING"],
         inl (ValueError "All objects passed were None"))).
Proof.
  destruct (cv_fit_statistics_over_the_lookup
              demo_train_test_emitter demo_kfold_emitters demo_fit_class demo_fit_reg
              [demo_cA; demo_cB; demo_cC] [demo_rA; demo_reg_model "m" false 200]
              tt "y" ["x1"; "x2"] (Some 5%Z) 42%Z false true)
    as [(outc & rc & heldc & Hc & Hheldc & _ & Hcvc) (outr & rr & heldr & Hr & Hheldr & _ & Hcvr)].
  - intros m [<- | [<- | [<- | []]]] H; simpl in *; discriminate.
  - intros m [<- | [<- | []]] H; simpl in *; discriminate.
  - specialize (Hcvc demo_cA eq_refl eq_refl). specialize (Hcvr demo_rA eq_refl eq_refl).
    injection Hc as <- <-. injection Hr as <- <-. subst heldc heldr.
    split; eexists; (split; [reflexivity |]); [exact Hcvc | exact Hcvr].
Defined.

(** ** A report over a given test split

    A model is a name and a slope and predicts the slope times the input;
    every kind of table or array is a list of integers. *)

Definition demo_split_report
    (models0 : list (string * Z)) (y_scaler : option Z)
  : Py (InteractiveRegression.MLRegressionReport (Col := Z)) :=
  InteractiveRegression.MLRegressionReport_init
    (fun frame : list Z => frame) (fun frame : list Z => frame) (fun series : list Z => series)
    (fun (m : string * Z) X => map (Z.mul (snd m)) X)
    (fun _ => 1%Z) fst
    (fun (scaler : Z) a => map (Z.mul scaler) a)
    (fun scorer => [(InteractiveRegression.model_id_str scorer,
                     hd 0%Z (InteractiveRegression.y_pred scorer))])
    models0 [1; 2]%Z (InteractiveRegression.YSeries [3; 4]%Z) y_scaler.

Example demo_split_report_statistics :
  exists r,
    demo_split_report [("ols", 2%Z); ("ridge", 3%Z); ("ols", 5%Z)] (Some 10%Z) = ([], inr r) /\
    InteractiveRegression.fit_statistics r = [("ols", 20%Z); ("ridge", 30%Z); ("ols", 50%Z)].
Proof. eexists. split; reflexivity. Qed.

Example demo_split_report_empty :
  demo_split_report [] None = ([], inl (ValueError "No objects to concatenate")).
Proof. reflexivity. Qed.

Lemma split_report_integer_index_witness :
  exists r report,
    demo_split_report [("ols", 2%Z); ("ridge", 3%Z); ("ols", 5%Z)] None = ([], inr r) /\
    InteractiveRegression.MLRegressionReport_getitem
      r (InteractiveRegression.IntIndex 2) = ret report /\
    InteractiveRegression.model report = ("ols", 5%Z) /\
    InteractiveRegression.MLRegressionReport_getitem
      r (InteractiveRegression.IntIndex (-1)) = raise (KeyError "-1").
Proof.
  do 2 eexists. split; [reflexivity |].
  destruct (InteractiveRegression.split_report_integer_index
              (fun frame : list Z => frame) (fun frame : list Z => frame)
              (fun series : list Z => series)
              (fun (m : string * Z) X => map (Z.mul (snd m)) X)
              (fun _ => 1%Z) fst
              (fun (scaler : Z) a => map (Z.mul scaler) a)
              (fun scorer => [(InteractiveRegression.model_id_str scorer,
                               hd 0%Z (InteractiveRegression.y_pred scorer))])
              [("ols", 2%Z); ("ridge", 3%Z); ("ols", 5%Z)] [1; 2]%Z
              (InteractiveRegression.YSeries [3; 4]%Z) None _ _ eq_refl)
    as (Hin & Hout & _).
  destruct (Hin 2%nat ("ols", 5%Z) eq_refl) as [H1 H2].
  exact (conj H1 (conj H2 (Hout (-1)%Z (or_introl eq_refl)))).
Defined.

Lemma split_report_string_index_witness :
  exists r report,
    demo_split_report [("ols", 2%Z); ("ridge", 3%Z); ("ols", 5%Z)] None = ([], inr r) /\
    InteractiveRegression.MLRegressionReport_getitem
      r (InteractiveRegression.StrIndex "ols") = ret report /\
    InteractiveRegression.model report = ("ols", 5%Z) /\
    InteractiveRegression.MLRegressionReport_getitem
      r (InteractiveRegression.StrIndex "lasso") = raise (KeyError "lasso").
Proof.
  do 2 eexists. split; [reflexivity |].
  destruct (InteractiveRegression.split_report_string_index
              (fun frame : list Z => frame) (fun frame : list Z => frame)
              (fun series : list Z => series)
              (fun (m : string * Z) X => map (Z.mul (snd m)) X)
              (fun _ => 1%Z) fst
              (fun (scaler : Z) a => map (Z.mul scaler) a)
              (fun scorer => [(InteractiveRegression.model_id_str scorer,
                               hd 0%Z (InteractiveRegression.y_pred scorer))])
              [("ols", 2%Z); ("ridge", 3%Z); ("ols", 5%Z)] [1; 2]%Z
              (InteractiveRegression.YSeries [3; 4]%Z) None _ _ eq_refl)
    as (Hlatest & Habsent).
  split; [| split].
  - exact (Hlatest [("ols", 2%Z); ("ridge", 3%Z)] ("ols", 5%Z) [] eq_refl
             (fun m' H => match H with end)).
  - reflexivity.
  - apply Habsent. intros m [<- | [<- | [<- | []]]]; discriminate.
Defined.
